(** * EventGhost build helper: dependency checks (builder/CheckDependencies.py)

    A shallow embedding of the version comparator, the per-kind dependency
    checkers, the check driver with its remediation and report phases, and
    the installers, together with the properties stated about them. *)

From Stdlib Require Import String Ascii List ZArith Lia Bool Arith.
From Stdlib Require Import Decimal DecimalString DecimalPos.
Import ListNotations.

Open Scope string_scope.
Open Scope list_scope.

(** ** Exceptions and results *)

(** The exception classes the module declares (lines 40-51) and the builtin
    ones its code can raise. *)
Inductive exn : Type :=
| MissingChocolatey
| MissingDependency
| MissingInstallMethod
| MissingPip
| MissingPowerShell
| WrongVersion
| ValueError
| TypeError
| AttributeError
| IOError
| KeyError
| IndexError
| WindowsError
| NotImplementedError
| PlainException (msg : string)
| OtherError (tag : string).

Definition exn_eq_dec (a b : exn) : {a = b} + {a <> b}.
Proof. decide equality; apply string_dec. Defined.

Inductive result (A : Type) : Type :=
| Ok (a : A)
| Raise (e : exn).
Arguments Ok {A} a.
Arguments Raise {A} e.

Definition bind {A B : Type} (r : result A) (k : A -> result B) : result B :=
  match r with
  | Ok a => k a
  | Raise e => Raise e
  end.

Notation "x <- r ;; k" := (bind r (fun x => k))
  (at level 61, r at next level, right associativity).

(** ** Text primitives of the interpreter *)

Module Py.

(** [string.digits] *)
Definition digits : string := "0123456789".

(** [c in s] for a one-character [c]. *)
Fixpoint contains (c : ascii) (s : string) : bool :=
  match s with
  | EmptyString => false
  | String d r => Ascii.eqb c d || contains c r
  end.

(** [filter(p, s)] on a [str] gives a [str]. *)
Fixpoint filter (p : ascii -> bool) (s : string) : string :=
  match s with
  | EmptyString => EmptyString
  | String c r => if p c then String c (filter p r) else filter p r
  end.

(** [s.split(sep)] for a one-character separator: never an empty list. *)
Fixpoint split (sep : ascii) (s : string) : list string :=
  match s with
  | EmptyString => [EmptyString]
  | String c r =>
      if Ascii.eqb c sep then EmptyString :: split sep r
      else match split sep r with
           | h :: t => String c h :: t
           | [] => [String c EmptyString]
           end
  end.

(** [sep.join(l)] *)
Fixpoint join (sep : string) (l : list string) : string :=
  match l with
  | [] => EmptyString
  | [x] => x
  | x :: t => (x ++ sep ++ join sep t)%string
  end.

Definition digit_value (c : ascii) : Z := Z.of_nat (nat_of_ascii c) - 48.

Fixpoint int_acc (acc : Z) (s : string) : Z :=
  match s with
  | EmptyString => acc
  | String c r => int_acc (10 * acc + digit_value c) r
  end.

(** [int(s)] on a text made of decimal digits only, which is all that
    [CompareVersion] hands to it: the empty text raises [ValueError], any
    other one is read in base ten (leading zeros allowed, no upper bound). *)
Definition int (s : string) : result Z :=
  match s with
  | EmptyString => Raise ValueError
  | _ => Ok (int_acc 0 s)
  end.

(** [s.lower()] on ASCII letters. *)
Definition lower_char (c : ascii) : ascii :=
  let n := nat_of_ascii c in
  if (65 <=? n)%nat && (n <=? 90)%nat then ascii_of_nat (n + 32) else c.

Fixpoint lower (s : string) : string :=
  match s with
  | EmptyString => EmptyString
  | String c r => String (lower_char c) (lower r)
  end.

(** [s.endswith(suffix)] *)
Fixpoint endswith (s suffix : string) : bool :=
  String.eqb s suffix ||
  match s with
  | EmptyString => false
  | String _ r => endswith r suffix
  end.

(** The bytes [str.strip()] and [isspace] treat as blank. *)
Definition is_space (c : ascii) : bool :=
  let n := nat_of_ascii c in
  ((9 <=? n)%nat && (n <=? 13)%nat) || (n =? 32)%nat.

Fixpoint lstrip (s : string) : string :=
  match s with
  | EmptyString => EmptyString
  | String c r => if is_space c then lstrip r else s
  end.

Fixpoint rstrip (s : string) : string :=
  match s with
  | EmptyString => EmptyString
  | String c r =>
      match rstrip r with
      | EmptyString => if is_space c then EmptyString else String c EmptyString
      | r' => String c r'
      end
  end.

Definition strip (s : string) : string := rstrip (lstrip s).

(** [f.readline()] on the whole content of a freshly opened file. *)
Fixpoint readline (s : string) : string :=
  match s with
  | EmptyString => EmptyString
  | String c r =>
      if Ascii.eqb c "010" then String c EmptyString else String c (readline r)
  end.

(** ["%d" % n] *)
Definition str_of_Z (n : Z) : string := NilZero.string_of_int (Z.to_int n).

(** Truth value of an optional text: [None] and [""] are false. *)
Definition truthy (o : option string) : bool :=
  match o with
  | Some (String _ _) => true
  | _ => false
  end.

End Py.

(** ** The version comparator (lines 54-67) *)

Definition in_digits (c : ascii) : bool := Py.contains c Py.digits.

(** The body of the [for i in range(numParts)] loop, over the indices still
    to visit. *)
Fixpoint CompareVersion_loop
    (wantedParts actualParts : list string) (range : list nat) : result Z :=
  match range with
  | [] => Ok 0%Z
  | i :: rest =>
      let wantedPart := nth i wantedParts EmptyString in
      let actualPart := nth i actualParts EmptyString in
      wantedPart <- Py.int (Py.filter in_digits wantedPart) ;;
      actualPart <- Py.int (Py.filter in_digits actualPart) ;;
      if (wantedPart >? actualPart)%Z then Ok (-1)%Z
      else if (wantedPart <? actualPart)%Z then Ok 1%Z
      else CompareVersion_loop wantedParts actualParts rest
  end.

Definition CompareVersion (actualVersion wantedVersion : string) : result Z :=
  let wantedParts := Py.split "." wantedVersion in
  let actualParts := Py.split "." actualVersion in
  let numParts := Nat.min (List.length wantedParts) (List.length actualParts) in
  CompareVersion_loop wantedParts actualParts (seq 0 numParts).

(** ** Descriptors (lines 71-81) *)

(** The build context the driver hands to every descriptor; only the two
    directories the checkers read are kept. *)
Record BuildSetup : Type := {
  pyVersionDir : string;
  sourceDir : string
}.

(** The concrete classes deriving from [DependencyBase]; the class of a
    descriptor fixes its [Check] method. *)
Inductive Kind : Type :=
| ModuleDependency
| PyWin32Dependency
| StacklessDependency
| InnoSetupDependency
| HtmlHelpWorkshopDependency
| DllDependency.

Definition Kind_eq_dec (a b : Kind) : {a = b} + {a <> b}.
Proof. decide equality. Defined.

(** An instance: its class and its attributes.  For [attr], [module],
    [package] and [url], [None] is the class default [None]; for [version]
    and [buildSetup] it stands for an attribute that was never set
    ([version] of a [DllDependency] before its first check, [buildSetup]
    before the driver runs), so that reading it raises [AttributeError]. *)
Record Descriptor : Type := {
  kind : Kind;
  name : string;
  version : option string;
  attr : option string;
  exact : bool;
  module : option string;
  package : option string;
  url : option string;
  buildSetup : option BuildSetup
}.

Definition set_buildSetup (dep : Descriptor) (bs : BuildSetup) : Descriptor :=
  {| kind := kind dep; name := name dep; version := version dep;
     attr := attr dep; exact := exact dep; module := module dep;
     package := package dep; url := url dep; buildSetup := Some bs |}.

(** The two assignments of [DllDependency.Check]: [self.exact = True]
    (line 185) and [self.version = ...] (line 186). *)
Definition set_exact (dep : Descriptor) : Descriptor :=
  {| kind := kind dep; name := name dep; version := version dep;
     attr := attr dep; exact := true; module := module dep;
     package := package dep; url := url dep; buildSetup := buildSetup dep |}.

Definition set_version (dep : Descriptor) (ver : string) : Descriptor :=
  {| kind := kind dep; name := name dep; version := Some ver;
     attr := attr dep; exact := exact dep; module := module dep;
     package := package dep; url := url dep; buildSetup := buildSetup dep |}.

(** The fields a descriptor is built with, without the back-reference. *)
Definition own_fields (dep : Descriptor) :
    string * option string * option string * bool
    * option string * option string * option string :=
  (name dep, version dep, attr dep, exact dep, module dep, package dep, url dep).

(** [DependencyBase.__init__] with the class defaults of line 74-78. *)
Definition new_ModuleDependency
    (name : string) (module : string) (version : string)
    (attr url : option string) : Descriptor :=
  {| kind := ModuleDependency; name := name; version := Some version;
     attr := attr; exact := false; module := Some module; package := None;
     url := url; buildSetup := None |}.

Definition new_PyWin32Dependency : Descriptor :=
  {| kind := PyWin32Dependency; name := "pywin32"; version := Some "220";
     attr := None; exact := false; module := None; package := None;
     url := Some "https://eventghost.github.io/dist/dependencies/pywin32-220-cp27-none-win32.whl";
     buildSetup := None |}.

Definition new_StacklessDependency : Descriptor :=
  {| kind := StacklessDependency; name := "Stackless Python";
     version := Some "2.7.9"; attr := None; exact := false; module := None;
     package := None; url := Some "http://www.stackless.com/";
     buildSetup := None |}.

Definition new_InnoSetupDependency : Descriptor :=
  {| kind := InnoSetupDependency; name := "Inno Setup";
     version := Some "5.5.8"; attr := None; exact := false; module := None;
     package := Some "innosetup";
     url := Some "http://www.innosetup.com/download.php/is-unicode.exe";
     buildSetup := None |}.

Definition new_HtmlHelpWorkshopDependency : Descriptor :=
  {| kind := HtmlHelpWorkshopDependency; name := "HTML Help Workshop";
     version := Some "1.32"; attr := None; exact := false; module := None;
     package := Some "html-help-workshop";
     url := Some "https://download.microsoft.com/download/0/A/9/0A939EF6-E31C-430F-A3DF-DFAE7960D564/htmlhelp.exe";
     buildSetup := None |}.

Definition new_DllDependency
    (name : string) (package url : option string) : Descriptor :=
  {| kind := DllDependency; name := name; version := None; attr := None;
     exact := false; module := None; package := package; url := url;
     buildSetup := None |}.

(** The module-level list (lines 212-276). *)
Definition DEPENDENCIES : list Descriptor := [
  new_ModuleDependency "agithub" "agithub" "2.0" None
    (Some "https://eventghost.github.io/dist/dependencies/agithub-2.0-cp27-none-any.whl");
  new_ModuleDependency "comtypes" "comtypes" "1.1.2" None None;
  new_ModuleDependency "ctypeslib" "ctypeslib" "0.5.6" None
    (Some "https://eventghost.github.io/dist/dependencies/ctypeslib-0.5.6-cp27-none-any.whl");
  new_ModuleDependency "future" "future" "0.15.2" None None;
  new_HtmlHelpWorkshopDependency;
  new_InnoSetupDependency;
  new_DllDependency "Microsoft Visual C++ Redistributable"
    (Some "vcredist2008")
    (Some "https://download.microsoft.com/download/1/1/1/1116b75a-9ec3-481a-a3c8-1777b5381140/vcredist_x86.exe");
  new_ModuleDependency "Pillow" "PIL" "3.1.1" (Some "PILLOW_VERSION") None;
  new_ModuleDependency "py2exe_py2" "py2exe" "0.6.9" None None;
  new_ModuleDependency "PyCrypto" "Crypto" "2.6.1" None
    (Some "https://eventghost.github.io/dist/dependencies/pycrypto-2.6.1-cp27-none-win32.whl");
  new_PyWin32Dependency;
  new_ModuleDependency "Sphinx" "sphinx" "1.3.5" None None;
  new_StacklessDependency;
  new_ModuleDependency "wxPython" "wx" "3.0.2.0" None
    (Some "https://eventghost.github.io/dist/dependencies/wxPython-3.0.2.0-cp27-none-win32.whl")
].

(** ** The surroundings of a check *)

(** What a version marker read off a module can be: a [str], something
    iterable (its items given by their [str()]), or anything else. *)
Inductive PyValue : Type :=
| VStr (s : string)
| VSeq (items : list string)
| VOpaque.

(** A loaded module, seen through [hasattr]/[getattr]. *)
Definition PyModule : Type := string -> option PyValue.

(** A file copied by [shutil.copyfile] or [shutil.copystat]. *)
Inductive FsEffect : Type :=
| CopyFile (src dst : string)
| CopyStat (src dst : string).

(** The interpreter, the file system and the helpers imported from other
    modules of the builder, as a check sees them. *)
Record World : Type := {
  (** [__import__(name)]; [Raise (OtherError "ImportError")] when the module
      is not found. *)
  w_import : string -> result PyModule;
  w_sys_prefix : string;
  w_version_info : Z * Z * Z;
  (** [os.path.join] and [os.path.basename] *)
  w_join : list string -> string;
  w_basename : string -> string;
  (** [open(path).read()], [None] for [IOError] *)
  w_read : string -> option string;
  w_environ : string -> option string;
  w_glob : string -> list string;
  (** [builder.InnoSetup.GetInnoCompilerPath] and
      [builder.Utils.GetHtmlHelpCompilerPath] *)
  w_GetInnoCompilerPath : option string;
  w_GetHtmlHelpCompilerPath : option string;
  (** [builder.DllVersionInfo.GetFileVersion] *)
  w_GetFileVersion : string -> result (list Z);
  (** [re.search] with the pattern of lines 180-182: the three groups *)
  w_search_manifest : string -> option (string * string * string);
  (** [int(x)] on an arbitrary text *)
  w_int : string -> result Z;
  (** the exception a copy raises, if any *)
  w_copy_error : FsEffect -> option exn
}.

Definition ImportError : exn := OtherError "ImportError".

(** What a call of [Check] leaves behind: the descriptor as mutated, the
    files copied, and how the call ended. *)
Record Checked : Type := {
  c_self : Descriptor;
  c_copied : list FsEffect;
  c_outcome : result unit
}.

Definition pure_check (self : Descriptor) (r : result unit) : Checked :=
  {| c_self := self; c_copied := []; c_outcome := r |}.

Definition attribute {A : Type} (o : option A) : result A :=
  match o with
  | Some a => Ok a
  | None => Raise AttributeError
  end.

(** [if CompareVersion(version, self.version) < 0: raise WrongVersion] *)
Definition check_version (actual : string) (wanted : option string) : result unit :=
  wanted <- attribute wanted ;;
  c <- CompareVersion actual wanted ;;
  if (c <? 0)%Z then Raise WrongVersion else Ok tt.

(** Lines 96-105: where the version marker is looked for. *)
Definition module_version (attr : option string) (m : PyModule) : result PyValue :=
  let by_attr :=
    match attr with
    | Some a => if Py.truthy attr then m a else None
    | None => None
    end in
  match by_attr with
  | Some v => Ok v
  | None =>
    match m "__version__" with
    | Some v => Ok v
    | None =>
      match m "VERSION" with
      | Some v => Ok v
      | None =>
        match m "version" with
        | Some v => Ok v
        | None => Raise (PlainException "Can't get version information")
        end
      end
    end
  end.

(** Lines 106-107. *)
Definition version_text (v : PyValue) : result string :=
  match v with
  | VStr s => Ok s
  | VSeq items => Ok (Py.join "." items)
  | VOpaque => Raise TypeError
  end.

Definition ModuleDependency_Check (w : World) (self : Descriptor) : result unit :=
  match module self with
  | None => Raise TypeError
  | Some m =>
    match w_import w m with
    | Raise e =>
        if exn_eq_dec e ImportError then Raise MissingDependency else Raise e
    | Ok loaded =>
        found <- module_version (attr self) loaded ;;
        actual <- version_text found ;;
        check_version actual (version self)
    end
  end.

(** Lines 119-121. *)
Definition pywin32_version_path (w : World) : string :=
  w_join w [w_sys_prefix w; "lib/site-packages/pywin32.version.txt"].

Definition PyWin32Dependency_Check (w : World) (self : Descriptor) : result unit :=
  let versionFilePath := pywin32_version_path w in
  match w_read w versionFilePath with
  | None => Raise MissingDependency
  | Some content =>
      let actual := Py.strip (Py.readline content) in
      check_version actual (version self)
  end.

(** The version string the runtime check formats (line 141). *)
Definition runtime_version (w : World) : string :=
  let '(major, minor, micro) := w_version_info w in
  (Py.str_of_Z major ++ "." ++ Py.str_of_Z minor ++ "." ++ Py.str_of_Z micro)%string.

Definition StacklessDependency_Check (w : World) (self : Descriptor) : result unit :=
  match w_import w "stackless" with
  | Raise _ => Raise MissingDependency
  | Ok _ =>
      check_version (runtime_version w) (version self)
  end.

Definition InnoSetupDependency_Check (w : World) (self : Descriptor) : result unit :=
  if negb (Py.truthy (w_GetInnoCompilerPath w)) then Raise MissingDependency
  else Ok tt.

Definition HtmlHelpWorkshopDependency_Check (w : World) (self : Descriptor) : result unit :=
  if negb (Py.truthy (w_GetHtmlHelpCompilerPath w)) then Raise MissingDependency
  else Ok tt.

(** [tuple(int(x) for x in parts)] *)
Fixpoint int_tuple (w : World) (parts : list string) : result (list Z) :=
  match parts with
  | [] => Ok []
  | x :: rest =>
      n <- w_int w x ;;
      ns <- int_tuple w rest ;;
      Ok (n :: ns)
  end.

Definition tuple_eqb (a b : list Z) : bool :=
  if list_eq_dec Z.eq_dec a b then true else false.

(** The loop of lines 201-207 over the files still to visit, after the
    copies already made. *)
Fixpoint DllDependency_files
    (w : World) (bs : BuildSetup) (wantedVersion : list Z)
    (files : list string) (copied : list FsEffect)
    : list FsEffect * result unit :=
  match files with
  | [] => (copied, Ok tt)
  | file :: rest =>
    match w_GetFileVersion w file with
    | Raise e => (copied, Raise e)
    | Ok v =>
      if negb (tuple_eqb v wantedVersion) then (copied, Raise WrongVersion)
      else
        let dest := w_join w [sourceDir bs; w_basename w file] in
        match w_copy_error w (CopyFile file dest) with
        | Some e => (copied, Raise e)
        | None =>
          match w_copy_error w (CopyStat file dest) with
          | Some e => (copied ++ [CopyFile file dest], Raise e)
          | None =>
              DllDependency_files w bs wantedVersion rest
                (copied ++ [CopyFile file dest; CopyStat file dest])
          end
        end
    end
  end.

(** The argument of [glob.glob] (lines 190-197); the groups of the match are
    the name, the version and the architecture, in this order. *)
Definition winsxs_pattern (w : World) (root g_name g_ver g_arch : string) : string :=
  w_join w [root; "WinSxS";
            (g_arch ++ "_" ++ g_name ++ "_*_" ++ g_ver ++ "_*_*")%string;
            "*.dll"].

Definition DllDependency_Check (w : World) (self : Descriptor) : Checked :=
  match buildSetup self with
  | None => pure_check self (Raise AttributeError)
  | Some bs =>
    match w_read w (w_join w [pyVersionDir bs; "manifest.template"]) with
    | None => pure_check self (Raise IOError)
    | Some manifest =>
      let found := w_search_manifest w manifest in
      let self := set_exact self in
      match found with
      | None => pure_check self (Raise AttributeError)
      | Some (g_name, g_ver, g_arch) =>
        let self := set_version self g_ver in
        match int_tuple w (Py.split "." g_ver) with
        | Raise e => pure_check self (Raise e)
        | Ok wantedVersion =>
          match w_environ w "SystemRoot" with
          | None => pure_check self (Raise KeyError)
          | Some root =>
            let files := w_glob w (winsxs_pattern w root g_name g_ver g_arch) in
            match files with
            | [] => pure_check self (Raise MissingDependency)
            | _ :: _ =>
                let '(copied, r) := DllDependency_files w bs wantedVersion files [] in
                {| c_self := self; c_copied := copied; c_outcome := r |}
            end
          end
        end
      end
    end
  end.

(** Method dispatch on the class of the descriptor. *)
Definition Check (w : World) (self : Descriptor) : Checked :=
  match kind self with
  | ModuleDependency => pure_check self (ModuleDependency_Check w self)
  | PyWin32Dependency => pure_check self (PyWin32Dependency_Check w self)
  | StacklessDependency => pure_check self (StacklessDependency_Check w self)
  | InnoSetupDependency => pure_check self (InnoSetupDependency_Check w self)
  | HtmlHelpWorkshopDependency =>
      pure_check self (HtmlHelpWorkshopDependency_Check w self)
  | DllDependency => DllDependency_Check w self
  end.

(** ** The check phase of the driver (lines 280-287) *)

(** [except (WrongVersion, MissingDependency)] *)
Definition caught (e : exn) : bool :=
  match e with
  | WrongVersion | MissingDependency => true
  | _ => false
  end.

(** The state the first loop of [CheckDependencies] works on: the objects of
    [DEPENDENCIES], each at its position, [failedDeps] as the positions of
    the objects appended to it (the list holds references, not copies), and
    the files copied so far. *)
Record Phase1 : Type := {
  p_deps : list Descriptor;
  p_failedDeps : list nat;
  p_copied : list FsEffect;
  p_outcome : result unit
}.

(** The loop over the descriptors from position [i] on; an exception that
    is not caught leaves the loop at once. *)
Fixpoint CheckDependencies_loop
    (w : World) (bs : BuildSetup) (i : nat) (deps : list Descriptor) : Phase1 :=
  match deps with
  | [] => {| p_deps := []; p_failedDeps := []; p_copied := [];
             p_outcome := Ok tt |}
  | dep :: rest =>
      let c := Check w (set_buildSetup dep bs) in
      let continue (failed : list nat) :=
        let r := CheckDependencies_loop w bs (S i) rest in
        {| p_deps := c_self c :: p_deps r;
           p_failedDeps := failed ++ p_failedDeps r;
           p_copied := c_copied c ++ p_copied r;
           p_outcome := p_outcome r |} in
      match c_outcome c with
      | Ok _ => continue []
      | Raise e =>
          if caught e then continue [i]
          else {| p_deps := c_self c :: rest; p_failedDeps := [];
                  p_copied := c_copied c; p_outcome := Raise e |}
      end
  end.

Definition CheckDependencies_phase1
    (w : World) (buildSetup : BuildSetup) (deps : list Descriptor) : Phase1 :=
  CheckDependencies_loop w buildSetup 0 deps.

(** The descriptors a list of references stands for. *)
Definition deref (deps : list Descriptor) (refs : list nat) : list Descriptor :=
  flat_map (fun i => match nth_error deps i with
                     | Some d => [d]
                     | None => []
                     end) refs.

(** ** Installation (lines 368-448) *)

(** The commands run so far, each with its arguments. *)
Definition History : Type := list (list string).

(** The machine an installation runs on.  What a process returns and which
    files exist may depend on the processes run before. *)
Record Host : Type := {
  (** [builder.Utils.StartProcess]: the exit code, or the exception *)
  h_StartProcess : History -> list string -> result Z;
  h_exists : History -> string -> bool;
  (** [builder.Utils.GetEnvironmentVar] *)
  h_GetEnvironmentVar : string -> string;
  h_executable : string;
  h_join : list string -> string;
  h_dirname : string -> string;
  (** [platform.architecture()[0]] *)
  h_architecture : string;
  h_maxunicode : Z;
  (** [distutils.util.get_platform()] *)
  h_get_platform : string
}.

(** Code that runs processes and may raise. *)
Definition Proc (A : Type) : Type := History -> History * result A.

Definition pret {A : Type} (a : A) : Proc A := fun h => (h, Ok a).

Definition praise {A : Type} (e : exn) : Proc A := fun h => (h, Raise e).

Definition pbind {A B : Type} (m : Proc A) (k : A -> Proc B) : Proc B :=
  fun h =>
    match m h with
    | (h', Ok a) => k a h'
    | (h', Raise e) => (h', Raise e)
    end.

Notation "x <~ m ;; k" := (pbind m (fun x => k))
  (at level 61, m at next level, right associativity).

Definition StartProcess (host : Host) (args : list string) : Proc Z :=
  fun h => (h ++ [args], h_StartProcess host h args).

(** [s.rstrip(chars)] *)
Fixpoint rstrip_chars (s chars : string) : string :=
  match s with
  | EmptyString => EmptyString
  | String c r =>
      match rstrip_chars r chars with
      | EmptyString =>
          if Py.contains c chars then EmptyString else String c EmptyString
      | r' => String c r'
      end
  end.

(** [s.replace(a, b)] for one-character [a] and [b] *)
Fixpoint replace_char (a b : ascii) (s : string) : string :=
  match s with
  | EmptyString => EmptyString
  | String c r =>
      String (if Ascii.eqb c a then b else c) (replace_char a b r)
  end.

Definition GetChocolateyPath (host : Host) : Proc string :=
  fun h =>
    let path :=
      h_join host [h_GetEnvironmentVar host "ChocolateyInstall"; "bin"; "choco.exe"] in
    (h, Ok (if h_exists host h path then path else EmptyString)).

Definition GetPipPath (host : Host) : Proc string :=
  fun h =>
    let path :=
      h_join host
        [rstrip_chars (Py.lower (h_dirname host (h_executable host))) "scripts";
         "scripts"; "pip.exe"] in
    (h, Ok (if h_exists host h path then path else EmptyString)).

Definition is_empty (s : string) : bool :=
  match s with
  | EmptyString => true
  | _ => false
  end.

Definition Pip (host : Host) (args : list string) : Proc bool :=
  pip <~ GetPipPath host ;;
  if is_empty pip then praise MissingPip
  else
    match args with
    | [] => praise IndexError
    | verb :: _ =>
        let args :=
          if String.eqb (Py.lower verb) "install" then args ++ ["-U"]
          else if String.eqb (Py.lower verb) "uninstall" then args ++ ["-y"]
          else args in
        code <~ StartProcess host (pip :: args) ;;
        pret (code =? 0)%Z
    end.

Definition Choco (host : Host) (args : list string) : Proc bool :=
  choco <~ GetChocolateyPath host ;;
  _ <~ (if is_empty choco then
          fun h =>
            match StartProcess host
                    ["powershell"; "-NoProfile"; "-ExecutionPolicy"; "Bypass";
                     "-Command";
                     "iex ((new-object net.webclient).DownloadString('https://chocolatey.org/install.ps1'))"]
                    h with
            | (h', Ok code) =>
                if negb (code =? 0)%Z then (h', Raise MissingChocolatey)
                else (h', Ok tt)
            | (h', Raise e) =>
                if exn_eq_dec e WindowsError then (h', Raise MissingPowerShell)
                else (h', Raise e)
            end
        else pret tt) ;;
  choco <~ GetChocolateyPath host ;;
  let args := args ++ ["-f"; "-y"] in
  code <~ StartProcess host (choco :: args) ;;
  pret (code =? 0)%Z.

Definition InstallStackless (host : Host) (version : string) : Proc bool :=
  let ucs := if (Z.shiftr (h_maxunicode host) 16 =? 0)%Z then 2%Z else 4%Z in
  let platform := h_get_platform host in
  let package :=
    ("stackless-installer-C" ++ Py.str_of_Z ucs ++ "-" ++ platform)%string in
  let package_url :=
    ("https://bitbucket.org/akruis/slp-installer/downloads/"
     ++ replace_char "-" "_" package ++ "-" ++ version ++ ".1.zip")%string in
  _ <~ Pip host ["install"; package_url] ;;
  code <~ StartProcess host ["install-stackless"] ;;
  let result := (code =? 0)%Z in
  _ <~ Pip host ["uninstall"; package] ;;
  pret result.

Definition lift {A : Type} (r : result A) : Proc A := fun h => (h, r).

Definition InstallDependency (host : Host) (dep : Descriptor) : Proc bool :=
  if String.eqb (name dep) "Stackless Python" then
    v <~ lift (attribute (version dep)) ;;
    InstallStackless host v
  else if negb (Py.truthy (url dep)) && negb (Py.truthy (package dep)) then
    package <~ (if exact dep
                then v <~ lift (attribute (version dep)) ;;
                     pret (name dep ++ "==" ++ v)%string
                else pret (name dep)) ;;
    Pip host ["install"; package]
  else if Py.truthy (url dep)
          && Py.endswith (match url dep with Some u => u | None => EmptyString end)
                         ".whl" then
    Pip host ["install"; match url dep with Some u => u | None => EmptyString end]
  else if Py.truthy (package dep) then
    args <~ (if exact dep
             then v <~ lift (attribute (version dep)) ;;
                  pret (("--version=" ++ v)%string
                        :: (if String.eqb (h_architecture host) "32bit"
                            then ["--x86"] else []))
             else pret []) ;;
    Choco host
      ("install" :: match package dep with Some p => p | None => EmptyString end
       :: args)
  else praise MissingInstallMethod.

(** ** Remediation and report (lines 289-365) *)

(** What the driver leaves on the machine besides copied files: the
    processes started and the texts printed, one per [print] statement. *)
Record Console : Type := {
  out_history : History;
  out_printed : list string
}.

(** Code that starts processes, prints and may raise. *)
Definition Run (A : Type) : Type := Console -> Console * result A.

Definition rret {A : Type} (a : A) : Run A := fun c => (c, Ok a).

Definition rraise {A : Type} (e : exn) : Run A := fun c => (c, Raise e).

Definition rbind {A B : Type} (m : Run A) (k : A -> Run B) : Run B :=
  fun c =>
    match m c with
    | (c', Ok a) => k a c'
    | (c', Raise e) => (c', Raise e)
    end.

Notation "x <-- m ;; k" := (rbind m (fun x => k))
  (at level 61, m at next level, right associativity).

Definition run {A : Type} (p : Proc A) : Run A :=
  fun c =>
    let '(h, r) := p (out_history c) in
    ({| out_history := h; out_printed := out_printed c |}, r).

Definition print (text : string) : Run unit :=
  fun c =>
    ({| out_history := out_history c; out_printed := out_printed c ++ [text] |},
     Ok tt).

(** What the driver takes from its caller and from the modules of the
    builder that are not part of this file. *)
Record Session : Type := {
  (** [buildSetup.args.make_env] *)
  s_make_env : bool;
  (** [builder.Utils.IsAdmin()] *)
  s_IsAdmin : bool;
  (** [builder.Utils.WrapText] *)
  s_WrapText : string -> string;
  (** [sys.argv[0]] *)
  s_argv0 : string;
  (** [builder.VirtualEnv]: its name and its four functions *)
  ve_NAME : string;
  ve_Running : Run bool;
  ve_Exists : Run bool;
  ve_Activate : Run unit;
  ve_Restart : Run unit
}.

Definition newline : string := String "010" EmptyString.

Definition is_nil {A : Type} (l : list A) : bool :=
  match l with
  | [] => true
  | _ :: _ => false
  end.

(** [l.remove(x)]: the first occurrence goes, [ValueError] if there is
    none. *)
Fixpoint list_remove (x : nat) (l : list nat) : result (list nat) :=
  match l with
  | [] => Raise ValueError
  | y :: rest =>
      if Nat.eqb y x then Ok rest
      else rest' <- list_remove x rest ;; Ok (y :: rest')
  end.

(** The object a reference of the failure list stands for. *)
Definition the_dep (deps : list Descriptor) (i : nat) : Run Descriptor :=
  match nth_error deps i with
  | Some dep => rret dep
  | None => rraise IndexError
  end.

(** The three [except] clauses of lines 313-334: the text each prints. *)
Definition handled (s : Session) (e : exn) : option string :=
  match e with
  | MissingChocolatey =>
      Some (s_WrapText s
        "ERROR: To complete installation of this package, I need package manager Chocolatey, which wasn't found and couldn't be installed automatically. Please install it by hand and try again.")
  | MissingPip =>
      Some (s_WrapText s
        "ERROR: To complete installation of this package, I need package manager pip, which wasn't found. Note that all versions of Python capable of building EventGhost come bundled with pip, so please install a supported version of Python and try again.")
  | MissingPowerShell =>
      Some (s_WrapText s
        "ERROR: To complete installation of this package, I need package manager Chocolatey, which can't be installed without PowerShell. Please install PowerShell by hand and try again.")
  | _ => None
  end.

(** The loop of lines 306-335 over the copy of the failure list still to
    visit; [failedDeps] is the list items are removed from. *)
Fixpoint remediate_loop
    (host : Host) (s : Session) (deps : list Descriptor)
    (todo failedDeps : list nat) : Run (list nat) :=
  match todo with
  | [] => rret failedDeps
  | i :: rest =>
      dep <-- the_dep deps i ;;
      _ <-- print ("Installing " ++ name dep ++ "...")%string ;;
      fun c =>
        match run (InstallDependency host dep) c with
        | (c', Ok true) =>
            match list_remove i failedDeps with
            | Ok failedDeps' =>
                (_ <-- print EmptyString ;;
                 remediate_loop host s deps rest failedDeps') c'
            | Raise e => (c', Raise e)
            end
        | (c', Ok false) =>
            (_ <-- print ("ERROR: Installation of " ++ name dep ++ " failed!")%string ;;
             _ <-- print EmptyString ;;
             remediate_loop host s deps rest failedDeps) c'
        | (c', Raise e) =>
            match handled s e with
            | Some text =>
                (_ <-- print text ;;
                 _ <-- print EmptyString ;;
                 remediate_loop host s deps rest failedDeps) c'
            | None => (c', Raise e)
            end
        end
  end.

(** The loop of lines 345-349.  [print "  *", dep.name, dep.version]
    writes its items one after the other, so an unset version raises after
    the first two are out. *)
Fixpoint report_loop (deps : list Descriptor) (failedDeps : list nat) : Run unit :=
  match failedDeps with
  | [] => rret tt
  | i :: rest =>
      dep <-- the_dep deps i ;;
      match version dep with
      | None =>
          _ <-- print ("  * " ++ name dep)%string ;;
          rraise AttributeError
      | Some v =>
          _ <-- print ("  * " ++ name dep ++ " " ++ v)%string ;;
          _ <-- (match url dep with
                 | Some u =>
                     if Py.truthy (url dep) then print ("    Link: " ++ u)%string
                     else rret tt
                 | None => rret tt
                 end) ;;
          _ <-- print EmptyString ;;
          report_loop deps rest
      end
  end.

(** Lines 339-365. *)
Definition report
    (w : World) (host : Host) (s : Session)
    (deps : list Descriptor) (failedDeps : list nat) : Run bool :=
  _ <-- (if negb (is_nil failedDeps) then
           _ <-- print (s_WrapText s
                   "Before we can continue, the following dependencies must be installed:") ;;
           _ <-- print EmptyString ;;
           _ <-- report_loop deps failedDeps ;;
           _ <-- print (s_WrapText s
                   "Dependencies without an associated URL can be installed via `pip install [package-name]`. Dependencies in .whl format can be installed via `pip install [url]`. All other dependencies will need to be installed manually or via Chocolatey <https://chocolatey.org/>.") ;;
           if negb (s_make_env s) then
             _ <-- print EmptyString ;;
             print (s_WrapText s
               ("Alternately, from a command prompt with administrative privileges, I can try to create a virtual environment for you that satisfies all dependencies via `"
                ++ hd EmptyString (Py.split "." (w_basename w (h_executable host)))
                ++ " " ++ s_argv0 s ++ " --make-env`.")%string)
           else rret tt
         else rret tt) ;;
  rret (is_nil failedDeps).

(** Lines 297-304. *)
Definition ensure_virtualenv (host : Host) (s : Session) : Run unit :=
  running <-- ve_Running s ;;
  if negb running then
    present <-- ve_Exists s ;;
    _ <-- (if negb present then
             _ <-- print "Creating our virtual environment..." ;;
             _ <-- run (Pip host ["install"; "pip"; "-q"]) ;;
             _ <-- run (Pip host ["install"; "virtualenvwrapper-win"; "-q"]) ;;
             _ <-- run (StartProcess host ["mkvirtualenv.bat"; ve_NAME s]) ;;
             print EmptyString
           else rret tt) ;;
    ve_Activate s
  else rret tt.

(** Lines 289-365, from the failure list the first loop has built. *)
Definition CheckDependencies_phase23
    (w : World) (host : Host) (s : Session)
    (deps : list Descriptor) (failedDeps : list nat) : Run bool :=
  if negb (is_nil failedDeps) && s_make_env s
     && negb (Py.truthy (w_environ w "_REST"))
  then
    if negb (s_IsAdmin s) then
      _ <-- print (s_WrapText s
              "ERROR: Can't create virtual environment from a command prompt without administrative privileges.") ;;
      rret false
    else
      _ <-- ensure_virtualenv host s ;;
      failedDeps <-- remediate_loop host s deps failedDeps failedDeps ;;
      _ <-- print ("---" ++ newline)%string ;;
      _ <-- ve_Restart s ;;
      report w host s deps failedDeps
  else report w host s deps failedDeps.

(** What a call of [CheckDependencies] leaves behind and how it ends. *)
Record Driven : Type := {
  d_deps : list Descriptor;
  d_copied : list FsEffect;
  d_console : Console;
  d_result : result bool
}.

Definition CheckDependencies
    (w : World) (host : Host) (s : Session) (buildSetup : BuildSetup)
    (deps : list Descriptor) (c : Console) : Driven :=
  let r := CheckDependencies_phase1 w buildSetup deps in
  match p_outcome r with
  | Raise e =>
      {| d_deps := p_deps r; d_copied := p_copied r; d_console := c;
         d_result := Raise e |}
  | Ok _ =>
      let '(c', result) :=
        CheckDependencies_phase23 w host s (p_deps r) (p_failedDeps r) c in
      {| d_deps := p_deps r; d_copied := p_copied r; d_console := c';
         d_result := result |}
  end.

(** ** Vocabulary of the properties *)

(** A segment "contains at least one digit character". *)
Fixpoint has_digit (s : string) : bool :=
  match s with
  | EmptyString => false
  | String c r => in_digits c || has_digit r
  end.

(** The number a segment stands for once its other characters are dropped. *)
Definition seg_num (s : string) : Z := Py.int_acc 0 (Py.filter in_digits s).

(** The compared segments: position by position, as far as the shorter of
    the two segment lists goes; the wanted segment comes first. *)
Definition compared (actualVersion wantedVersion : string) : list (string * string) :=
  combine (Py.split "." wantedVersion) (Py.split "." actualVersion).

Definition both_have_digit (p : string * string) : Prop :=
  has_digit (fst p) = true /\ has_digit (snd p) = true.

Definition numerically_equal (p : string * string) : Prop :=
  both_have_digit p /\ seg_num (fst p) = seg_num (snd p).

(** A version text with the non-digit characters of every segment removed. *)
Definition strip_segments (v : string) : string :=
  Py.join "." (map (Py.filter in_digits) (Py.split "." v)).

(** The comparison loop read off the list of compared pairs. *)
Fixpoint compare_pairs (l : list (string * string)) : result Z :=
  match l with
  | [] => Ok 0%Z
  | (wantedPart, actualPart) :: rest =>
      wantedPart <- Py.int (Py.filter in_digits wantedPart) ;;
      actualPart <- Py.int (Py.filter in_digits actualPart) ;;
      if (wantedPart >? actualPart)%Z then Ok (-1)%Z
      else if (wantedPart <? actualPart)%Z then Ok 1%Z
      else compare_pairs rest
  end.

Definition swap_pair (p : string * string) : string * string := (snd p, fst p).

Definition strip_pair (p : string * string) : string * string :=
  (Py.filter in_digits (fst p), Py.filter in_digits (snd p)).

Definition is_prefix (l1 l2 : list string) : Prop := exists ext, l2 = l1 ++ ext.

(** ** Vocabulary of the checker properties *)

(** The manifest was read and matched, its version is a tuple of numbers
    and the system root is known: the pattern the side-by-side directories
    are looked up with exists, and [files] is what it matches. *)
Definition manifest_known
    (w : World) (self : Descriptor) (bs : BuildSetup)
    (g_ver : string) (wantedVersion : list Z) (files : list string) : Prop :=
  exists manifest g_name g_arch root,
    buildSetup self = Some bs
    /\ w_read w (w_join w [pyVersionDir bs; "manifest.template"]) = Some manifest
    /\ w_search_manifest w manifest = Some (g_name, g_ver, g_arch)
    /\ int_tuple w (Py.split "." g_ver) = Ok wantedVersion
    /\ w_environ w "SystemRoot" = Some root
    /\ w_glob w (winsxs_pattern w root g_name g_ver g_arch) = files.

(** The backing component of a descriptor cannot be found. *)
Definition not_found (w : World) (self : Descriptor) : Prop :=
  match kind self with
  | ModuleDependency =>
      exists m, module self = Some m /\ w_import w m = Raise ImportError
  | PyWin32Dependency => w_read w (pywin32_version_path w) = None
  | StacklessDependency => exists e, w_import w "stackless" = Raise e
  | InnoSetupDependency => Py.truthy (w_GetInnoCompilerPath w) = false
  | HtmlHelpWorkshopDependency => Py.truthy (w_GetHtmlHelpCompilerPath w) = false
  | DllDependency =>
      exists bs g_ver wantedVersion, manifest_known w self bs g_ver wantedVersion []
  end.

(** The installed version can be compared with the required one. *)
Definition comparable (actual : string) (wanted : option string) : Prop :=
  exists v c, wanted = Some v /\ CompareVersion actual v = Ok c.

(** Nothing a checker relies on fails in a way it does not provide for. *)
Definition nothing_unexpected (w : World) (self : Descriptor) : Prop :=
  match kind self with
  | ModuleDependency =>
      exists m, module self = Some m
        /\ (w_import w m = Raise ImportError
            \/ exists loaded found actual,
                 w_import w m = Ok loaded
                 /\ module_version (attr self) loaded = Ok found
                 /\ version_text found = Ok actual
                 /\ comparable actual (version self))
  | PyWin32Dependency =>
      forall content, w_read w (pywin32_version_path w) = Some content ->
        comparable (Py.strip (Py.readline content)) (version self)
  | StacklessDependency =>
      forall loaded, w_import w "stackless" = Ok loaded ->
        comparable (runtime_version w) (version self)
  | InnoSetupDependency => True
  | HtmlHelpWorkshopDependency => True
  | DllDependency =>
      exists bs g_ver wantedVersion files,
        manifest_known w self bs g_ver wantedVersion files
        /\ (forall file, In file files ->
              exists v, w_GetFileVersion w file = Ok v)
        /\ (forall copy, w_copy_error w copy = None)
  end.

(** The three outcomes a checker is meant to have. *)
Definition expected_outcome (r : result unit) : Prop :=
  r = Ok tt \/ r = Raise MissingDependency \/ r = Raise WrongVersion.

(** The checker of [dep] raised, once the driver has set the
    back-reference. *)
Definition raises (w : World) (bs : BuildSetup) (dep : Descriptor) : bool :=
  match c_outcome (Check w (set_buildSetup dep bs)) with
  | Ok _ => false
  | Raise _ => true
  end.

(** The descriptor as the check phase leaves it. *)
Definition after_check (w : World) (bs : BuildSetup) (dep : Descriptor) : Descriptor :=
  c_self (Check w (set_buildSetup dep bs)).

(** ** A build machine to run the definitions on *)

Definition module_with (marker : string) (v : PyValue) : PyModule :=
  fun a => if String.eqb a marker then Some v else None.

(** [posixpath.join]: a component starting with the separator replaces
    what precedes it, and no separator is added after an empty path or one
    that ends with it. *)
Definition posix_join (parts : list string) : string :=
  match parts with
  | [] => EmptyString
  | first :: others =>
      fold_left
        (fun path b =>
           if String.prefix "/" b then b
           else if is_empty path || Py.endswith path "/" then (path ++ b)%string
           else (path ++ "/" ++ b)%string)
        others first
  end.

(** [int] on texts of decimal digits; any other text is refused (the
    signs and blanks [int] also accepts do not occur on this machine). *)
Definition int_of_digits (text : string) : result Z :=
  if String.eqb (Py.filter in_digits text) text then Py.int text
  else Raise ValueError.

Definition sample_world : World := {|
  w_import := fun m =>
    if String.eqb m "comtypes" then Ok (module_with "__version__" (VStr "1.1.0"))
    else if String.eqb m "PIL" then Ok (module_with "PILLOW_VERSION" (VStr "3.1.1"))
    else if String.eqb m "wx" then Ok (module_with "version" (VSeq ["3"; "0"; "2"; "1"]))
    else if String.eqb m "sphinx" then Ok (module_with "__version__" (VStr "1.4.0b1"))
    else Raise ImportError;
  w_sys_prefix := "C:/Python27";
  w_version_info := (2, 7, 9)%Z;
  w_join := posix_join;
  w_basename := fun p => last (Py.split "/" p) EmptyString;
  w_read := fun p =>
    if String.eqb p "C:/eg/_build/data/Python27/manifest.template"
    then Some "manifest" else None;
  w_environ := fun k =>
    if String.eqb k "SystemRoot" then Some "C:/Windows" else None;
  w_glob := fun _ => ["C:/Windows/WinSxS/x86_crt/msvcr90.dll"];
  w_GetInnoCompilerPath := Some "C:/InnoSetup/ISCC.exe";
  w_GetHtmlHelpCompilerPath := None;
  w_GetFileVersion := fun _ => Ok [9; 0; 21022; 8]%Z;
  w_search_manifest := fun _ => Some ("Microsoft.VC90.CRT", "9.0.21022.8", "x86");
  w_int := int_of_digits;
  w_copy_error := fun _ => None
|}.

Definition sample_buildSetup : BuildSetup :=
  {| pyVersionDir := "C:/eg/_build/data/Python27"; sourceDir := "C:/eg" |}.

Definition sample_dll : Descriptor :=
  new_DllDependency "Microsoft Visual C++ Redistributable"
    (Some "vcredist2008")
    (Some "https://download.microsoft.com/download/1/1/1/1116b75a-9ec3-481a-a3c8-1777b5381140/vcredist_x86.exe").

Definition sample_host : Host := {|
  h_StartProcess := fun _ _ => Ok 0%Z;
  h_exists := fun _ _ => true;
  h_GetEnvironmentVar := fun _ => "C:/ProgramData/chocolatey";
  h_executable := "C:/Python27/python.exe";
  h_join := posix_join;
  h_dirname := fun _ => "C:/Python27";
  h_architecture := "32bit";
  h_maxunicode := 65535%Z;
  h_get_platform := "win32"
|}.

(** ** Vocabulary of the further properties *)

(** The result with its sign changed; an exception stays what it is. *)
Definition negate (r : result Z) : result Z :=
  match r with
  | Ok z => Ok (- z)%Z
  | Raise e => Raise e
  end.

Definition first_segment (v : string) : string :=
  hd EmptyString (Py.split "." v).

(** The compared pairs split at position [length pre]: every pair before it
    is numerically equal, [p] is the pair at it. *)
Definition decided_at
    (l pre : list (string * string)) (p : string * string)
    (post : list (string * string)) : Prop :=
  l = pre ++ p :: post /\ Forall numerically_equal pre.

(** ["%d.%d.%d" % (major, minor, micro)] *)
Definition format3 (major minor micro : Z) : string :=
  (Py.str_of_Z major ++ "." ++ Py.str_of_Z minor ++ "." ++ Py.str_of_Z micro)%string.

(** The triple [(x, y, z)] is below [(a, b, c)], position by position. *)
Definition triple_lt (x y z a b c : Z) : Prop :=
  (x < a \/ (x = a /\ (y < b \/ (y = b /\ z < c))))%Z.

(** A machine on which every module can be imported and the interpreter is
    Stackless 2.7.11. *)
Definition stackless_world : World := {|
  w_import := fun _ => Ok (module_with "__version__" (VStr "1.0"));
  w_sys_prefix := w_sys_prefix sample_world;
  w_version_info := (2, 7, 11)%Z;
  w_join := w_join sample_world;
  w_basename := w_basename sample_world;
  w_read := w_read sample_world;
  w_environ := w_environ sample_world;
  w_glob := w_glob sample_world;
  w_GetInnoCompilerPath := w_GetInnoCompilerPath sample_world;
  w_GetHtmlHelpCompilerPath := w_GetHtmlHelpCompilerPath sample_world;
  w_GetFileVersion := w_GetFileVersion sample_world;
  w_search_manifest := w_search_manifest sample_world;
  w_int := w_int sample_world;
  w_copy_error := w_copy_error sample_world
|}.

(** The longest prefix of [l] whose elements all satisfy [p]. *)
Fixpoint take_while {A : Type} (p : A -> bool) (l : list A) : list A :=
  match l with
  | [] => []
  | x :: rest => if p x then x :: take_while p rest else []
  end.

(** [GetFileVersion(file)] is the wanted tuple. *)
Definition has_version (w : World) (wantedVersion : list Z) (file : string) : bool :=
  match w_GetFileVersion w file with
  | Ok v => tuple_eqb v wantedVersion
  | Raise _ => false
  end.

(** The two copies made for a file whose version is the wanted one. *)
Definition copies_of (w : World) (bs : BuildSetup) (file : string) : list FsEffect :=
  let dest := w_join w [sourceDir bs; w_basename w file] in
  [CopyFile file dest; CopyStat file dest].

(** The positions of [deps], counted from [i], whose checker raises. *)
Definition raising_positions
    (w : World) (bs : BuildSetup) (i : nat) (deps : list Descriptor) : list nat :=
  map fst (filter (fun p => raises w bs (snd p))
                  (combine (seq i (List.length deps)) deps)).

(** The files copied by the checks of [deps], one after the other. *)
Definition copies_of_checks
    (w : World) (bs : BuildSetup) (deps : list Descriptor) : list FsEffect :=
  flat_map (fun dep => c_copied (Check w (set_buildSetup dep bs))) deps.

(** The checker of [dep] ends without an exception or with one the driver
    catches. *)
Definition passes_or_caught (w : World) (bs : BuildSetup) (dep : Descriptor) : Prop :=
  forall e, c_outcome (Check w (set_buildSetup dep bs)) = Raise e -> caught e = true.

(** The path [GetPipPath] looks for (lines 396-400). *)
Definition pip_exe (host : Host) : string :=
  h_join host
    [rstrip_chars (Py.lower (h_dirname host (h_executable host))) "scripts";
     "scripts"; "pip.exe"].

(** The path [GetChocolateyPath] looks for (lines 387-391). *)
Definition choco_exe (host : Host) : string :=
  h_join host [h_GetEnvironmentVar host "ChocolateyInstall"; "bin"; "choco.exe"].

(** The command [Choco] installs Chocolatey with (lines 372-376). *)
Definition bootstrap_command : list string :=
  ["powershell"; "-NoProfile"; "-ExecutionPolicy"; "Bypass"; "-Command";
   "iex ((new-object net.webclient).DownloadString('https://chocolatey.org/install.ps1'))"].

(** The package [InstallStackless] installs and removes again, and where it
    takes it from (lines 424-430). *)
Definition stackless_package (host : Host) : string :=
  ("stackless-installer-C"
   ++ Py.str_of_Z (if (Z.shiftr (h_maxunicode host) 16 =? 0)%Z then 2 else 4)%Z
   ++ "-" ++ h_get_platform host)%string.

Definition stackless_package_url (host : Host) (version : string) : string :=
  ("https://bitbucket.org/akruis/slp-installer/downloads/"
   ++ replace_char "-" "_" (stackless_package host)
   ++ "-" ++ version ++ ".1.zip")%string.

(** Neither [pip.exe] nor [choco.exe] is there. *)
Definition pip_missing (host : Host) (h : History) : Prop :=
  h_exists host h (pip_exe host) = false \/ pip_exe host = EmptyString.

Definition choco_missing (host : Host) (h : History) : Prop :=
  h_exists host h (choco_exe host) = false \/ choco_exe host = EmptyString.

(** The arguments [InstallDependency] adds for the package manager
    (lines 413-417). *)
Definition choco_arguments (host : Host) (exact : bool) (version : string) : list string :=
  if exact
  then ("--version=" ++ version)%string
       :: (if String.eqb (h_architecture host) "32bit" then ["--x86"] else [])
  else [].

(** A machine without pip and without Chocolatey, on which PowerShell
    cannot be started. *)
Definition bare_host : Host := {|
  h_StartProcess := fun _ _ => Raise WindowsError;
  h_exists := fun _ _ => false;
  h_GetEnvironmentVar := h_GetEnvironmentVar sample_host;
  h_executable := h_executable sample_host;
  h_join := h_join sample_host;
  h_dirname := h_dirname sample_host;
  h_architecture := h_architecture sample_host;
  h_maxunicode := h_maxunicode sample_host;
  h_get_platform := h_get_platform sample_host
|}.

(** The console after one more text has been printed. *)
Definition printed (c : Console) (text : string) : Console :=
  {| out_history := out_history c; out_printed := out_printed c ++ [text] |}.

(** [l1] is [l2] with some items left out, the others in their order. *)
Inductive subsequence {A : Type} : list A -> list A -> Prop :=
| sub_nil : subsequence [] []
| sub_skip (x : A) (l1 l2 : list A) :
    subsequence l1 l2 -> subsequence l1 (x :: l2)
| sub_keep (x : A) (l1 l2 : list A) :
    subsequence l1 l2 -> subsequence (x :: l1) (x :: l2).


Definition admin_error : string :=
  "ERROR: Can't create virtual environment from a command prompt without administrative privileges.".

(** The driver may remediate: there are failures, the caller asked for it
    and the process is not a restarted one. *)
Definition authorized (w : World) (s : Session) (failedDeps : list nat) : bool :=
  negb (is_nil failedDeps) && s_make_env s
  && negb (Py.truthy (w_environ w "_REST")).

(** A caller that asks for remediation, without administrative rights. *)
Definition sample_session : Session := {|
  s_make_env := true;
  s_IsAdmin := false;
  s_WrapText := fun text => text;
  s_argv0 := "Build.py";
  ve_NAME := "eg-py27";
  ve_Running := rret true;
  ve_Exists := rret true;
  ve_Activate := rret tt;
  ve_Restart := rret tt
|}.

(** The same caller with administrative rights. *)
Definition admin_session : Session := {|
  s_make_env := true;
  s_IsAdmin := true;
  s_WrapText := fun text => text;
  s_argv0 := "Build.py";
  ve_NAME := "eg-py27";
  ve_Running := rret true;
  ve_Exists := rret true;
  ve_Activate := rret tt;
  ve_Restart := rret tt
|}.

Definition empty_console : Console :=
  {| out_history := []; out_printed := [] |}.





(** The descriptors whose checker raised, as the check phase leaves them. *)
Definition failing (w : World) (bs : BuildSetup) (deps : list Descriptor) : list Descriptor :=
  map (after_check w bs) (filter (raises w bs) deps).


(** No character of [s] is blank. *)
Fixpoint no_blank (s : string) : bool :=
  match s with
  | EmptyString => true
  | String c r => negb (Py.is_space c) && no_blank r
  end.

(** The value of the first of [names] the module has. *)
Fixpoint first_present (m : PyModule) (names : list string) : option PyValue :=
  match names with
  | [] => None
  | n :: rest =>
      match m n with
      | Some v => Some v
      | None => first_present m rest
      end
  end.

(** The attribute names a version marker is looked for under, in order. *)
Definition candidates (attr : option string) : list string :=
  (match attr with
   | Some (String c a) => [String c a]
   | _ => []
   end) ++ ["__version__"; "VERSION"; "version"].

(** Every character of [s] is one of [chars]. *)
Fixpoint all_in (chars s : string) : bool :=
  match s with
  | EmptyString => true
  | String c r => Py.contains c chars && all_in chars r
  end.

(** The last character of [s] is one of [chars]. *)
Fixpoint ends_in (chars s : string) : bool :=
  match s with
  | EmptyString => false
  | String c EmptyString => Py.contains c chars
  | String _ r => ends_in chars r
  end.

(** [sample_world] with one more readable file. *)
Definition world_with_file (path content : string) : World := {|
  w_import := w_import sample_world;
  w_sys_prefix := w_sys_prefix sample_world;
  w_version_info := w_version_info sample_world;
  w_join := w_join sample_world;
  w_basename := w_basename sample_world;
  w_read := fun p =>
    if String.eqb p path then Some content else w_read sample_world p;
  w_environ := w_environ sample_world;
  w_glob := w_glob sample_world;
  w_GetInnoCompilerPath := w_GetInnoCompilerPath sample_world;
  w_GetHtmlHelpCompilerPath := w_GetHtmlHelpCompilerPath sample_world;
  w_GetFileVersion := w_GetFileVersion sample_world;
  w_search_manifest := w_search_manifest sample_world;
  w_int := w_int sample_world;
  w_copy_error := w_copy_error sample_world
|}.

(** An interpreter installed in a directory whose name ends in letters of
    the word "scripts". *)
Definition apps_host : Host := {|
  h_StartProcess := h_StartProcess sample_host;
  h_exists := h_exists sample_host;
  h_GetEnvironmentVar := h_GetEnvironmentVar sample_host;
  h_executable := "C:/Apps/python.exe";
  h_join := h_join sample_host;
  h_dirname := fun _ => "C:/Apps";
  h_architecture := h_architecture sample_host;
  h_maxunicode := h_maxunicode sample_host;
  h_get_platform := h_get_platform sample_host
|}.

(** The path of the manifest template (line 177). *)
Definition manifest_path (w : World) (bs : BuildSetup) : string :=
  w_join w [pyVersionDir bs; "manifest.template"].

(** Two build contexts give the same file paths: the same manifest
    template and the same destination for every copied file. *)
Definition same_paths (w : World) (bs1 bs2 : BuildSetup) : Prop :=
  manifest_path w bs1 = manifest_path w bs2
  /\ forall base, w_join w [sourceDir bs1; base] = w_join w [sourceDir bs2; base].

(** [sample_world] with a manifest template that does not match the
    pattern. *)
Definition unmatched_world : World := {|
  w_import := w_import sample_world;
  w_sys_prefix := w_sys_prefix sample_world;
  w_version_info := w_version_info sample_world;
  w_join := w_join sample_world;
  w_basename := w_basename sample_world;
  w_read := w_read sample_world;
  w_environ := w_environ sample_world;
  w_glob := w_glob sample_world;
  w_GetInnoCompilerPath := w_GetInnoCompilerPath sample_world;
  w_GetHtmlHelpCompilerPath := w_GetHtmlHelpCompilerPath sample_world;
  w_GetFileVersion := w_GetFileVersion sample_world;
  w_search_manifest := fun _ => None;
  w_int := w_int sample_world;
  w_copy_error := w_copy_error sample_world
|}.

(** What the remediation loop prints for one failing descriptor, given how
    its install ended. *)
Definition attempt_lines (s : Session) (dep : Descriptor) (r : result bool) : list string :=
  [("Installing " ++ name dep ++ "...")%string]
  ++ (match r with
      | Ok true => []
      | Ok false => [("ERROR: Installation of " ++ name dep ++ " failed!")%string]
      | Raise e =>
          match handled s e with
          | Some text => [text]
          | None => []
          end
      end)
  ++ [EmptyString].

(** The install returned a true value. *)
Definition succeeded (r : result bool) : bool :=
  match r with
  | Ok true => true
  | _ => false
  end.

(** The installs of the descriptors [ds], one after the other, each
    started in the history the one before left: the history at the end,
    the lines printed, and for every descriptor whether its install
    succeeded. *)
Record Attempted : Type := {
  a_history : History;
  a_lines : list string;
  a_installed : list bool
}.

Fixpoint install_run
    (host : Host) (s : Session) (ds : list Descriptor) (h : History) : Attempted :=
  match ds with
  | [] => {| a_history := h; a_lines := []; a_installed := [] |}
  | dep :: rest =>
      let r := InstallDependency host dep h in
      let after := install_run host s rest (fst r) in
      {| a_history := a_history after;
         a_lines := attempt_lines s dep (snd r) ++ a_lines after;
         a_installed := succeeded (snd r) :: a_installed after |}
  end.

(** The references whose install did not succeed. *)
Definition not_installed (refs : list nat) (installed : list bool) : list nat :=
  map fst (filter (fun p => negb (snd p)) (combine refs installed)).

(** ** Examples *)

Example CompareVersion_newer :
  CompareVersion "1.3" "1.2.1" = Ok 1%Z.
Proof. reflexivity. Qed.

Example CompareVersion_older :
  CompareVersion "1.2.1" "1.3" = Ok (-1)%Z.
Proof. reflexivity. Qed.

Example CompareVersion_no_digit :
  CompareVersion "1.x" "1.0" = Raise ValueError.
Proof. reflexivity. Qed.

Example CompareVersion_stops_early :
  CompareVersion "2.x" "1.y" = Ok 1%Z.
Proof. reflexivity. Qed.

Example strip_segments_example : strip_segments "1.0a.rc2" = "1.0.2".
Proof. reflexivity. Qed.

(** ** Text lemmas *)

Lemma split_not_nil (sep : ascii) (s : string) : Py.split sep s <> [].
Proof.
  destruct s as [|c r]; simpl; [discriminate|].
  destruct (Ascii.eqb c sep); [discriminate|].
  destruct (Py.split sep r); discriminate.
Qed.

Lemma split_app (sep : ascii) (a e : string) :
  Py.split sep (a ++ String sep e) = Py.split sep a ++ Py.split sep e.
Proof.
  induction a as [|c r IH]; simpl.
  - now rewrite Ascii.eqb_refl.
  - destruct (Ascii.eqb c sep).
    + now rewrite IH.
    + rewrite IH. pose proof (split_not_nil sep r) as Hne.
      destruct (Py.split sep r); [contradiction|reflexivity].
Qed.

Lemma split_no_sep (sep : ascii) (s : string) :
  Py.contains sep s = false -> Py.split sep s = [s].
Proof.
  induction s as [|c r IH]; simpl; intros H; [reflexivity|].
  apply orb_false_iff in H as [Hc Hr].
  rewrite Ascii.eqb_sym, Hc. now rewrite (IH Hr).
Qed.

Lemma contains_filter (sep : ascii) (p : ascii -> bool) (s : string) :
  p sep = false -> Py.contains sep (Py.filter p s) = false.
Proof.
  intros Hp. induction s as [|c r IH]; simpl; [reflexivity|].
  destruct (p c) eqn:Hc; [|exact IH].
  simpl. rewrite IH, orb_false_r.
  apply Ascii.eqb_neq. intros ->. congruence.
Qed.

Lemma split_join_filter (l : list string) :
  l <> [] ->
  Py.split "." (Py.join "." (map (Py.filter in_digits) l))
  = map (Py.filter in_digits) l.
Proof.
  induction l as [|x t IH]; intros Hne; [contradiction|].
  destruct t as [|y t'].
  - simpl. apply split_no_sep. now apply contains_filter.
  - change (Py.join "." (map (Py.filter in_digits) (x :: y :: t')))
      with (Py.filter in_digits x
            ++ String "." (Py.join "." (map (Py.filter in_digits) (y :: t'))))%string.
    rewrite split_app, IH by discriminate.
    rewrite split_no_sep by now apply contains_filter.
    reflexivity.
Qed.

Lemma filter_idem (p : ascii -> bool) (s : string) :
  Py.filter p (Py.filter p s) = Py.filter p s.
Proof.
  induction s as [|c r IH]; simpl; [reflexivity|].
  destruct (p c) eqn:Hc; [|exact IH]. simpl. now rewrite Hc, IH.
Qed.

Lemma split_strip_segments (v : string) :
  Py.split "." (strip_segments v)
  = map (Py.filter in_digits) (Py.split "." v).
Proof. apply split_join_filter, split_not_nil. Qed.

Lemma int_has_digit (s : string) :
  has_digit s = true -> Py.int (Py.filter in_digits s) = Ok (seg_num s).
Proof.
  unfold seg_num. induction s as [|c r IH]; simpl; [discriminate|].
  destruct (in_digits c); simpl; [reflexivity|exact IH].
Qed.

Lemma int_no_digit (s : string) :
  has_digit s = false -> Py.int (Py.filter in_digits s) = Raise ValueError.
Proof.
  induction s as [|c r IH]; simpl; [reflexivity|].
  destruct (in_digits c); simpl; [discriminate|exact IH].
Qed.

(** ** The loop and the list of compared pairs *)

Lemma CompareVersion_loop_shift (x y : string) (wp ap : list string) (range : list nat) :
  CompareVersion_loop (x :: wp) (y :: ap) (map S range)
  = CompareVersion_loop wp ap range.
Proof.
  induction range as [|i rest IH]; simpl; [reflexivity|].
  now rewrite IH.
Qed.

Lemma CompareVersion_loop_pairs (wp ap : list string) :
  CompareVersion_loop wp ap (seq 0 (Nat.min (List.length wp) (List.length ap)))
  = compare_pairs (combine wp ap).
Proof.
  revert ap. induction wp as [|x wp IH]; intros [|y ap]; try reflexivity.
  cbn [List.length Nat.min combine seq compare_pairs].
  rewrite <- seq_shift.
  cbn [CompareVersion_loop nth].
  now rewrite CompareVersion_loop_shift, IH.
Qed.

Lemma CompareVersion_pairs (actual wanted : string) :
  CompareVersion actual wanted = compare_pairs (compared actual wanted).
Proof. apply CompareVersion_loop_pairs. Qed.

Lemma compare_pairs_cons (w a : string) (rest : list (string * string)) :
  has_digit w = true -> has_digit a = true ->
  compare_pairs ((w, a) :: rest)
  = if (seg_num w >? seg_num a)%Z then Ok (-1)%Z
    else if (seg_num w <? seg_num a)%Z then Ok 1%Z
    else compare_pairs rest.
Proof.
  intros Hw Ha. cbn [compare_pairs].
  now rewrite (int_has_digit _ Hw), (int_has_digit _ Ha).
Qed.

Lemma compare_pairs_equal (l : list (string * string)) :
  Forall numerically_equal l -> compare_pairs l = Ok 0%Z.
Proof.
  induction 1 as [|[w a] rest [[Hw Ha] Heq] _ IH]; [reflexivity|].
  simpl in Hw, Ha, Heq.
  rewrite (compare_pairs_cons _ _ _ Hw Ha), Heq, Z.gtb_ltb, Z.ltb_irrefl.
  exact IH.
Qed.

Lemma compare_pairs_le (l : list (string * string)) :
  Forall both_have_digit l ->
  Forall (fun p => (seg_num (fst p) <= seg_num (snd p))%Z) l ->
  compare_pairs l
  = Ok (if existsb (fun p => (seg_num (fst p) <? seg_num (snd p))%Z) l
        then 1%Z else 0%Z).
Proof.
  induction 1 as [|[w a] rest [Hw Ha] _ IH]; intros Hle; [reflexivity|].
  inversion Hle as [|? ? Hwa Hrest]; subst. simpl in Hw, Ha, Hwa.
  rewrite (compare_pairs_cons _ _ _ Hw Ha), Z.gtb_ltb.
  cbn [existsb fst snd].
  destruct (Z.ltb_spec (seg_num a) (seg_num w)); [lia|].
  destruct (Z.ltb_spec (seg_num w) (seg_num a)); [reflexivity|].
  now apply IH.
Qed.

Lemma compare_pairs_first_greater
    (pre post : list (string * string)) (w a : string) :
  Forall numerically_equal pre ->
  both_have_digit (w, a) ->
  (seg_num w > seg_num a)%Z ->
  compare_pairs (pre ++ (w, a) :: post) = Ok (-1)%Z.
Proof.
  intros Hpre [Hw Ha] Hgt.
  simpl in Hw, Ha.
  induction Hpre as [|[x y] rest [[Hx Hy] Heq] _ IH].
  - change (compare_pairs ((w, a) :: post) = Ok (-1)%Z).
    rewrite (compare_pairs_cons _ _ _ Hw Ha), Z.gtb_ltb.
    destruct (Z.ltb_spec (seg_num a) (seg_num w)); [reflexivity|lia].
  - simpl in Hx, Hy, Heq.
    change (compare_pairs ((x, y) :: rest ++ (w, a) :: post) = Ok (-1)%Z).
    rewrite (compare_pairs_cons _ _ _ Hx Hy), Heq, Z.gtb_ltb, Z.ltb_irrefl.
    exact IH.
Qed.

Lemma compare_pairs_swap (l : list (string * string)) :
  Forall both_have_digit l ->
  exists r, compare_pairs l = Ok r
            /\ compare_pairs (map swap_pair l) = Ok (- r)%Z.
Proof.
  induction 1 as [|[w a] rest [Hw Ha] _ [r [IH1 IH2]]].
  - exists 0%Z. split; reflexivity.
  - simpl in Hw, Ha. cbn [map swap_pair fst snd].
    rewrite (compare_pairs_cons _ _ _ Hw Ha), (compare_pairs_cons _ _ _ Ha Hw).
    rewrite !Z.gtb_ltb.
    destruct (Z.ltb_spec (seg_num a) (seg_num w));
      destruct (Z.ltb_spec (seg_num w) (seg_num a)); try lia.
    + exists (-1)%Z. split; reflexivity.
    + exists 1%Z. split; reflexivity.
    + exists r. split; assumption.
Qed.

Lemma combine_swap (l1 l2 : list string) :
  map swap_pair (combine l1 l2) = combine l2 l1.
Proof.
  revert l2. induction l1 as [|x l1 IH]; intros [|y l2]; try reflexivity.
  simpl. now rewrite IH.
Qed.

Lemma compare_pairs_strip (l : list (string * string)) :
  compare_pairs (map strip_pair l) = compare_pairs l.
Proof.
  induction l as [|[w a] rest IH]; [reflexivity|].
  cbn [map strip_pair fst snd compare_pairs].
  now rewrite !filter_idem, IH.
Qed.

Lemma combine_map_strip (l1 l2 : list string) :
  combine (map (Py.filter in_digits) l1) (map (Py.filter in_digits) l2)
  = map strip_pair (combine l1 l2).
Proof.
  revert l2. induction l1 as [|x l1 IH]; intros [|y l2]; try reflexivity.
  simpl. now rewrite IH.
Qed.

Lemma compare_pairs_strip_left (l1 l2 : list string) :
  compare_pairs (combine (map (Py.filter in_digits) l1) l2)
  = compare_pairs (combine l1 l2).
Proof.
  revert l2. induction l1 as [|x l1 IH]; intros [|y l2]; try reflexivity.
  cbn [map combine compare_pairs]. now rewrite filter_idem, IH.
Qed.

Lemma compare_pairs_strip_right (l1 l2 : list string) :
  compare_pairs (combine l1 (map (Py.filter in_digits) l2))
  = compare_pairs (combine l1 l2).
Proof.
  revert l2. induction l1 as [|x l1 IH]; intros [|y l2]; try reflexivity.
  cbn [map combine compare_pairs]. now rewrite filter_idem, IH.
Qed.

Lemma combine_app_longer (l1 l2 ext : list string) :
  (List.length l1 <= List.length l2)%nat ->
  combine l1 (l2 ++ ext) = combine l1 l2.
Proof.
  revert l2. induction l1 as [|x l1 IH]; intros [|y l2] Hlen;
    simpl in *; try reflexivity; try lia.
  f_equal. apply IH. lia.
Qed.

Lemma combine_longer_app (l1 l2 ext : list string) :
  (List.length l1 <= List.length l2)%nat ->
  combine (l2 ++ ext) l1 = combine l2 l1.
Proof.
  intros Hlen.
  rewrite <- (combine_swap l1 (l2 ++ ext)), <- (combine_swap l1 l2).
  now rewrite combine_app_longer.
Qed.

(** ** The comparator: the stated properties *)

(** C1: when every compared segment holds a digit and every compared
    segment of the wanted version is at most the corresponding one of the
    actual version, [CompareVersion] returns a non-negative number: 1 when
    some compared wanted segment is strictly smaller, 0 when all compared
    segments are equal. *)
Theorem CompareVersion_satisfied (actual wanted : string) :
  Forall both_have_digit (compared actual wanted) ->
  Forall (fun p => (seg_num (fst p) <= seg_num (snd p))%Z)
         (compared actual wanted) ->
  (Exists (fun p => (seg_num (fst p) < seg_num (snd p))%Z)
          (compared actual wanted) ->
   CompareVersion actual wanted = Ok 1%Z)
  /\ (Forall (fun p => seg_num (fst p) = seg_num (snd p))
             (compared actual wanted) ->
      CompareVersion actual wanted = Ok 0%Z)
  /\ (exists r, CompareVersion actual wanted = Ok r /\ (0 <= r)%Z).
Proof.
  intros Hd Hle. rewrite CompareVersion_pairs.
  rewrite (compare_pairs_le _ Hd Hle).
  destruct (existsb _ _) eqn:Hex.
  - repeat split.
    + intros Heq. apply existsb_exists in Hex as [p [Hin Hlt]].
      rewrite Forall_forall in Heq. specialize (Heq p Hin).
      apply Z.ltb_lt in Hlt. lia.
    + exists 1%Z. split; [reflexivity|lia].
  - repeat split.
    + intros Hsome. apply Exists_exists in Hsome as [p [Hin Hlt]].
      assert (existsb (fun p => (seg_num (fst p) <? seg_num (snd p))%Z)
                      (compared actual wanted) = true) as Habs.
      { apply existsb_exists. exists p. split; [exact Hin|].
        now apply Z.ltb_lt. }
      congruence.
    + exists 0%Z. split; [reflexivity|lia].
Qed.

Lemma CompareVersion_satisfied_witness :
  CompareVersion "1.3.1" "1.2.1" = Ok 1%Z.
Proof.
  refine (proj1 (CompareVersion_satisfied "1.3.1" "1.2.1" _ _) _).
  - repeat constructor.
  - repeat (apply Forall_cons; [vm_compute; discriminate|]). apply Forall_nil.
  - apply Exists_cons_tl, Exists_cons_hd. vm_compute. reflexivity.
Defined.

(** C2: when every compared segment holds a digit and, at the first
    compared position whose numbers differ, the wanted segment is the
    greater one, [CompareVersion] returns -1. *)
Theorem CompareVersion_needs_newer
    (actual wanted : string) (pre post : list (string * string))
    (w a : string) :
  Forall both_have_digit (compared actual wanted) ->
  compared actual wanted = pre ++ (w, a) :: post ->
  Forall (fun p => seg_num (fst p) = seg_num (snd p)) pre ->
  (seg_num w > seg_num a)%Z ->
  CompareVersion actual wanted = Ok (-1)%Z.
Proof.
  intros Hd Hsplit Hpre Hgt. rewrite CompareVersion_pairs, Hsplit.
  rewrite Hsplit in Hd. apply Forall_app in Hd as [Hdpre Hdrest].
  inversion Hdrest as [|? ? Hwa _]; subst.
  apply compare_pairs_first_greater; [|exact Hwa|exact Hgt].
  rewrite Forall_forall in *. intros p Hin. split; auto.
Qed.

Lemma CompareVersion_needs_newer_witness :
  CompareVersion "1.2.1" "1.3" = Ok (-1)%Z.
Proof.
  apply (CompareVersion_needs_newer "1.2.1" "1.3" [("1", "1")] [] "3" "2").
  - repeat constructor.
  - reflexivity.
  - repeat constructor.
  - vm_compute. reflexivity.
Defined.

(** C3: only the common prefix of the two segment lists is compared: more
    segments appended to the version that already has at least as many do
    not change the result; when one segment list is a prefix of the other
    and the compared segments are numerically equal the result is 0, as for
    installed "1.2" against required "1.2.0.1". *)
Theorem CompareVersion_common_prefix :
  (forall longer shorter extra : string,
      (List.length (Py.split "." shorter) <= List.length (Py.split "." longer))%nat ->
      CompareVersion (longer ++ String "." extra) shorter
      = CompareVersion longer shorter
      /\ CompareVersion shorter (longer ++ String "." extra)
         = CompareVersion shorter longer)
  /\ (forall actual wanted : string,
         is_prefix (Py.split "." actual) (Py.split "." wanted)
         \/ is_prefix (Py.split "." wanted) (Py.split "." actual) ->
         Forall numerically_equal (compared actual wanted) ->
         CompareVersion actual wanted = Ok 0%Z)
  /\ CompareVersion "1.2" "1.2.0.1" = Ok 0%Z.
Proof.
  repeat split.
  - rewrite !CompareVersion_pairs. unfold compared.
    now rewrite split_app, combine_app_longer.
  - rewrite !CompareVersion_pairs. unfold compared.
    now rewrite split_app, combine_longer_app.
  - intros actual wanted _ Heq. rewrite CompareVersion_pairs.
    now apply compare_pairs_equal.
Qed.

Lemma CompareVersion_common_prefix_witness :
  CompareVersion "1.2.0.1" "1.2" = CompareVersion "1.2" "1.2"
  /\ CompareVersion "3.0" "3.0.2.0" = Ok 0%Z.
Proof.
  destruct CompareVersion_common_prefix as [Hext [Hpre _]]. split.
  - apply (Hext "1.2" "1.2" "0.1"). simpl. lia.
  - apply (Hpre "3.0" "3.0.2.0").
    + left. exists ["2"; "0"]. reflexivity.
    + repeat constructor.
Defined.

(** C4: non-digit characters inside a segment are ignored: a version text
    and the same text with the non-digit characters of every segment
    removed compare alike against anything, on either side, whatever the
    segments are (a segment without any digit raises the same [ValueError]
    either way); so "1.0a" behaves as "1.0". *)
Theorem CompareVersion_ignores_non_digits (actual wanted : string) :
  CompareVersion (strip_segments actual) (strip_segments wanted)
  = CompareVersion actual wanted
  /\ CompareVersion (strip_segments actual) wanted
     = CompareVersion actual wanted
  /\ CompareVersion actual (strip_segments wanted)
     = CompareVersion actual wanted
  /\ strip_segments "1.0a" = "1.0"
  /\ CompareVersion "1.0a" wanted = CompareVersion "1.0" wanted
  /\ CompareVersion actual "1.0a" = CompareVersion actual "1.0".
Proof.
  assert (forall a w, CompareVersion (strip_segments a) w = CompareVersion a w)
    as Hleft.
  { intros a w. rewrite !CompareVersion_pairs. unfold compared.
    rewrite split_strip_segments. apply compare_pairs_strip_right. }
  assert (forall a w, CompareVersion a (strip_segments w) = CompareVersion a w)
    as Hright.
  { intros a w. rewrite !CompareVersion_pairs. unfold compared.
    rewrite split_strip_segments. apply compare_pairs_strip_left. }
  repeat split.
  - now rewrite Hleft, Hright.
  - apply Hleft.
  - apply Hright.
  - rewrite <- (Hleft "1.0a" wanted). reflexivity.
  - rewrite <- (Hright actual "1.0a"). reflexivity.
Qed.

(** C10: when every compared segment holds a digit, swapping the two
    arguments negates the result; a version compared with itself gives 0. *)
Theorem CompareVersion_antisymmetric (a b : string) :
  Forall both_have_digit (compared a b) ->
  (exists r, CompareVersion a b = Ok r /\ CompareVersion b a = Ok (- r)%Z)
  /\ (a = b -> CompareVersion a b = Ok 0%Z).
Proof.
  intros Hd.
  destruct (compare_pairs_swap _ Hd) as [r [H1 H2]].
  unfold compared in H2. rewrite combine_swap in H2.
  rewrite <- !CompareVersion_pairs in H1.
  change (combine (Py.split "." a) (Py.split "." b)) with (compared b a) in H2.
  rewrite <- CompareVersion_pairs in H2.
  split.
  - exists r. split; assumption.
  - intros ->. rewrite H1 in H2. rewrite H1. f_equal.
    injection H2 as H2. lia.
Qed.

Lemma CompareVersion_antisymmetric_witness :
  (exists r, CompareVersion "2.7.9" "2.7.11" = Ok r
             /\ CompareVersion "2.7.11" "2.7.9" = Ok (- r)%Z)
  /\ CompareVersion "0.15.2" "0.15.2" = Ok 0%Z.
Proof.
  split.
  - apply (CompareVersion_antisymmetric "2.7.9" "2.7.11"). repeat constructor.
  - apply (CompareVersion_antisymmetric "0.15.2" "0.15.2");
      [repeat constructor | reflexivity].
Defined.

(** ** The checkers: the stated properties *)

Lemma check_version_expected (actual : string) (wanted : option string) :
  comparable actual wanted -> expected_outcome (check_version actual wanted).
Proof.
  intros (v & c & -> & Hc). unfold check_version. cbn [attribute bind].
  rewrite Hc. cbn [bind].
  destruct (c <? 0)%Z; [right; right|left]; reflexivity.
Qed.

Lemma DllDependency_files_expected
    (w : World) (bs : BuildSetup) (wantedVersion : list Z) (files : list string) :
  (forall file, In file files -> exists v, w_GetFileVersion w file = Ok v) ->
  (forall copy, w_copy_error w copy = None) ->
  forall copied,
    expected_outcome (snd (DllDependency_files w bs wantedVersion files copied)).
Proof.
  intros Hver Hcopy. induction files as [|file rest IH]; intros copied.
  - left. reflexivity.
  - cbn [DllDependency_files].
    destruct (Hver file (or_introl eq_refl)) as [v ->].
    destruct (tuple_eqb v wantedVersion); cbn [negb].
    + rewrite !Hcopy. apply IH. intros f Hf. apply Hver. now right.
    + right; right. reflexivity.
Qed.

Lemma DllDependency_Check_known
    (w : World) (self : Descriptor) (bs : BuildSetup)
    (g_ver : string) (wantedVersion : list Z) (files : list string) :
  manifest_known w self bs g_ver wantedVersion files ->
  c_outcome (DllDependency_Check w self)
  = match files with
    | [] => Raise MissingDependency
    | _ :: _ => snd (DllDependency_files w bs wantedVersion files [])
    end.
Proof.
  intros (manifest & g_name & g_arch & root & Hbs & Hread & Hre & Hint & Henv & Hglob).
  unfold DllDependency_Check.
  rewrite Hbs, Hread, Hre, Hint, Henv, Hglob.
  destruct files as [|f fs]; [reflexivity|].
  destruct (DllDependency_files w bs wantedVersion (f :: fs) []); reflexivity.
Qed.

(** C5: a checker whose backing component cannot be found (the module
    import fails, the version file is absent, the tool is not located, or
    the side-by-side pattern of the manifest matches nothing) ends with
    [MissingDependency], not with [WrongVersion]; and whenever nothing a
    checker relies on fails unexpectedly, it ends in one of three ways:
    satisfied, [MissingDependency] or [WrongVersion]. *)
Theorem Check_missing_and_expected (w : World) (self : Descriptor) :
  (not_found w self ->
   c_outcome (Check w self) = Raise MissingDependency
   /\ c_outcome (Check w self) <> Raise WrongVersion)
  /\ (nothing_unexpected w self -> expected_outcome (c_outcome (Check w self))).
Proof.
  split.
  - intros Hnf.
    assert (c_outcome (Check w self) = Raise MissingDependency) as Hm.
    { unfold not_found, Check in *. destruct (kind self); cbn [pure_check c_outcome].
      + destruct Hnf as (m & Hmod & Himp).
        unfold ModuleDependency_Check. rewrite Hmod, Himp.
        destruct (exn_eq_dec ImportError ImportError); [reflexivity|contradiction].
      + unfold PyWin32Dependency_Check. now rewrite Hnf.
      + destruct Hnf as [e He]. unfold StacklessDependency_Check. now rewrite He.
      + unfold InnoSetupDependency_Check. now rewrite Hnf.
      + unfold HtmlHelpWorkshopDependency_Check. now rewrite Hnf.
      + destruct Hnf as (bs & g_ver & wv & Hk).
        now rewrite (DllDependency_Check_known _ _ _ _ _ _ Hk). }
    split; [exact Hm|]. rewrite Hm. discriminate.
  - intros Hok. unfold nothing_unexpected, Check in *.
    destruct (kind self); cbn [pure_check c_outcome].
    + destruct Hok as (m & Hmod & [Himp | (loaded & found & actual & Himp & Hfound & Htext & Hcmp)]);
        unfold ModuleDependency_Check; rewrite Hmod, Himp.
      * destruct (exn_eq_dec ImportError ImportError); [|contradiction].
        right; left. reflexivity.
      * rewrite Hfound. cbn [bind]. rewrite Htext. cbn [bind].
        now apply check_version_expected.
    + unfold PyWin32Dependency_Check.
      destruct (w_read w (pywin32_version_path w)) as [content|] eqn:Hread.
      * apply check_version_expected. now apply Hok.
      * right; left. reflexivity.
    + unfold StacklessDependency_Check.
      destruct (w_import w "stackless") as [loaded|e] eqn:Himp.
      * apply check_version_expected. now apply (Hok loaded).
      * right; left. reflexivity.
    + unfold InnoSetupDependency_Check.
      destruct (negb _); [right; left|left]; reflexivity.
    + unfold HtmlHelpWorkshopDependency_Check.
      destruct (negb _); [right; left|left]; reflexivity.
    + destruct Hok as (bs & g_ver & wv & files & Hk & Hver & Hcopy).
      rewrite (DllDependency_Check_known _ _ _ _ _ _ Hk).
      destruct files as [|f fs]; [right; left; reflexivity|].
      now apply DllDependency_files_expected.
Qed.

Lemma Check_missing_and_expected_witness :
  c_outcome (Check sample_world
               (new_ModuleDependency "agithub" "agithub" "2.0" None None))
  = Raise MissingDependency
  /\ expected_outcome
       (c_outcome (Check sample_world (set_buildSetup sample_dll sample_buildSetup))).
Proof.
  split.
  - apply (Check_missing_and_expected sample_world
             (new_ModuleDependency "agithub" "agithub" "2.0" None None)).
    exists "agithub". split; reflexivity.
  - apply (Check_missing_and_expected sample_world
             (set_buildSetup sample_dll sample_buildSetup)).
    exists sample_buildSetup, "9.0.21022.8", [9; 0; 21022; 8]%Z,
      ["C:/Windows/WinSxS/x86_crt/msvcr90.dll"].
    split; [|split].
    + exists "manifest", "Microsoft.VC90.CRT", "x86", "C:/Windows".
      repeat split; reflexivity.
    + intros file _. exists [9; 0; 21022; 8]%Z. reflexivity.
    + intros copy. reflexivity.
Defined.

(** ** The check phase: the stated properties *)

Lemma deref_positions
    (f : Descriptor -> Descriptor) (P : Descriptor -> bool)
    (pre l : list Descriptor) :
  deref (map f (pre ++ l))
        (map fst (filter (fun p => P (snd p))
                         (combine (seq (List.length pre) (List.length l)) l)))
  = map f (filter P l).
Proof.
  revert pre. induction l as [|d l IH]; intros pre; [reflexivity|].
  cbn [List.length seq combine filter snd].
  assert (deref (map f (pre ++ d :: l))
            (map fst (filter (fun p => P (snd p))
                             (combine (seq (S (List.length pre)) (List.length l)) l)))
          = map f (filter P l)) as Hrest.
  { specialize (IH (pre ++ [d])).
    rewrite <- app_assoc in IH. cbn [app] in IH.
    rewrite length_app in IH. cbn [List.length] in IH.
    now rewrite Nat.add_1_r in IH. }
  destruct (P d); [|exact Hrest].
  cbn [map fst]. unfold deref in *. cbn [flat_map].
  rewrite Hrest, nth_error_map, nth_error_app2, Nat.sub_diag by lia.
  reflexivity.
Qed.

Lemma CheckDependencies_loop_completed
    (w : World) (bs : BuildSetup) (deps : list Descriptor) (i : nat) :
  p_outcome (CheckDependencies_loop w bs i deps) = Ok tt ->
  p_failedDeps (CheckDependencies_loop w bs i deps)
  = map fst (filter (fun p => raises w bs (snd p))
                    (combine (seq i (List.length deps)) deps))
  /\ p_deps (CheckDependencies_loop w bs i deps) = map (after_check w bs) deps
  /\ Forall (fun dep =>
               exists e, c_outcome (Check w (set_buildSetup dep bs)) = Raise e
                         /\ caught e = true)
            (filter (raises w bs) deps).
Proof.
  revert i. induction deps as [|dep rest IH]; intros i Hdone.
  - repeat split. constructor.
  - cbn [CheckDependencies_loop] in *.
    cbn [List.length seq combine filter snd map].
    change (c_self (Check w (set_buildSetup dep bs))) with (after_check w bs dep) in *.
    assert (raises w bs dep
            = match c_outcome (Check w (set_buildSetup dep bs)) with
              | Ok _ => false
              | Raise _ => true
              end) as Hr by reflexivity.
    destruct (c_outcome (Check w (set_buildSetup dep bs))) as [[]|e] eqn:Hout;
      rewrite Hr.
    + cbn [p_outcome p_failedDeps p_deps app] in *.
      destruct (IH (S i) Hdone) as (Hf & Hd & Hc).
      split; [exact Hf|]. split; [now rewrite Hd|exact Hc].
    + destruct (caught e) eqn:Hcaught.
      * cbn [p_outcome p_failedDeps p_deps app] in *.
        destruct (IH (S i) Hdone) as (Hf & Hd & Hc).
        split; [cbn [map fst]; now rewrite Hf|].
        split; [now rewrite Hd|].
        constructor; [|exact Hc]. exists e. now split.
      * cbn [p_outcome] in Hdone. discriminate.
Qed.

(** C6: when the check phase completes (no checker raised anything but
    [MissingDependency] or [WrongVersion]), the failure list holds exactly
    the descriptors whose checker raised, in the order of the dependency
    list. *)
Theorem CheckDependencies_failure_list
    (w : World) (bs : BuildSetup) (deps : list Descriptor) :
  p_outcome (CheckDependencies_phase1 w bs deps) = Ok tt ->
  let r := CheckDependencies_phase1 w bs deps in
  p_failedDeps r
  = map fst (filter (fun p => raises w bs (snd p))
                    (combine (seq 0 (List.length deps)) deps))
  /\ p_deps r = map (after_check w bs) deps
  /\ deref (p_deps r) (p_failedDeps r)
     = map (after_check w bs) (filter (raises w bs) deps)
  /\ Forall (fun dep =>
               exists e, c_outcome (Check w (set_buildSetup dep bs)) = Raise e
                         /\ (e = MissingDependency \/ e = WrongVersion))
            (filter (raises w bs) deps).
Proof.
  intros Hdone r. subst r. unfold CheckDependencies_phase1 in *.
  destruct (CheckDependencies_loop_completed w bs deps 0 Hdone) as (Hf & Hd & Hc).
  repeat split; [exact Hf|exact Hd| |].
  - rewrite Hf, Hd. apply (deref_positions (after_check w bs) (raises w bs) [] deps).
  - eapply Forall_impl; [|exact Hc]. intros dep (e & He & Hcaught).
    exists e. split; [exact He|].
    destruct e; try discriminate; auto.
Qed.

Lemma CheckDependencies_failure_list_witness :
  p_failedDeps (CheckDependencies_phase1 sample_world sample_buildSetup DEPENDENCIES)
  = [0; 1; 2; 3; 4; 8; 9; 10; 12]%nat
  /\ map name
       (deref (p_deps (CheckDependencies_phase1 sample_world sample_buildSetup DEPENDENCIES))
              (p_failedDeps (CheckDependencies_phase1 sample_world sample_buildSetup DEPENDENCIES)))
     = map name
         (map (after_check sample_world sample_buildSetup)
              (filter (raises sample_world sample_buildSetup) DEPENDENCIES)).
Proof.
  destruct (CheckDependencies_failure_list sample_world sample_buildSetup DEPENDENCIES)
    as (Hf & _ & Hd & _); [vm_compute; reflexivity|].
  split.
  - rewrite Hf. vm_compute. reflexivity.
  - now rewrite Hd.
Defined.

(** C9 as stated fails: the check of the shared-library descriptor of
    [DEPENDENCIES] changes its [exact] and [version] fields. *)
Lemma Check_changes_dll_fields :
  own_fields (after_check sample_world sample_buildSetup sample_dll)
  <> own_fields sample_dll.
Proof. vm_compute. intros H. discriminate H. Qed.

Lemma DllDependency_files_same_paths
    (w : World) (bs1 bs2 : BuildSetup) (wantedVersion : list Z)
    (files : list string) :
  (forall base, w_join w [sourceDir bs1; base] = w_join w [sourceDir bs2; base]) ->
  forall copied,
    DllDependency_files w bs1 wantedVersion files copied
    = DllDependency_files w bs2 wantedVersion files copied.
Proof.
  intros Hdest. induction files as [|file rest IH]; intros copied; [reflexivity|].
  cbn [DllDependency_files]. rewrite (Hdest (w_basename w file)).
  destruct (w_GetFileVersion w file) as [v|e]; [|reflexivity].
  destruct (negb (tuple_eqb v wantedVersion)); [reflexivity|].
  destruct (w_copy_error w (CopyFile file _)); [reflexivity|].
  destruct (w_copy_error w (CopyStat file _)); [reflexivity|].
  apply IH.
Qed.

(** C9, amended: the assignment of the back-reference changes no other
    field, and the back-reference is used by [DllDependency.Check] alone,
    and there only to resolve the path of the manifest template and the
    destinations of the copies. [Check] leaves a descriptor of any class
    but [DllDependency] as it is. [DllDependency.Check] changes nothing
    until it has read the manifest template; once it has read it, it has
    set [exact] to true, whether the manifest matches or not; when the
    manifest matches it has also set [version] to the version found in it.
    [name], [attr], [module], [package] and [url] are never changed. *)
Theorem Check_frame (w : World) (self : Descriptor) :
  (forall bs,
      own_fields (set_buildSetup self bs) = own_fields self
      /\ kind (set_buildSetup self bs) = kind self)
  /\ (kind self <> DllDependency ->
      c_self (Check w self) = self
      /\ forall bs,
           c_outcome (Check w (set_buildSetup self bs)) = c_outcome (Check w self)
           /\ c_copied (Check w (set_buildSetup self bs)) = [])
  /\ (kind self = DllDependency ->
      buildSetup self = None
      \/ (exists bs, buildSetup self = Some bs
                     /\ w_read w (manifest_path w bs) = None) ->
      c_self (Check w self) = self)
  /\ (forall bs manifest,
         kind self = DllDependency ->
         buildSetup self = Some bs ->
         w_read w (manifest_path w bs) = Some manifest ->
         w_search_manifest w manifest = None ->
         c_self (Check w self) = set_exact self
         /\ own_fields (c_self (Check w self))
            = (name self, version self, attr self, true,
               module self, package self, url self))
  /\ (forall bs manifest g_name g_ver g_arch,
         kind self = DllDependency ->
         buildSetup self = Some bs ->
         w_read w (manifest_path w bs) = Some manifest ->
         w_search_manifest w manifest = Some (g_name, g_ver, g_arch) ->
         c_self (Check w self) = set_version (set_exact self) g_ver
         /\ own_fields (c_self (Check w self))
            = (name self, Some g_ver, attr self, true,
               module self, package self, url self))
  /\ (let self' := c_self (Check w self) in
      (name self', attr self', module self', package self', url self',
       kind self', buildSetup self')
      = (name self, attr self, module self, package self, url self,
         kind self, buildSetup self))
  /\ (kind self = DllDependency ->
      forall bs1 bs2,
        same_paths w bs1 bs2 ->
        c_outcome (Check w (set_buildSetup self bs1))
        = c_outcome (Check w (set_buildSetup self bs2))
        /\ c_copied (Check w (set_buildSetup self bs1))
           = c_copied (Check w (set_buildSetup self bs2))
        /\ own_fields (c_self (Check w (set_buildSetup self bs1)))
           = own_fields (c_self (Check w (set_buildSetup self bs2)))).
Proof.
  assert (forall bs manifest g_name g_ver g_arch,
             buildSetup self = Some bs ->
             w_read w (manifest_path w bs) = Some manifest ->
             w_search_manifest w manifest = Some (g_name, g_ver, g_arch) ->
             c_self (DllDependency_Check w self) = set_version (set_exact self) g_ver)
    as Hmatched.
  { intros bs manifest g_name g_ver g_arch Hbs Hread Hre.
    unfold manifest_path in Hread.
    unfold DllDependency_Check. rewrite Hbs, Hread, Hre. cbv zeta.
    destruct (int_tuple w (Py.split "." g_ver)); [|reflexivity].
    destruct (w_environ w "SystemRoot"); [|reflexivity].
    destruct (w_glob w _); [reflexivity|].
    destruct (DllDependency_files _ _ _ _ _). reflexivity. }
  assert (forall bs manifest,
             buildSetup self = Some bs ->
             w_read w (manifest_path w bs) = Some manifest ->
             w_search_manifest w manifest = None ->
             c_self (DllDependency_Check w self) = set_exact self)
    as Hunmatched.
  { intros bs manifest Hbs Hread Hre. unfold manifest_path in Hread.
    unfold DllDependency_Check. rewrite Hbs, Hread, Hre. reflexivity. }
  assert (buildSetup self = None
          \/ (exists bs, buildSetup self = Some bs
                         /\ w_read w (manifest_path w bs) = None) ->
          c_self (DllDependency_Check w self) = self)
    as Hunread.
  { intros [Hbs | (bs & Hbs & Hread)]; unfold DllDependency_Check.
    - now rewrite Hbs.
    - unfold manifest_path in Hread. now rewrite Hbs, Hread. }
  assert (kind self <> DllDependency -> c_self (Check w self) = self) as Hother.
  { intros Hk. unfold Check. destruct (kind self); try reflexivity. congruence. }
  split; [intros bs; split; reflexivity|].
  split.
  { intros Hk. split; [exact (Hother Hk)|].
    intros bs. unfold Check. cbn [kind set_buildSetup].
    destruct (kind self); try (split; reflexivity). congruence. }
  split; [intros Hk Hnot; unfold Check; rewrite Hk; now apply Hunread|].
  split.
  { intros bs manifest Hk Hbs Hread Hre. unfold Check. rewrite Hk.
    rewrite (Hunmatched bs manifest Hbs Hread Hre). split; reflexivity. }
  split.
  { intros bs manifest g_name g_ver g_arch Hk Hbs Hread Hre.
    unfold Check. rewrite Hk.
    rewrite (Hmatched bs manifest g_name g_ver g_arch Hbs Hread Hre).
    split; reflexivity. }
  split.
  { cbv zeta. clear Hmatched Hunmatched Hunread Hother.
    unfold Check.
    destruct (kind self) eqn:Hk; cbn [pure_check c_self]; rewrite ?Hk;
      try reflexivity.
    unfold DllDependency_Check.
    destruct (buildSetup self) as [bs|] eqn:Hbs;
      [|cbn [pure_check c_self]; rewrite ?Hk, ?Hbs; reflexivity].
    destruct (w_read w _);
      [|cbn [pure_check c_self]; rewrite ?Hk, ?Hbs; reflexivity].
    destruct (w_search_manifest w _) as [[[g_name g_ver] g_arch]|]; cbv zeta;
      [|cbn [pure_check c_self set_exact name attr module package url kind
             buildSetup]; rewrite ?Hk, ?Hbs; reflexivity].
    assert ((name (set_version (set_exact self) g_ver),
             attr (set_version (set_exact self) g_ver),
             module (set_version (set_exact self) g_ver),
             package (set_version (set_exact self) g_ver),
             url (set_version (set_exact self) g_ver),
             kind (set_version (set_exact self) g_ver),
             buildSetup (set_version (set_exact self) g_ver))
            = (name self, attr self, module self, package self, url self,
               DllDependency, Some bs)) as Hfields
      by (cbn [set_exact set_version name attr module package url kind
               buildSetup]; rewrite ?Hk, ?Hbs; reflexivity).
    destruct (int_tuple w _); [|exact Hfields].
    destruct (w_environ w _); [|exact Hfields].
    destruct (w_glob w _); [exact Hfields|].
    destruct (DllDependency_files _ _ _ _ _). exact Hfields. }
  intros Hk bs1 bs2 [Hmanifest Hdest].
  unfold manifest_path in Hmanifest.
  unfold Check. cbn [kind set_buildSetup]. rewrite Hk.
  unfold DllDependency_Check. cbn [buildSetup set_buildSetup].
  rewrite Hmanifest.
  destruct (w_read w (w_join w [pyVersionDir bs2; "manifest.template"]))
    as [manifest|]; [|repeat split].
  destruct (w_search_manifest w manifest) as [[[g_name g_ver] g_arch]|];
    [|repeat split].
  cbv zeta.
  destruct (int_tuple w (Py.split "." g_ver)) as [wantedVersion|e];
    [|repeat split].
  destruct (w_environ w "SystemRoot") as [root|]; [|repeat split].
  destruct (w_glob w (winsxs_pattern w root g_name g_ver g_arch)) as [|f fs];
    [repeat split|].
  rewrite (DllDependency_files_same_paths w bs1 bs2 wantedVersion (f :: fs) Hdest []).
  destruct (DllDependency_files w bs2 wantedVersion (f :: fs) []).
  repeat split.
Qed.

Lemma Check_frame_witness :
  c_self (Check sample_world new_PyWin32Dependency) = new_PyWin32Dependency
  /\ exact (c_self (Check unmatched_world
                      (set_buildSetup sample_dll sample_buildSetup))) = true
  /\ version (c_self (Check unmatched_world
                        (set_buildSetup sample_dll sample_buildSetup))) = None
  /\ own_fields (c_self (Check sample_world
                           (set_buildSetup sample_dll sample_buildSetup)))
     = (name sample_dll, Some "9.0.21022.8", attr sample_dll, true,
        module sample_dll, package sample_dll, url sample_dll).
Proof.
  destruct (Check_frame sample_world new_PyWin32Dependency)
    as (_ & Hother & _).
  destruct (Check_frame unmatched_world
              (set_buildSetup sample_dll sample_buildSetup))
    as (_ & _ & _ & Hunmatched & _).
  destruct (Check_frame sample_world
              (set_buildSetup sample_dll sample_buildSetup))
    as (_ & _ & _ & _ & Hmatched & _).
  destruct (Hunmatched sample_buildSetup "manifest"
              eq_refl eq_refl eq_refl eq_refl) as [_ Hf].
  destruct (Hmatched sample_buildSetup "manifest"
              "Microsoft.VC90.CRT" "9.0.21022.8" "x86"
              eq_refl eq_refl eq_refl eq_refl) as [_ Hf'].
  split; [apply Hother; discriminate|].
  split; [exact (f_equal (fun t => snd (fst (fst (fst t)))) Hf)|].
  split; [exact (f_equal (fun t => snd (fst (fst (fst (fst (fst t)))))) Hf)|].
  exact Hf'.
Defined.

(** ** The installation dispatcher: the stated properties *)

Lemma endswith_nonempty (s suffix : string) :
  suffix <> EmptyString -> Py.endswith s suffix = true -> s <> EmptyString.
Proof.
  intros Hne H ->. simpl in H. rewrite orb_false_r in H.
  destruct suffix; [contradiction|discriminate].
Qed.

Lemma Pip_install (host : Host) (target pip : string) (h : History) :
  GetPipPath host h = (h, Ok pip) ->
  is_empty pip = false ->
  Pip host ["install"; target] h
  = (h ++ [[pip; "install"; target; "-U"]],
     match h_StartProcess host h [pip; "install"; target; "-U"] with
     | Ok code => Ok (code =? 0)%Z
     | Raise e => Raise e
     end).
Proof.
  intros Hpip Hne. unfold Pip, pbind. rewrite Hpip, Hne.
  change (String.eqb (Py.lower "install") "install") with true. cbn iota.
  unfold StartProcess, pret. cbn [app].
  destruct (h_StartProcess host h _); reflexivity.
Qed.

(** C7: for a descriptor that is not "Stackless Python" and has neither a
    URL nor a package name, the dispatcher takes the pip path, with
    [name==version] when [exact] is set and with the bare name otherwise. *)
Theorem InstallDependency_by_name (host : Host) (dep : Descriptor) :
  name dep <> "Stackless Python" ->
  Py.truthy (url dep) = false ->
  Py.truthy (package dep) = false ->
  (exact dep = true ->
   forall v, version dep = Some v ->
     forall h, InstallDependency host dep h
               = Pip host ["install"; (name dep ++ "==" ++ v)%string] h)
  /\ (exact dep = false ->
      forall h, InstallDependency host dep h = Pip host ["install"; name dep] h).
Proof.
  intros Hname Hurl Hpkg. apply String.eqb_neq in Hname.
  split.
  - intros Hexact v Hv h. unfold InstallDependency.
    rewrite Hname, Hurl, Hpkg, Hexact, Hv. reflexivity.
  - intros Hexact h. unfold InstallDependency.
    rewrite Hname, Hurl, Hpkg, Hexact. reflexivity.
Qed.

Lemma InstallDependency_by_name_witness :
  fst (InstallDependency sample_host
         (new_ModuleDependency "comtypes" "comtypes" "1.1.2" None None) [])
  = [["c:/python27/scripts/pip.exe"; "install"; "comtypes"; "-U"]]
  /\ fst (InstallDependency sample_host
            (set_exact
               (new_ModuleDependency "comtypes" "comtypes" "1.1.2" None None)) [])
     = [["c:/python27/scripts/pip.exe"; "install"; "comtypes==1.1.2"; "-U"]].
Proof.
  split.
  - rewrite (proj2 (InstallDependency_by_name sample_host
                      (new_ModuleDependency "comtypes" "comtypes" "1.1.2" None None)
                      ltac:(discriminate) eq_refl eq_refl) eq_refl).
    reflexivity.
  - rewrite (proj1 (InstallDependency_by_name sample_host
                      (set_exact
                         (new_ModuleDependency "comtypes" "comtypes" "1.1.2" None None))
                      ltac:(discriminate) eq_refl eq_refl) eq_refl "1.1.2" eq_refl).
    reflexivity.
Defined.

(** C8: for a descriptor that is not "Stackless Python" and whose URL ends
    in ".whl", the dispatcher calls pip's install with that URL, whatever
    the package name is; when pip is found the process started is
    [pip install <url> -U]. *)
Theorem InstallDependency_wheel (host : Host) (dep : Descriptor) (u : string) :
  name dep <> "Stackless Python" ->
  url dep = Some u ->
  Py.endswith u ".whl" = true ->
  (forall h, InstallDependency host dep h = Pip host ["install"; u] h)
  /\ (forall h pip,
         GetPipPath host h = (h, Ok pip) ->
         is_empty pip = false ->
         fst (InstallDependency host dep h) = h ++ [[pip; "install"; u; "-U"]]).
Proof.
  intros Hname Hurl Hwhl. apply String.eqb_neq in Hname.
  assert (forall h, InstallDependency host dep h = Pip host ["install"; u] h) as Hd.
  { intros h. unfold InstallDependency. rewrite Hname, Hurl.
    assert (Py.truthy (Some u) = true) as ->.
    { destruct u; [|reflexivity].
      exfalso. now apply (endswith_nonempty "" ".whl"). }
    cbn [negb andb]. now rewrite Hwhl. }
  split; [exact Hd|].
  intros h pip Hpip Hne. rewrite Hd, (Pip_install _ _ _ _ Hpip Hne). reflexivity.
Qed.

Lemma InstallDependency_wheel_witness :
  fst (InstallDependency sample_host
         (new_DllDependency "runtime" (Some "vcredist2008")
            (Some "https://example.org/runtime-1.0-cp27-none-win32.whl")) [])
  = [["c:/python27/scripts/pip.exe"; "install";
      "https://example.org/runtime-1.0-cp27-none-win32.whl"; "-U"]].
Proof.
  apply (proj2 (InstallDependency_wheel sample_host
                  (new_DllDependency "runtime" (Some "vcredist2008")
                     (Some "https://example.org/runtime-1.0-cp27-none-win32.whl"))
                  "https://example.org/runtime-1.0-cp27-none-win32.whl"
                  ltac:(discriminate) eq_refl eq_refl) []
               "c:/python27/scripts/pip.exe"); reflexivity.
Defined.

(** ** The comparator: further properties *)

Lemma compare_pairs_cons_equal (p : string * string) (rest : list (string * string)) :
  numerically_equal p -> compare_pairs (p :: rest) = compare_pairs rest.
Proof.
  destruct p as [w a]. intros [[Hw Ha] Heq]. simpl in Hw, Ha, Heq.
  now rewrite (compare_pairs_cons _ _ _ Hw Ha), Heq, Z.gtb_ltb, Z.ltb_irrefl.
Qed.

Lemma compare_pairs_skip (pre rest : list (string * string)) :
  Forall numerically_equal pre ->
  compare_pairs (pre ++ rest) = compare_pairs rest.
Proof.
  induction 1 as [|p pre Hp _ IH]; [reflexivity|].
  change ((p :: pre) ++ rest) with (p :: pre ++ rest).
  now rewrite (compare_pairs_cons_equal _ _ Hp).
Qed.

Lemma compare_pairs_no_digit (w a : string) (rest : list (string * string)) :
  ~ both_have_digit (w, a) ->
  compare_pairs ((w, a) :: rest) = Raise ValueError.
Proof.
  unfold both_have_digit. cbn [fst snd compare_pairs]. intros Hnot.
  destruct (has_digit w) eqn:Hw.
  - destruct (has_digit a) eqn:Ha; [exfalso; auto|].
    now rewrite (int_has_digit _ Hw), (int_no_digit _ Ha).
  - now rewrite (int_no_digit _ Hw).
Qed.

Lemma both_have_digit_dec (p : string * string) :
  {both_have_digit p} + {~ both_have_digit p}.
Proof.
  unfold both_have_digit.
  destruct (has_digit (fst p)), (has_digit (snd p));
    (left; split; reflexivity) || (right; intros [? ?]; discriminate).
Defined.

(** Every list of compared pairs is either numerically equal throughout, or
    splits at its first pair that is not, which decides the result. *)
Lemma compare_pairs_cases (l : list (string * string)) :
  (Forall numerically_equal l /\ compare_pairs l = Ok 0%Z)
  \/ exists pre w a post,
       decided_at l pre (w, a) post
       /\ ((~ both_have_digit (w, a) /\ compare_pairs l = Raise ValueError)
           \/ (both_have_digit (w, a) /\ (seg_num w > seg_num a)%Z
               /\ compare_pairs l = Ok (-1)%Z)
           \/ (both_have_digit (w, a) /\ (seg_num w < seg_num a)%Z
               /\ compare_pairs l = Ok 1%Z)).
Proof.
  induction l as [|[w a] rest IH].
  - left. split; [constructor|reflexivity].
  - destruct (both_have_digit_dec (w, a)) as [Hd|Hd].
    + destruct Hd as [Hw Ha]. simpl in Hw, Ha.
      pose proof (compare_pairs_cons w a rest Hw Ha) as Hc.
      rewrite Z.gtb_ltb in Hc.
      destruct (Z.ltb_spec (seg_num a) (seg_num w)) as [Hgt|Hle].
      * right. exists [], w, a, rest. split; [split; [reflexivity|constructor]|].
        right; left. repeat split; auto. lia.
      * destruct (Z.ltb_spec (seg_num w) (seg_num a)) as [Hlt|Hge].
        -- right. exists [], w, a, rest. split; [split; [reflexivity|constructor]|].
           right; right. repeat split; auto.
        -- assert (numerically_equal (w, a)) as Heq
             by (repeat split; auto; simpl; lia).
           destruct IH as [[Hall H0] | (pre & w' & a' & post & [Hl Hpre] & Hcase)].
           ++ left. split; [now constructor|]. now rewrite Hc.
           ++ right. exists ((w, a) :: pre), w', a', post.
              split; [split; [now rewrite Hl|now constructor]|].
              rewrite Hc. exact Hcase.
    + right. exists [], w, a, rest. split; [split; [reflexivity|constructor]|].
      left. split; [exact Hd|]. now apply compare_pairs_no_digit.
Qed.

(** X1: [CompareVersion] either returns -1, 0 or 1, or raises
    [ValueError]; it has no other outcome. *)
Theorem CompareVersion_outcomes (actual wanted : string) :
  CompareVersion actual wanted = Ok (-1)%Z
  \/ CompareVersion actual wanted = Ok 0%Z
  \/ CompareVersion actual wanted = Ok 1%Z
  \/ CompareVersion actual wanted = Raise ValueError.
Proof.
  rewrite CompareVersion_pairs.
  destruct (compare_pairs_cases (compared actual wanted))
    as [[_ H] | (pre & w & a & post & _ & [[_ H] | [(_ & _ & H) | (_ & _ & H)]])];
    rewrite H; auto.
Qed.

(** X2: the result is 0 exactly when every compared pair of segments is
    numerically equal (both segments hold a digit and stand for the same
    number). *)
Theorem CompareVersion_zero_iff (actual wanted : string) :
  CompareVersion actual wanted = Ok 0%Z
  <-> Forall numerically_equal (compared actual wanted).
Proof.
  rewrite CompareVersion_pairs. split; [|apply compare_pairs_equal].
  intros H0.
  destruct (compare_pairs_cases (compared actual wanted))
    as [[Hall _] | (pre & w & a & post & _ & [[_ H] | [(_ & _ & H) | (_ & _ & H)]])];
    [exact Hall | congruence..].
Qed.

(** X3: the result is -1 exactly when, at the first compared pair that is
    not numerically equal, both segments hold a digit and the wanted one is
    the greater; what follows that pair, digit-free segments included, is
    not looked at. *)
Theorem CompareVersion_minus_one_iff (actual wanted : string) :
  CompareVersion actual wanted = Ok (-1)%Z
  <-> exists pre w a post,
        decided_at (compared actual wanted) pre (w, a) post
        /\ both_have_digit (w, a) /\ (seg_num w > seg_num a)%Z.
Proof.
  rewrite CompareVersion_pairs. split.
  - intros Hm.
    destruct (compare_pairs_cases (compared actual wanted))
      as [[_ H] | (pre & w & a & post & Hat & [[_ H] | [(Hd & Hgt & _) | (_ & _ & H)]])];
      try congruence.
    exists pre, w, a, post. auto.
  - intros (pre & w & a & post & [Hl Hpre] & Hd & Hgt). rewrite Hl.
    now apply compare_pairs_first_greater.
Qed.

(** X4: the result is 1 exactly when, at the first compared pair that is
    not numerically equal, both segments hold a digit and the wanted one is
    the smaller. *)
Theorem CompareVersion_one_iff (actual wanted : string) :
  CompareVersion actual wanted = Ok 1%Z
  <-> exists pre w a post,
        decided_at (compared actual wanted) pre (w, a) post
        /\ both_have_digit (w, a) /\ (seg_num w < seg_num a)%Z.
Proof.
  rewrite CompareVersion_pairs. split.
  - intros Hm.
    destruct (compare_pairs_cases (compared actual wanted))
      as [[_ H] | (pre & w & a & post & Hat & [[_ H] | [(_ & _ & H) | (Hd & Hlt & _)]])];
      try congruence.
    exists pre, w, a, post. auto.
  - intros (pre & w & a & post & [Hl Hpre] & [Hw Ha] & Hlt). rewrite Hl.
    rewrite (compare_pairs_skip _ _ Hpre). simpl in Hw, Ha.
    rewrite (compare_pairs_cons _ _ _ Hw Ha), Z.gtb_ltb.
    destruct (Z.ltb_spec (seg_num a) (seg_num w)); [lia|].
    destruct (Z.ltb_spec (seg_num w) (seg_num a)); [reflexivity|lia].
Qed.

(** X5: [ValueError] is raised exactly when the first compared pair that is
    not numerically equal has a segment without any digit. *)
Theorem CompareVersion_ValueError_iff (actual wanted : string) :
  CompareVersion actual wanted = Raise ValueError
  <-> exists pre p post,
        decided_at (compared actual wanted) pre p post
        /\ ~ both_have_digit p.
Proof.
  rewrite CompareVersion_pairs. split.
  - intros Hm.
    destruct (compare_pairs_cases (compared actual wanted))
      as [[_ H] | (pre & w & a & post & Hat & [[Hd _] | [(_ & _ & H) | (_ & _ & H)]])];
      try congruence.
    exists pre, (w, a), post. auto.
  - intros (pre & [w a] & post & [Hl Hpre] & Hd). rewrite Hl.
    rewrite (compare_pairs_skip _ _ Hpre). now apply compare_pairs_no_digit.
Qed.

Lemma compare_pairs_swap_negate (l : list (string * string)) :
  compare_pairs (map swap_pair l) = negate (compare_pairs l).
Proof.
  induction l as [|[w a] rest IH]; [reflexivity|].
  change (map swap_pair ((w, a) :: rest)) with ((a, w) :: map swap_pair rest).
  destruct (has_digit w) eqn:Hw; destruct (has_digit a) eqn:Ha.
  - rewrite (compare_pairs_cons _ _ _ Hw Ha), (compare_pairs_cons _ _ _ Ha Hw).
    rewrite !Z.gtb_ltb.
    destruct (Z.ltb_spec (seg_num a) (seg_num w));
      destruct (Z.ltb_spec (seg_num w) (seg_num a)); try lia;
      try reflexivity. exact IH.
  - cbn [compare_pairs].
    rewrite (int_has_digit _ Hw), (int_no_digit _ Ha). reflexivity.
  - cbn [compare_pairs].
    rewrite (int_has_digit _ Ha), (int_no_digit _ Hw). reflexivity.
  - cbn [compare_pairs].
    rewrite (int_no_digit _ Hw), (int_no_digit _ Ha). reflexivity.
Qed.

Lemma CompareVersion_swap_negate (a b : string) :
  CompareVersion b a = negate (CompareVersion a b).
Proof.
  rewrite !CompareVersion_pairs. unfold compared.
  rewrite <- (combine_swap (Py.split "." b) (Py.split "." a)).
  apply compare_pairs_swap_negate.
Qed.

(** X6: swapping the two arguments negates the result for all texts: a
    call raises [ValueError] exactly when the swapped call does, and
    otherwise the two results are opposite. *)
Theorem CompareVersion_swap (a b : string) :
  CompareVersion b a = negate (CompareVersion a b).
Proof. apply CompareVersion_swap_negate. Qed.

Lemma compared_first (actual wanted : string) :
  exists rest,
    compared actual wanted = (first_segment wanted, first_segment actual) :: rest.
Proof.
  unfold compared, first_segment.
  pose proof (split_not_nil "." wanted) as Hw.
  pose proof (split_not_nil "." actual) as Ha.
  destruct (Py.split "." wanted) as [|w ws]; [contradiction|].
  destruct (Py.split "." actual) as [|a as_]; [contradiction|].
  now exists (combine ws as_).
Qed.

(** X7: at least one pair of segments is always compared, so a first
    segment without any digit on either side makes the call raise
    [ValueError]; in particular the empty text cannot be compared with
    anything. *)
Theorem CompareVersion_first_segment :
  (forall actual wanted,
      has_digit (first_segment actual) = false
      \/ has_digit (first_segment wanted) = false ->
      CompareVersion actual wanted = Raise ValueError)
  /\ (forall v, CompareVersion "" v = Raise ValueError
                /\ CompareVersion v "" = Raise ValueError).
Proof.
  assert (forall actual wanted,
             has_digit (first_segment actual) = false
             \/ has_digit (first_segment wanted) = false ->
             CompareVersion actual wanted = Raise ValueError) as H.
  { intros actual wanted Hno. rewrite CompareVersion_pairs.
    destruct (compared_first actual wanted) as [rest ->].
    apply compare_pairs_no_digit. unfold both_have_digit. cbn [fst snd].
    intros [Hw Ha]. destruct Hno; congruence. }
  split; [exact H|].
  intros v. split; apply H; [left|right]; reflexivity.
Qed.

Lemma CompareVersion_first_segment_witness :
  CompareVersion "beta.2" "1.0" = Raise ValueError.
Proof.
  apply (proj1 CompareVersion_first_segment "beta.2" "1.0").
  left. reflexivity.
Defined.

Lemma seg_num_leading_zero (s : string) : seg_num (String "0" s) = seg_num s.
Proof. reflexivity. Qed.

Lemma split_cons_first (c : ascii) (v : string) :
  Ascii.eqb c "." = false ->
  Py.split "." (String c v)
  = String c (first_segment v) :: tl (Py.split "." v).
Proof.
  intros Hc. unfold first_segment. cbn [Py.split]. rewrite Hc.
  pose proof (split_not_nil "." v) as Hne.
  destruct (Py.split "." v); [contradiction|reflexivity].
Qed.

Lemma split_first_tl (v : string) :
  Py.split "." v = first_segment v :: tl (Py.split "." v).
Proof.
  unfold first_segment. pose proof (split_not_nil "." v) as Hne.
  destruct (Py.split "." v); [contradiction|reflexivity].
Qed.

(** X8: segments are compared as numbers, not as texts: a zero put in
    front of a version whose first segment holds a digit changes no
    result, on either side. *)
Theorem CompareVersion_leading_zero (v other : string) :
  has_digit (first_segment v) = true ->
  CompareVersion (String "0" v) other = CompareVersion v other
  /\ CompareVersion other (String "0" v) = CompareVersion other v.
Proof.
  intros Hd.
  assert (CompareVersion other (String "0" v) = CompareVersion other v) as H.
  { rewrite !CompareVersion_pairs. unfold compared.
    pose proof (split_cons_first "0" v eq_refl) as H1.
    pose proof (split_first_tl v) as H2.
    set (t := tl (Py.split "." v)) in *. rewrite H1, H2. clear H1 H2.
    destruct (Py.split "." other) as [|o os]; [reflexivity|].
    cbn [combine compare_pairs].
    assert (Py.filter in_digits (String "0" (first_segment v))
            = String "0" (Py.filter in_digits (first_segment v))) as -> by reflexivity.
    rewrite (int_has_digit _ Hd).
    assert (Py.int (String "0" (Py.filter in_digits (first_segment v)))
            = Ok (seg_num (first_segment v))) as -> by reflexivity.
    reflexivity. }
  split; [|exact H].
  rewrite (CompareVersion_swap_negate other (String "0" v)), H.
  now rewrite <- (CompareVersion_swap_negate other v).
Qed.

Lemma CompareVersion_leading_zero_witness :
  CompareVersion "01.5" "1.10" = CompareVersion "1.5" "1.10".
Proof.
  apply (CompareVersion_leading_zero "1.5" "1.10"). reflexivity.
Defined.

(** ** Formatting a number and reading it back *)

Lemma int_acc_of_uint_acc (d : uint) (acc : positive) :
  Py.int_acc (Z.pos acc) (NilEmpty.string_of_uint d)
  = Z.pos (Pos.of_uint_acc d acc).
Proof.
  revert acc. induction d as [|d IH|d IH|d IH|d IH|d IH|d IH|d IH|d IH|d IH|d IH];
    intros acc; cbn [NilEmpty.string_of_uint Py.int_acc Pos.of_uint_acc];
    [reflexivity|..];
    rewrite <- IH; f_equal;
    match goal with
    | |- context [Py.digit_value ?c] =>
        let v := eval vm_compute in (Py.digit_value c) in
        change (Py.digit_value c) with v
    end; lia.
Qed.

Lemma int_acc_of_uint (d : uint) :
  Py.int_acc 0 (NilEmpty.string_of_uint d) = Z.of_N (Pos.of_uint d).
Proof.
  induction d as [|d IH|d IH|d IH|d IH|d IH|d IH|d IH|d IH|d IH|d IH];
    cbn [NilEmpty.string_of_uint Py.int_acc Pos.of_uint];
    [reflexivity|exact IH|..];
    cbn [Z.of_N]; rewrite <- int_acc_of_uint_acc; reflexivity.
Qed.

Lemma filter_string_of_uint (d : uint) :
  Py.filter in_digits (NilEmpty.string_of_uint d) = NilEmpty.string_of_uint d.
Proof.
  induction d; cbn [NilEmpty.string_of_uint]; [reflexivity|..];
    (cbn [Py.filter];
     match goal with
     | |- (if in_digits ?c then _ else _) = _ =>
         change (in_digits c) with true; cbn iota
     end; now f_equal).
Qed.

Lemma str_of_Z_pos (p : positive) :
  Py.str_of_Z (Z.pos p) = NilEmpty.string_of_uint (Pos.to_uint p).
Proof.
  unfold Py.str_of_Z. cbn [Z.to_int NilZero.string_of_int].
  unfold NilZero.string_of_uint.
  pose proof (Unsigned.to_uint_nonnil p) as Hne.
  destruct (Pos.to_uint p); [contradiction|reflexivity..].
Qed.

Lemma seg_num_to_uint (p : positive) :
  seg_num (NilEmpty.string_of_uint (Pos.to_uint p)) = Z.pos p.
Proof.
  unfold seg_num.
  now rewrite filter_string_of_uint, int_acc_of_uint, Unsigned.of_to.
Qed.

Lemma has_digit_to_uint (p : positive) :
  has_digit (NilEmpty.string_of_uint (Pos.to_uint p)) = true.
Proof.
  pose proof (Unsigned.to_uint_nonnil p) as Hne.
  destruct (Pos.to_uint p); [contradiction|reflexivity..].
Qed.

Lemma contains_dot_string_of_uint (d : uint) :
  Py.contains "." (NilEmpty.string_of_uint d) = false.
Proof. induction d; cbn [NilEmpty.string_of_uint Py.contains]; auto. Qed.

Lemma str_of_Z_facts (n : Z) :
  has_digit (Py.str_of_Z n) = true
  /\ seg_num (Py.str_of_Z n) = Z.abs n
  /\ Py.contains "." (Py.str_of_Z n) = false.
Proof.
  destruct n as [|p|p].
  - repeat split.
  - rewrite str_of_Z_pos.
    repeat split; [apply has_digit_to_uint|apply seg_num_to_uint|
                   apply contains_dot_string_of_uint].
  - assert (Py.str_of_Z (Z.neg p)
            = String "-" (Py.str_of_Z (Z.pos p))) as -> by reflexivity.
    rewrite str_of_Z_pos.
    repeat split; [apply has_digit_to_uint|apply seg_num_to_uint|].
    cbn [Py.contains]. apply contains_dot_string_of_uint.
Qed.

(** X9: a number written with ["%d"] and read back the way
    [CompareVersion] reads a segment (digits kept, then [int]) gives the
    number again when it is not negative; the sign of a negative number is
    dropped with the other non-digit characters. *)
Theorem int_of_formatted (n : Z) :
  Py.int (Py.filter in_digits (Py.str_of_Z n)) = Ok (Z.abs n)
  /\ ((0 <= n)%Z -> Py.int (Py.filter in_digits (Py.str_of_Z n)) = Ok n).
Proof.
  destruct (str_of_Z_facts n) as (Hd & Hn & _).
  rewrite (int_has_digit _ Hd), Hn. split; [reflexivity|].
  intros Hpos. f_equal. lia.
Qed.

Lemma int_of_formatted_witness :
  Py.int (Py.filter in_digits (Py.str_of_Z 21022)) = Ok 21022%Z.
Proof. apply (int_of_formatted 21022). lia. Defined.

Lemma split_format3 (x y z : Z) :
  Py.split "." (format3 x y z)
  = [Py.str_of_Z x; Py.str_of_Z y; Py.str_of_Z z].
Proof.
  unfold format3.
  change (Py.str_of_Z x ++ "." ++ Py.str_of_Z y ++ "." ++ Py.str_of_Z z)%string
    with (Py.str_of_Z x ++ String "." (Py.str_of_Z y ++ String "." (Py.str_of_Z z)))%string.
  rewrite !split_app.
  destruct (str_of_Z_facts x) as (_ & _ & Hx).
  destruct (str_of_Z_facts y) as (_ & _ & Hy).
  destruct (str_of_Z_facts z) as (_ & _ & Hz).
  now rewrite (split_no_sep _ _ Hx), (split_no_sep _ _ Hy), (split_no_sep _ _ Hz).
Qed.

Lemma CompareVersion_format3 (x y z a b c : Z) :
  (0 <= x)%Z -> (0 <= y)%Z -> (0 <= z)%Z ->
  (0 <= a)%Z -> (0 <= b)%Z -> (0 <= c)%Z ->
  CompareVersion (format3 x y z) (format3 a b c)
  = Ok (if (a >? x)%Z then -1 else if (a <? x)%Z then 1
        else if (b >? y)%Z then -1 else if (b <? y)%Z then 1
        else if (c >? z)%Z then -1 else if (c <? z)%Z then 1 else 0)%Z.
Proof.
  intros Hx Hy Hz Ha Hb Hc.
  rewrite CompareVersion_pairs. unfold compared. rewrite !split_format3.
  cbn [combine].
  destruct (str_of_Z_facts x) as (Dx & Nx & _).
  destruct (str_of_Z_facts y) as (Dy & Ny & _).
  destruct (str_of_Z_facts z) as (Dz & Nz & _).
  destruct (str_of_Z_facts a) as (Da & Na & _).
  destruct (str_of_Z_facts b) as (Db & Nb & _).
  destruct (str_of_Z_facts c) as (Dc & Nc & _).
  rewrite (compare_pairs_cons _ _ _ Da Dx), (compare_pairs_cons _ _ _ Db Dy),
    (compare_pairs_cons _ _ _ Dc Dz).
  rewrite Nx, Ny, Nz, Na, Nb, Nc, !Z.abs_eq by assumption.
  repeat match goal with
         | |- context [if ?t then _ else _] => destruct t
         end; reflexivity.
Qed.

(** X10: with Stackless present, non-negative version numbers of the
    interpreter and a required version of three numbers, the runtime check
    raises [WrongVersion] exactly when the interpreter's triple is below
    the required one, position by position as numbers (so 2.7.11 satisfies
    2.7.9), and is satisfied otherwise. *)
Theorem StacklessDependency_Check_triple
    (w : World) (self : Descriptor) (loaded : PyModule) (x y z a b c : Z) :
  w_import w "stackless" = Ok loaded ->
  w_version_info w = (x, y, z) ->
  version self = Some (format3 a b c) ->
  (0 <= x)%Z /\ (0 <= y)%Z /\ (0 <= z)%Z ->
  (0 <= a)%Z /\ (0 <= b)%Z /\ (0 <= c)%Z ->
  (triple_lt x y z a b c ->
   StacklessDependency_Check w self = Raise WrongVersion)
  /\ (~ triple_lt x y z a b c -> StacklessDependency_Check w self = Ok tt).
Proof.
  intros Himp Hinfo Hver (Hx & Hy & Hz) (Ha & Hb & Hc).
  unfold StacklessDependency_Check, check_version, runtime_version, triple_lt.
  rewrite Himp, Hinfo, Hver. cbn [attribute bind].
  change (Py.str_of_Z x ++ "." ++ Py.str_of_Z y ++ "." ++ Py.str_of_Z z)%string
    with (format3 x y z).
  rewrite (CompareVersion_format3 x y z a b c) by assumption. cbn [bind].
  rewrite !Z.gtb_ltb.
  split; intros H;
    destruct (Z.ltb_spec x a); destruct (Z.ltb_spec a x);
    destruct (Z.ltb_spec y b); destruct (Z.ltb_spec b y);
    destruct (Z.ltb_spec z c); destruct (Z.ltb_spec c z);
    try reflexivity; exfalso; lia.
Qed.

Lemma StacklessDependency_Check_triple_witness :
  StacklessDependency_Check stackless_world new_StacklessDependency = Ok tt.
Proof.
  apply (StacklessDependency_Check_triple stackless_world new_StacklessDependency
           (module_with "__version__" (VStr "1.0")) 2 7 11 2 7 9);
    try reflexivity; unfold triple_lt; lia.
Defined.

(** ** The shared-library check: further properties *)

Lemma DllDependency_files_copies
    (w : World) (bs : BuildSetup) (wantedVersion : list Z) (files : list string) :
  (forall file, In file files -> exists v, w_GetFileVersion w file = Ok v) ->
  (forall copy, w_copy_error w copy = None) ->
  forall copied,
    DllDependency_files w bs wantedVersion files copied
    = (copied ++ flat_map (copies_of w bs)
                          (take_while (has_version w wantedVersion) files),
       if forallb (has_version w wantedVersion) files
       then Ok tt else Raise WrongVersion).
Proof.
  intros Hver Hcopy. induction files as [|file rest IH]; intros copied.
  - cbn. now rewrite app_nil_r.
  - cbn [DllDependency_files take_while forallb]. unfold has_version at 1 3.
    destruct (Hver file (or_introl eq_refl)) as [v ->].
    destruct (tuple_eqb v wantedVersion); cbn [negb andb].
    + rewrite !Hcopy, IH by (intros f Hf; apply Hver; now right).
      cbn [flat_map]. unfold copies_of at 2. cbn [app].
      now rewrite <- app_assoc.
    + cbn. now rewrite app_nil_r.
Qed.

(** X11: once the manifest is known and neither [GetFileVersion] nor a
    copy fails, the shared-library check is satisfied exactly when the
    pattern matches at least one file and every matched file has the wanted
    version; it raises [MissingDependency] when nothing matches and
    [WrongVersion] at the first file of another version. The files before
    that one have been copied by then and stay copied; no file of another
    version is ever copied. *)
Theorem DllDependency_Check_copies
    (w : World) (self : Descriptor) (bs : BuildSetup)
    (g_ver : string) (wantedVersion : list Z) (files : list string) :
  kind self = DllDependency ->
  manifest_known w self bs g_ver wantedVersion files ->
  (forall file, In file files -> exists v, w_GetFileVersion w file = Ok v) ->
  (forall copy, w_copy_error w copy = None) ->
  c_copied (Check w self)
  = flat_map (copies_of w bs) (take_while (has_version w wantedVersion) files)
  /\ c_outcome (Check w self)
     = match files with
       | [] => Raise MissingDependency
       | _ :: _ => if forallb (has_version w wantedVersion) files
                   then Ok tt else Raise WrongVersion
       end.
Proof.
  intros Hk (manifest & g_name & g_arch & root & Hbs & Hread & Hre & Hint & Henv & Hglob)
         Hver Hcopy.
  unfold Check. rewrite Hk. unfold DllDependency_Check.
  rewrite Hbs, Hread, Hre, Hint, Henv, Hglob.
  destruct files as [|f fs]; [split; reflexivity|].
  rewrite (DllDependency_files_copies w bs wantedVersion (f :: fs) Hver Hcopy []).
  split; reflexivity.
Qed.

Lemma DllDependency_Check_copies_witness :
  c_copied (Check sample_world (set_buildSetup sample_dll sample_buildSetup))
  = [CopyFile "C:/Windows/WinSxS/x86_crt/msvcr90.dll" "C:/eg/msvcr90.dll";
     CopyStat "C:/Windows/WinSxS/x86_crt/msvcr90.dll" "C:/eg/msvcr90.dll"]
  /\ c_outcome (Check sample_world (set_buildSetup sample_dll sample_buildSetup))
     = Ok tt.
Proof.
  apply (DllDependency_Check_copies sample_world
           (set_buildSetup sample_dll sample_buildSetup) sample_buildSetup
           "9.0.21022.8" [9; 0; 21022; 8]%Z
           ["C:/Windows/WinSxS/x86_crt/msvcr90.dll"]).
  - reflexivity.
  - exists "manifest", "Microsoft.VC90.CRT", "x86", "C:/Windows".
    repeat split; reflexivity.
  - intros file _. exists [9; 0; 21022; 8]%Z. reflexivity.
  - intros copy. reflexivity.
Defined.

(** ** The check phase: further properties *)

Lemma CheckDependencies_loop_cons
    (w : World) (bs : BuildSetup) (i : nat) (dep : Descriptor)
    (rest : list Descriptor) :
  CheckDependencies_loop w bs i (dep :: rest)
  = let c := Check w (set_buildSetup dep bs) in
    let r := CheckDependencies_loop w bs (S i) rest in
    match c_outcome c with
    | Ok _ =>
        {| p_deps := c_self c :: p_deps r; p_failedDeps := p_failedDeps r;
           p_copied := c_copied c ++ p_copied r; p_outcome := p_outcome r |}
    | Raise e =>
        if caught e
        then {| p_deps := c_self c :: p_deps r;
                p_failedDeps := i :: p_failedDeps r;
                p_copied := c_copied c ++ p_copied r;
                p_outcome := p_outcome r |}
        else {| p_deps := c_self c :: rest; p_failedDeps := [];
                p_copied := c_copied c; p_outcome := Raise e |}
    end.
Proof. reflexivity. Qed.

Lemma CheckDependencies_loop_abort
    (w : World) (bs : BuildSetup) (pre : list Descriptor)
    (dep : Descriptor) (post : list Descriptor) (e : exn) (i : nat) :
  Forall (passes_or_caught w bs) pre ->
  c_outcome (Check w (set_buildSetup dep bs)) = Raise e ->
  caught e = false ->
  CheckDependencies_loop w bs i (pre ++ dep :: post)
  = {| p_deps := map (after_check w bs) pre ++ after_check w bs dep :: post;
       p_failedDeps := raising_positions w bs i pre;
       p_copied := copies_of_checks w bs (pre ++ [dep]);
       p_outcome := Raise e |}.
Proof.
  intros Hpre Hout Hunc. revert i.
  induction Hpre as [|d pre Hd _ IH]; intros i.
  - rewrite app_nil_l, CheckDependencies_loop_cons. cbv zeta.
    rewrite Hout, Hunc.
    unfold copies_of_checks, raising_positions, after_check.
    cbn. now rewrite app_nil_r.
  - rewrite <- app_comm_cons, CheckDependencies_loop_cons. cbv zeta.
    rewrite (IH (S i)).
    unfold raising_positions, copies_of_checks.
    cbn [List.length seq combine filter snd map flat_map p_deps p_failedDeps
         p_copied p_outcome app].
    change (c_self (Check w (set_buildSetup d bs))) with (after_check w bs d).
    assert (raises w bs d
            = match c_outcome (Check w (set_buildSetup d bs)) with
              | Ok _ => false
              | Raise _ => true
              end) as Hr by reflexivity.
    destruct (c_outcome (Check w (set_buildSetup d bs))) as [[]|e'] eqn:Hd';
      rewrite Hr.
    + reflexivity.
    + rewrite (Hd e' Hd'). reflexivity.
Qed.

(** X12: when the checker of some descriptor raises an exception the
    driver does not catch, and the checkers before it pass or raise a
    caught one, the check phase ends with that exception: the failure list
    holds the positions before it that raised, the descriptors after it are
    untouched (not even the back-reference is set), and the files copied
    are those of the checks up to and including the raising one. *)
Theorem CheckDependencies_abort
    (w : World) (bs : BuildSetup) (pre : list Descriptor)
    (dep : Descriptor) (post : list Descriptor) (e : exn) :
  Forall (passes_or_caught w bs) pre ->
  c_outcome (Check w (set_buildSetup dep bs)) = Raise e ->
  caught e = false ->
  CheckDependencies_phase1 w bs (pre ++ dep :: post)
  = {| p_deps := map (after_check w bs) pre ++ after_check w bs dep :: post;
       p_failedDeps := raising_positions w bs 0 pre;
       p_copied := copies_of_checks w bs (pre ++ [dep]);
       p_outcome := Raise e |}.
Proof. apply CheckDependencies_loop_abort. Qed.

Lemma CheckDependencies_abort_witness :
  let deps :=
    [new_ModuleDependency "agithub" "agithub" "2.0" None None]
    ++ new_ModuleDependency "comtypes" "comtypes" "1.x" None None
    :: [new_PyWin32Dependency] in
  p_outcome (CheckDependencies_phase1 sample_world sample_buildSetup deps)
  = Raise ValueError
  /\ p_failedDeps (CheckDependencies_phase1 sample_world sample_buildSetup deps)
     = [0%nat]
  /\ nth_error (p_deps (CheckDependencies_phase1 sample_world sample_buildSetup deps)) 2
     = Some new_PyWin32Dependency.
Proof.
  intros deps. subst deps.
  rewrite (CheckDependencies_abort sample_world sample_buildSetup
             [new_ModuleDependency "agithub" "agithub" "2.0" None None]
             (new_ModuleDependency "comtypes" "comtypes" "1.x" None None)
             [new_PyWin32Dependency] ValueError).
  - repeat split.
  - constructor; [|constructor]. intros e He. vm_compute in He.
    injection He as <-. reflexivity.
  - reflexivity.
  - reflexivity.
Defined.

(** Which of its own fields a check can leave changed. *)
Lemma Check_self_cases (w : World) (self : Descriptor) :
  c_self (Check w self) = self
  \/ c_self (Check w self) = set_exact self
  \/ exists g_ver, c_self (Check w self) = set_version (set_exact self) g_ver.
Proof.
  unfold Check. destruct (kind self); try (left; reflexivity).
  unfold DllDependency_Check.
  destruct (buildSetup self) as [bs|]; [|left; reflexivity].
  destruct (w_read w _) as [manifest|]; [|left; reflexivity].
  destruct (w_search_manifest w manifest) as [[[g_name g_ver] g_arch]|];
    [|right; left; reflexivity].
  right; right. exists g_ver.
  destruct (int_tuple w _); [|reflexivity].
  destruct (w_environ w _); [|reflexivity].
  destruct (w_glob w _); [reflexivity|].
  destruct (DllDependency_files _ _ _ _ _). reflexivity.
Qed.

Lemma Check_keeps (w : World) (self : Descriptor) :
  let self' := c_self (Check w self) in
  kind self' = kind self /\ name self' = name self /\ attr self' = attr self
  /\ module self' = module self /\ package self' = package self
  /\ url self' = url self /\ buildSetup self' = buildSetup self.
Proof.
  cbv zeta.
  destruct (Check_self_cases w self) as [-> | [-> | [g_ver ->]]];
    repeat split.
Qed.

Lemma Check_stable (w : World) (bs : BuildSetup) (dep : Descriptor) :
  Check w (set_buildSetup (c_self (Check w (set_buildSetup dep bs))) bs)
  = Check w (set_buildSetup dep bs).
Proof.
  destruct dep as [k n v a e m p u b].
  unfold Check. cbn [kind set_buildSetup].
  destruct k; try reflexivity.
  unfold DllDependency_Check. cbn [buildSetup set_buildSetup].
  destruct (w_read w (w_join w [pyVersionDir bs; "manifest.template"]))
    as [manifest|]; [|reflexivity].
  destruct (w_search_manifest w manifest) as [[[g_name g_ver] g_arch]|];
    [|reflexivity].
  destruct (int_tuple w (Py.split "." g_ver)) as [wantedVersion|x];
    [|reflexivity].
  destruct (w_environ w "SystemRoot") as [root|]; [|reflexivity].
  destruct (w_glob w (winsxs_pattern w root g_name g_ver g_arch)) as [|f fs];
    [reflexivity|].
  destruct (DllDependency_files w bs wantedVersion (f :: fs) []) as [copied r].
  reflexivity.
Qed.

Lemma CheckDependencies_loop_stable
    (w : World) (bs : BuildSetup) (deps : list Descriptor) (i : nat) :
  CheckDependencies_loop w bs i (p_deps (CheckDependencies_loop w bs i deps))
  = CheckDependencies_loop w bs i deps.
Proof.
  revert i. induction deps as [|dep rest IH]; intros i; [reflexivity|].
  rewrite (CheckDependencies_loop_cons w bs i dep rest). cbv zeta.
  destruct (c_outcome (Check w (set_buildSetup dep bs))) as [[]|e] eqn:Hout;
    [|destruct (caught e) eqn:Hc];
    cbn [p_deps]; rewrite CheckDependencies_loop_cons; cbv zeta;
    rewrite Check_stable, Hout, ?Hc, ?IH; reflexivity.
Qed.

(** X13: on an unchanged machine the check phase can be run again on the
    descriptors it left behind: the second run ends the same way, with the
    same failure list and the same copies, and leaves every descriptor as
    the first run left it. *)
Theorem CheckDependencies_rerun
    (w : World) (bs : BuildSetup) (deps : list Descriptor) :
  CheckDependencies_phase1 w bs
    (p_deps (CheckDependencies_phase1 w bs deps))
  = CheckDependencies_phase1 w bs deps.
Proof. apply CheckDependencies_loop_stable. Qed.

Lemma CheckDependencies_loop_fields
    (w : World) (bs : BuildSetup) (deps : list Descriptor) (i : nat) :
  map (fun d => (kind d, name d, attr d, module d, package d, url d))
      (p_deps (CheckDependencies_loop w bs i deps))
  = map (fun d => (kind d, name d, attr d, module d, package d, url d)) deps.
Proof.
  revert i. induction deps as [|dep rest IH]; intros i; [reflexivity|].
  assert ((fun d => (kind d, name d, attr d, module d, package d, url d))
            (c_self (Check w (set_buildSetup dep bs)))
          = (kind dep, name dep, attr dep, module dep, package dep, url dep))
    as Hdep.
  { destruct (Check_keeps w (set_buildSetup dep bs))
      as (Hk & Hn & Ha & Hm & Hp & Hu & _).
    cbn beta. now rewrite Hk, Hn, Ha, Hm, Hp, Hu. }
  rewrite CheckDependencies_loop_cons. cbv zeta.
  destruct (c_outcome (Check w (set_buildSetup dep bs))) as [[]|e];
    [|destruct (caught e)]; cbn [p_deps map]; rewrite Hdep, ?IH; reflexivity.
Qed.

(** X14: whether it completes or not, the check phase keeps the number and
    the order of the descriptors and never changes the class, [name],
    [attr], [module], [package] or [url] of any of them. *)
Theorem CheckDependencies_keeps_identity
    (w : World) (bs : BuildSetup) (deps : list Descriptor) :
  let r := CheckDependencies_phase1 w bs deps in
  List.length (p_deps r) = List.length deps
  /\ map (fun d => (kind d, name d, attr d, module d, package d, url d)) (p_deps r)
     = map (fun d => (kind d, name d, attr d, module d, package d, url d)) deps.
Proof.
  cbv zeta. unfold CheckDependencies_phase1.
  pose proof (CheckDependencies_loop_fields w bs deps 0) as H.
  split; [|exact H].
  apply (f_equal (@List.length _)) in H. now rewrite !length_map in H.
Qed.

(** ** The installers: further properties *)

Lemma GetPipPath_missing (host : Host) (h : History) :
  pip_missing host h -> GetPipPath host h = (h, Ok EmptyString).
Proof.
  intros [Hno | Hempty]; unfold GetPipPath; fold (pip_exe host).
  - now rewrite Hno.
  - rewrite Hempty. now destruct (h_exists host h "").
Qed.

Lemma GetPipPath_found (host : Host) (h : History) :
  h_exists host h (pip_exe host) = true ->
  GetPipPath host h = (h, Ok (pip_exe host)).
Proof. intros Hex. unfold GetPipPath. fold (pip_exe host). now rewrite Hex. Qed.

Lemma InstallDependency_name_route (host : Host) (dep : Descriptor) :
  name dep <> "Stackless Python" ->
  Py.truthy (url dep) = false ->
  Py.truthy (package dep) = false ->
  (exact dep = true ->
   forall v, version dep = Some v ->
     forall h, InstallDependency host dep h
               = Pip host ["install"; (name dep ++ "==" ++ v)%string] h)
  /\ (exact dep = false ->
      forall h, InstallDependency host dep h = Pip host ["install"; name dep] h).
Proof.
  intros Hname Hurl Hpkg. apply String.eqb_neq in Hname.
  split.
  - intros Hexact v Hv h. unfold InstallDependency.
    rewrite Hname, Hurl, Hpkg, Hexact, Hv. reflexivity.
  - intros Hexact h. unfold InstallDependency.
    rewrite Hname, Hurl, Hpkg, Hexact. reflexivity.
Qed.

Lemma InstallDependency_wheel_route (host : Host) (dep : Descriptor) (u : string) :
  name dep <> "Stackless Python" ->
  url dep = Some u ->
  Py.endswith u ".whl" = true ->
  forall h, InstallDependency host dep h = Pip host ["install"; u] h.
Proof.
  intros Hname Hurl Hwhl h. apply String.eqb_neq in Hname.
  unfold InstallDependency. rewrite Hname, Hurl.
  assert (Py.truthy (Some u) = true) as ->.
  { destruct u; [|reflexivity].
    exfalso. now apply (endswith_nonempty "" ".whl"). }
  cbn [negb andb]. now rewrite Hwhl.
Qed.

Lemma Pip_missing (host : Host) (h : History) (args : list string) :
  pip_missing host h -> Pip host args h = (h, Raise MissingPip).
Proof.
  intros Hm. unfold Pip, pbind. now rewrite (GetPipPath_missing _ _ Hm).
Qed.

(** X15: without [pip.exe], [Pip] raises [MissingPip] before anything is
    started, whatever its arguments; so do [InstallStackless] and the
    by-name and wheel branches of [InstallDependency]. *)
Theorem nothing_started_without_pip (host : Host) (h : History) :
  pip_missing host h ->
  (forall args, Pip host args h = (h, Raise MissingPip))
  /\ (forall v, InstallStackless host v h = (h, Raise MissingPip))
  /\ (forall dep v,
         name dep <> "Stackless Python" ->
         (exact dep = true -> version dep = Some v) ->
         (Py.truthy (url dep) = false /\ Py.truthy (package dep) = false)
         \/ (exists u, url dep = Some u /\ Py.endswith u ".whl" = true) ->
         InstallDependency host dep h = (h, Raise MissingPip)).
Proof.
  intros Hm. split; [|split].
  - intros args. now apply Pip_missing.
  - intros v. unfold InstallStackless, pbind. now rewrite Pip_missing.
  - intros dep v Hname Hv [[Hurl Hpkg] | (u & Hu & Hwhl)].
    + destruct (InstallDependency_name_route host dep Hname Hurl Hpkg)
        as [Hexact Hbare].
      destruct (exact dep) eqn:He.
      * rewrite (Hexact eq_refl v (Hv eq_refl) h). now apply Pip_missing.
      * rewrite (Hbare eq_refl h). now apply Pip_missing.
    + rewrite (InstallDependency_wheel_route host dep u Hname Hu Hwhl h).
      now apply Pip_missing.
Qed.

Lemma nothing_started_without_pip_witness :
  InstallDependency bare_host new_PyWin32Dependency [] = ([], Raise MissingPip).
Proof.
  apply (proj2 (proj2 (nothing_started_without_pip bare_host []
                         (or_introl eq_refl))) new_PyWin32Dependency "220").
  - discriminate.
  - discriminate.
  - right. eexists. split; reflexivity.
Defined.

Lemma Pip_found (host : Host) (h : History) (verb : string) (rest : list string) :
  h_exists host h (pip_exe host) = true ->
  is_empty (pip_exe host) = false ->
  Pip host (verb :: rest) h
  = let flags :=
      if String.eqb (Py.lower verb) "install" then ["-U"]
      else if String.eqb (Py.lower verb) "uninstall" then ["-y"]
      else [] in
    let command := pip_exe host :: (verb :: rest) ++ flags in
    (h ++ [command],
     match h_StartProcess host h command with
     | Ok code => Ok (code =? 0)%Z
     | Raise e => Raise e
     end).
Proof.
  intros Hex Hne. unfold Pip, pbind. rewrite (GetPipPath_found _ _ Hex), Hne.
  cbv zeta. unfold StartProcess, pret.
  destruct (String.eqb (Py.lower verb) "install");
    [|destruct (String.eqb (Py.lower verb) "uninstall")];
    rewrite ?app_nil_r;
    match goal with
    | |- context [h_StartProcess host h ?c] => destruct (h_StartProcess host h c)
    end; reflexivity.
Qed.

(** X16: with pip present, [InstallStackless] starts three processes in
    this order: pip installing the installer package from its download URL
    (with [-U]), [install-stackless], and pip removing the package again
    (with [-y]). Its result is whether [install-stackless] ended with
    status 0; the statuses of the two pip runs play no part in it. *)
Theorem InstallStackless_runs
    (host : Host) (version : string) (h : History) (k1 k2 k3 : Z) :
  let pip := pip_exe host in
  let c1 := [pip; "install"; stackless_package_url host version; "-U"] in
  let c2 := ["install-stackless"] in
  let c3 := [pip; "uninstall"; stackless_package host; "-y"] in
  is_empty pip = false ->
  h_exists host h pip = true ->
  h_exists host (h ++ [c1; c2]) pip = true ->
  h_StartProcess host h c1 = Ok k1 ->
  h_StartProcess host (h ++ [c1]) c2 = Ok k2 ->
  h_StartProcess host (h ++ [c1; c2]) c3 = Ok k3 ->
  InstallStackless host version h = (h ++ [c1; c2; c3], Ok (k2 =? 0)%Z).
Proof.
  intros pip c1 c2 c3 Hne Hex1 Hex3 H1 H2 H3.
  unfold InstallStackless. cbv zeta.
  fold (stackless_package host). fold (stackless_package_url host version).
  unfold pbind at 1.
  rewrite (Pip_found host h "install" [stackless_package_url host version] Hex1 Hne).
  cbv zeta. change (String.eqb (Py.lower "install") "install") with true.
  cbn iota. cbn [List.app]. fold pip. fold c1. rewrite H1.
  unfold pbind at 1. unfold StartProcess at 1. fold c2. rewrite H2.
  unfold pbind at 1.
  assert (((h ++ [c1]) ++ [c2]) = h ++ [c1; c2]) as Hh
    by now rewrite <- app_assoc.
  rewrite Hh.
  rewrite (Pip_found host (h ++ [c1; c2]) "uninstall" [stackless_package host] Hex3 Hne).
  cbv zeta. change (String.eqb (Py.lower "uninstall") "install") with false.
  change (String.eqb (Py.lower "uninstall") "uninstall") with true.
  cbn iota. cbn [List.app]. fold pip. fold c3. rewrite H3.
  unfold pret. now rewrite <- app_assoc.
Qed.

Lemma InstallStackless_runs_witness :
  InstallStackless sample_host "2.7.9" []
  = ([["c:/python27/scripts/pip.exe"; "install";
       "https://bitbucket.org/akruis/slp-installer/downloads/stackless_installer_C2_win32-2.7.9.1.zip";
       "-U"];
      ["install-stackless"];
      ["c:/python27/scripts/pip.exe"; "uninstall";
       "stackless-installer-C2-win32"; "-y"]],
     Ok true).
Proof.
  apply (InstallStackless_runs sample_host "2.7.9" [] 0 0 0); reflexivity.
Defined.

Lemma GetChocolateyPath_missing (host : Host) (h : History) :
  choco_missing host h -> GetChocolateyPath host h = (h, Ok EmptyString).
Proof.
  intros [Hno | Hempty]; unfold GetChocolateyPath; fold (choco_exe host).
  - now rewrite Hno.
  - rewrite Hempty. now destruct (h_exists host h "").
Qed.

(** X17: without [choco.exe], [Choco] first runs the PowerShell
    bootstrap. A non-zero status raises [MissingChocolatey] and a
    [WindowsError] from starting PowerShell raises [MissingPowerShell],
    in both cases with nothing else started. After a bootstrap with
    status 0 the path is looked up again and the install is started with
    whatever that gives, the empty program name if [choco.exe] is still
    not there, with [-f -y] appended to the arguments. *)
Theorem Choco_bootstrap (host : Host) (args : list string) (h : History) :
  choco_missing host h ->
  (forall code, h_StartProcess host h bootstrap_command = Ok code ->
                code <> 0%Z ->
                Choco host args h = (h ++ [bootstrap_command], Raise MissingChocolatey))
  /\ (h_StartProcess host h bootstrap_command = Raise WindowsError ->
      Choco host args h = (h ++ [bootstrap_command], Raise MissingPowerShell))
  /\ (h_StartProcess host h bootstrap_command = Ok 0%Z ->
      let h1 := h ++ [bootstrap_command] in
      let choco :=
        if h_exists host h1 (choco_exe host) then choco_exe host
        else EmptyString in
      let command := choco :: args ++ ["-f"; "-y"] in
      Choco host args h
      = (h1 ++ [command],
         match h_StartProcess host h1 command with
         | Ok code => Ok (code =? 0)%Z
         | Raise e => Raise e
         end)).
Proof.
  intros Hm.
  assert (forall r, h_StartProcess host h bootstrap_command = r ->
            Choco host args h
            = match r with
              | Ok code =>
                  if negb (code =? 0)%Z
                  then (h ++ [bootstrap_command], Raise MissingChocolatey)
                  else
                    let h1 := h ++ [bootstrap_command] in
                    let choco :=
                      if h_exists host h1 (choco_exe host) then choco_exe host
                      else EmptyString in
                    let command := choco :: args ++ ["-f"; "-y"] in
                    (h1 ++ [command],
                     match h_StartProcess host h1 command with
                     | Ok code => Ok (code =? 0)%Z
                     | Raise e => Raise e
                     end)
              | Raise e =>
                  if exn_eq_dec e WindowsError
                  then (h ++ [bootstrap_command], Raise MissingPowerShell)
                  else (h ++ [bootstrap_command], Raise e)
              end) as Hgen.
  { intros r Hr. unfold Choco. unfold pbind at 1.
    rewrite (GetChocolateyPath_missing _ _ Hm). cbn [is_empty].
    unfold pbind at 1. unfold StartProcess at 1.
    fold bootstrap_command. rewrite Hr.
    destruct r as [code|e].
    - destruct (code =? 0)%Z; cbn [negb]; [|reflexivity].
      cbv zeta. unfold pbind, GetChocolateyPath, StartProcess, pret.
      fold (choco_exe host).
      destruct (h_StartProcess host (h ++ [bootstrap_command]) _); reflexivity.
    - destruct (exn_eq_dec e WindowsError); reflexivity. }
  split; [|split].
  - intros code Hr Hnz. rewrite (Hgen _ Hr).
    destruct (Z.eqb_spec code 0); [contradiction|reflexivity].
  - intros Hr. rewrite (Hgen _ Hr).
    destruct (exn_eq_dec WindowsError WindowsError); [reflexivity|contradiction].
  - intros Hr. rewrite (Hgen _ Hr). reflexivity.
Qed.

Lemma Choco_bootstrap_witness :
  Choco bare_host ["install"; "innosetup"] []
  = ([bootstrap_command], Raise MissingPowerShell).
Proof.
  apply (proj1 (proj2 (Choco_bootstrap bare_host ["install"; "innosetup"] []
                         (or_introl eq_refl)))).
  reflexivity.
Defined.

Lemma Choco_found (host : Host) (args : list string) (h : History) :
  h_exists host h (choco_exe host) = true ->
  is_empty (choco_exe host) = false ->
  Choco host args h
  = let command := choco_exe host :: args ++ ["-f"; "-y"] in
    (h ++ [command],
     match h_StartProcess host h command with
     | Ok code => Ok (code =? 0)%Z
     | Raise e => Raise e
     end).
Proof.
  intros Hex Hne. unfold Choco, pbind, GetChocolateyPath, StartProcess, pret.
  fold (choco_exe host). rewrite Hex, Hne. cbv beta iota zeta. rewrite ?Hex.
  destruct (h_StartProcess host h _); reflexivity.
Qed.

(** X18: a descriptor that is not "Stackless Python", names a package and
    has no URL ending in ".whl" is installed through the package manager:
    [InstallDependency] is [Choco("install", package, ...)], with
    [--version=<version>] when [exact] is set, followed by [--x86] on a
    32-bit interpreter. With [choco.exe] present exactly one process is
    started, and the URL plays no part. *)
Theorem InstallDependency_package
    (host : Host) (dep : Descriptor) (p v : string) :
  name dep <> "Stackless Python" ->
  package dep = Some p ->
  p <> EmptyString ->
  (exact dep = true -> version dep = Some v) ->
  (forall u, url dep = Some u -> Py.endswith u ".whl" = false) ->
  let args := "install" :: p :: choco_arguments host (exact dep) v in
  (forall h, InstallDependency host dep h = Choco host args h)
  /\ (forall h,
         h_exists host h (choco_exe host) = true ->
         is_empty (choco_exe host) = false ->
         fst (InstallDependency host dep h)
         = h ++ [choco_exe host :: args ++ ["-f"; "-y"]]).
Proof.
  intros Hname Hpkg Hp Hv Hurl args. apply String.eqb_neq in Hname.
  assert (forall h, InstallDependency host dep h = Choco host args h) as Hd.
  { intros h. unfold InstallDependency. rewrite Hname, Hpkg.
    assert (Py.truthy (Some p) = true) as ->
      by (destruct p; [now elim Hp|reflexivity]).
    rewrite andb_false_r.
    assert (Py.truthy (url dep)
            && Py.endswith match url dep with
                           | Some u => u
                           | None => EmptyString
                           end ".whl" = false) as ->.
    { destruct (url dep) as [u|]; [|reflexivity].
      rewrite (Hurl u eq_refl). apply andb_false_r. }
    subst args. unfold choco_arguments.
    destruct (exact dep); [rewrite (Hv eq_refl)|]; reflexivity. }
  split; [exact Hd|].
  intros h Hex Hne. rewrite Hd, (Choco_found _ _ _ Hex Hne). reflexivity.
Qed.

Lemma InstallDependency_package_witness :
  fst (InstallDependency sample_host
         (after_check sample_world sample_buildSetup sample_dll) [])
  = [["C:/ProgramData/chocolatey/bin/choco.exe"; "install"; "vcredist2008";
      "--version=9.0.21022.8"; "--x86"; "-f"; "-y"]].
Proof.
  apply (proj2 (InstallDependency_package sample_host
                  (after_check sample_world sample_buildSetup sample_dll)
                  "vcredist2008" "9.0.21022.8"
                  ltac:(discriminate) eq_refl ltac:(discriminate)
                  ltac:(reflexivity)
                  ltac:(intros u Hu; injection Hu as <-; reflexivity)) []);
    reflexivity.
Defined.

(** X19: a descriptor that is not "Stackless Python" and has a URL that
    does not end in ".whl" but no package name cannot be installed:
    [InstallDependency] raises [MissingInstallMethod] and starts nothing. *)
Theorem InstallDependency_no_method
    (host : Host) (dep : Descriptor) (u : string) (h : History) :
  name dep <> "Stackless Python" ->
  url dep = Some u ->
  u <> EmptyString ->
  Py.endswith u ".whl" = false ->
  Py.truthy (package dep) = false ->
  InstallDependency host dep h = (h, Raise MissingInstallMethod).
Proof.
  intros Hname Hurl Hu Hwhl Hpkg. apply String.eqb_neq in Hname.
  unfold InstallDependency. rewrite Hname, Hurl, Hpkg, Hwhl.
  assert (Py.truthy (Some u) = true) as ->
    by (destruct u; [now elim Hu|reflexivity]).
  reflexivity.
Qed.

Lemma InstallDependency_no_method_witness :
  InstallDependency sample_host
    (new_ModuleDependency "docs" "docs" "1.0" None
       (Some "https://example.org/docs-1.0.tar.gz")) []
  = ([], Raise MissingInstallMethod).
Proof.
  apply (InstallDependency_no_method sample_host
           (new_ModuleDependency "docs" "docs" "1.0" None
              (Some "https://example.org/docs-1.0.tar.gz"))
           "https://example.org/docs-1.0.tar.gz" []);
    try reflexivity; discriminate.
Defined.

(** X20: the name "Stackless Python" is looked at before anything else: a
    descriptor of that name is handed to [InstallStackless] with its
    version whatever its URL, package name and [exact] flag are, and when
    its version was never set the call raises [AttributeError] without
    starting anything. *)
Theorem InstallDependency_stackless_first (host : Host) (dep : Descriptor) :
  name dep = "Stackless Python" ->
  (forall v, version dep = Some v ->
     forall h, InstallDependency host dep h = InstallStackless host v h)
  /\ (version dep = None ->
      forall h, InstallDependency host dep h = (h, Raise AttributeError)).
Proof.
  intros Hname. unfold InstallDependency. rewrite Hname.
  change (String.eqb "Stackless Python" "Stackless Python") with true.
  cbn iota. split.
  - intros v Hv h. rewrite Hv. reflexivity.
  - intros Hv h. rewrite Hv. reflexivity.
Qed.

Lemma InstallDependency_stackless_first_witness :
  InstallDependency sample_host new_StacklessDependency []
  = InstallStackless sample_host "2.7.9" [].
Proof.
  apply (proj1 (InstallDependency_stackless_first sample_host
                  new_StacklessDependency eq_refl) "2.7.9" eq_refl).
Defined.

(** ** The driver: further properties *)

Lemma CheckDependencies_loop_all_pass
    (w : World) (bs : BuildSetup) (deps : list Descriptor) (i : nat) :
  Forall (fun dep => raises w bs dep = false) deps ->
  CheckDependencies_loop w bs i deps
  = {| p_deps := map (after_check w bs) deps; p_failedDeps := [];
       p_copied := copies_of_checks w bs deps; p_outcome := Ok tt |}.
Proof.
  intros Hall. revert i. induction Hall as [|dep rest Hdep _ IH]; intros i;
    [reflexivity|].
  rewrite CheckDependencies_loop_cons. cbv zeta. rewrite (IH (S i)).
  unfold raises in Hdep.
  destruct (c_outcome (Check w (set_buildSetup dep bs))) as [[]|e];
    [reflexivity|discriminate].
Qed.

(** X21: when no checker raises, [CheckDependencies] returns [True]
    without printing anything, starting any process or touching the
    virtual environment, whatever the caller asked for. *)
Theorem CheckDependencies_all_pass
    (w : World) (host : Host) (s : Session) (bs : BuildSetup)
    (deps : list Descriptor) (c : Console) :
  Forall (fun dep => raises w bs dep = false) deps ->
  CheckDependencies w host s bs deps c
  = {| d_deps := map (after_check w bs) deps;
       d_copied := copies_of_checks w bs deps;
       d_console := c;
       d_result := Ok true |}.
Proof.
  intros Hall. unfold CheckDependencies, CheckDependencies_phase1.
  rewrite (CheckDependencies_loop_all_pass w bs deps 0 Hall).
  reflexivity.
Qed.

Lemma CheckDependencies_all_pass_witness :
  d_result (CheckDependencies sample_world sample_host sample_session
              sample_buildSetup
              [new_InnoSetupDependency; sample_dll] empty_console)
  = Ok true.
Proof.
  rewrite (CheckDependencies_all_pass sample_world sample_host sample_session
             sample_buildSetup [new_InnoSetupDependency; sample_dll]
             empty_console).
  - reflexivity.
  - repeat constructor.
Defined.

Lemma phase23_not_admin
    (w : World) (host : Host) (s : Session)
    (deps : list Descriptor) (failedDeps : list nat) (c : Console) :
  authorized w s failedDeps = true ->
  s_IsAdmin s = false ->
  CheckDependencies_phase23 w host s deps failedDeps c
  = (printed c (s_WrapText s admin_error), Ok false).
Proof.
  intros Hauth Hadmin. unfold CheckDependencies_phase23.
  fold (authorized w s failedDeps). rewrite Hauth, Hadmin. reflexivity.
Qed.

(** X22: when the check phase completes with failures, the caller asks
    for remediation and the process is not a restarted one, but there are
    no administrative rights, [CheckDependencies] prints the one error
    about privileges and returns [False]: no process is started, the
    virtual environment is not touched and the list of missing
    dependencies is not printed. *)
Theorem CheckDependencies_not_admin
    (w : World) (host : Host) (s : Session) (bs : BuildSetup)
    (deps : list Descriptor) (c : Console) :
  p_outcome (CheckDependencies_phase1 w bs deps) = Ok tt ->
  p_failedDeps (CheckDependencies_phase1 w bs deps) <> [] ->
  s_make_env s = true ->
  Py.truthy (w_environ w "_REST") = false ->
  s_IsAdmin s = false ->
  CheckDependencies w host s bs deps c
  = {| d_deps := p_deps (CheckDependencies_phase1 w bs deps);
       d_copied := p_copied (CheckDependencies_phase1 w bs deps);
       d_console := printed c (s_WrapText s admin_error);
       d_result := Ok false |}.
Proof.
  intros Hdone Hsome Henv Hrest Hadmin. unfold CheckDependencies.
  rewrite Hdone, phase23_not_admin; [reflexivity| |exact Hadmin].
  unfold authorized. rewrite Henv, Hrest.
  destruct (p_failedDeps (CheckDependencies_phase1 w bs deps));
    [contradiction|reflexivity].
Qed.

Lemma CheckDependencies_not_admin_witness :
  d_result (CheckDependencies sample_world sample_host sample_session
              sample_buildSetup DEPENDENCIES empty_console)
  = Ok false
  /\ d_console (CheckDependencies sample_world sample_host sample_session
                  sample_buildSetup DEPENDENCIES empty_console)
     = {| out_history := []; out_printed := [admin_error] |}.
Proof.
  rewrite (CheckDependencies_not_admin sample_world sample_host sample_session
             sample_buildSetup DEPENDENCIES empty_console).
  - split; reflexivity.
  - vm_compute. reflexivity.
  - vm_compute. discriminate.
  - reflexivity.
  - reflexivity.
  - reflexivity.
Defined.






(** ** The remediation loop: further properties *)

Lemma remediate_loop_cons
    (host : Host) (s : Session) (deps : list Descriptor)
    (i : nat) (rest failedDeps : list nat) (dep : Descriptor) (c : Console) :
  nth_error deps i = Some dep ->
  remediate_loop host s deps (i :: rest) failedDeps c
  = let c1 := printed c ("Installing " ++ name dep ++ "...")%string in
    let c2 := {| out_history := fst (InstallDependency host dep (out_history c1));
                 out_printed := out_printed c1 |} in
    match snd (InstallDependency host dep (out_history c1)) with
    | Ok true =>
        match list_remove i failedDeps with
        | Ok failedDeps' =>
            remediate_loop host s deps rest failedDeps' (printed c2 EmptyString)
        | Raise e => (c2, Raise e)
        end
    | Ok false =>
        remediate_loop host s deps rest failedDeps
          (printed
             (printed c2 ("ERROR: Installation of " ++ name dep ++ " failed!")%string)
             EmptyString)
    | Raise e =>
        match handled s e with
        | Some text =>
            remediate_loop host s deps rest failedDeps
              (printed (printed c2 text) EmptyString)
        | None => (c2, Raise e)
        end
    end.
Proof.
  intros Hnth. cbn [remediate_loop]. unfold the_dep. rewrite Hnth.
  unfold rbind at 1. unfold rret at 1. cbv beta iota.
  unfold rbind at 1. unfold print at 1. cbv beta iota zeta.
  fold (printed c ("Installing " ++ name dep ++ "...")%string).
  unfold run.
  destruct (InstallDependency host dep
              (out_history (printed c ("Installing " ++ name dep ++ "...")%string)))
    as [h' [[|]|e]]; cbn [fst snd].
  - destruct (list_remove i failedDeps); reflexivity.
  - reflexivity.
  - destruct (handled s e); reflexivity.
Qed.

Lemma list_remove_app (i : nat) (kept rest : list nat) :
  ~ In i kept -> list_remove i (kept ++ i :: rest) = Ok (kept ++ rest).
Proof.
  induction kept as [|y kept IH]; intros Hnot.
  - cbn. now rewrite Nat.eqb_refl.
  - cbn [List.app list_remove].
    destruct (Nat.eqb_spec y i) as [->|Hne]; [exfalso; apply Hnot; now left|].
    rewrite IH by (intros Hin; apply Hnot; now right). reflexivity.
Qed.

Lemma not_installed_subsequence (refs : list nat) (installed : list bool) :
  List.length installed = List.length refs ->
  subsequence (not_installed refs installed) refs.
Proof.
  unfold not_installed. revert installed.
  induction refs as [|i refs IH]; intros [|b installed] Hlen;
    try discriminate; [constructor|].
  cbn [combine filter snd]. injection Hlen as Hlen.
  destruct b; cbn [negb map fst]; constructor; now apply IH.
Qed.

Lemma install_run_length
    (host : Host) (s : Session) (ds : list Descriptor) (h : History) :
  List.length (a_installed (install_run host s ds h)) = List.length ds.
Proof.
  revert h. induction ds as [|dep rest IH]; intros h; [reflexivity|].
  cbn [install_run a_installed List.length]. now rewrite IH.
Qed.

Lemma deref_valid_length (deps : list Descriptor) (refs : list nat) :
  (forall i, In i refs -> exists dep, nth_error deps i = Some dep) ->
  List.length (deref deps refs) = List.length refs.
Proof.
  induction refs as [|i refs IH]; intros Hvalid; [reflexivity|].
  destruct (Hvalid i (or_introl eq_refl)) as [dep Hdep].
  unfold deref in *. cbn [flat_map]. rewrite Hdep. cbn [List.app List.length].
  rewrite IH; [reflexivity|]. intros j Hj. apply Hvalid. now right.
Qed.

Lemma remediate_loop_run
    (host : Host) (s : Session) (deps : list Descriptor) (todo : list nat) :
  forall (kept : list nat) (c : Console),
    NoDup (kept ++ todo) ->
    (forall i, In i todo -> exists dep, nth_error deps i = Some dep) ->
    (forall i dep h e,
        In i todo -> nth_error deps i = Some dep ->
        snd (InstallDependency host dep h) = Raise e ->
        e = MissingChocolatey \/ e = MissingPip \/ e = MissingPowerShell) ->
    remediate_loop host s deps todo (kept ++ todo) c
    = ({| out_history :=
            a_history (install_run host s (deref deps todo) (out_history c));
          out_printed :=
            out_printed c
            ++ a_lines (install_run host s (deref deps todo) (out_history c)) |},
       Ok (kept
           ++ not_installed todo
                (a_installed (install_run host s (deref deps todo) (out_history c))))).
Proof.
  induction todo as [|i rest IH]; intros kept c Hnd Hvalid Hexn.
  - cbn. rewrite !app_nil_r. now destruct c.
  - destruct (Hvalid i (or_introl eq_refl)) as [dep Hdep].
    assert (deref deps (i :: rest) = dep :: deref deps rest) as ->
      by (unfold deref; cbn [flat_map]; now rewrite Hdep).
    assert (forall j, In j rest -> exists d, nth_error deps j = Some d) as Hvalid'
      by (intros j Hj; apply Hvalid; now right).
    assert (forall j d h e,
               In j rest -> nth_error deps j = Some d ->
               snd (InstallDependency host d h) = Raise e ->
               e = MissingChocolatey \/ e = MissingPip \/ e = MissingPowerShell)
      as Hexn' by (intros j d h e Hj; apply Hexn; now right).
    assert (NoDup ((kept ++ [i]) ++ rest)) as Hnd_keep
      by now rewrite <- app_assoc.
    assert (kept ++ i :: rest = (kept ++ [i]) ++ rest) as Hshift
      by now rewrite <- app_assoc.
    rewrite (remediate_loop_cons host s deps i rest (kept ++ i :: rest) dep c Hdep).
    cbv zeta. cbn [install_run a_history a_lines a_installed].
    cbn [printed out_history].
    unfold not_installed.
    destruct (InstallDependency host dep (out_history c)) as [h' r] eqn:Hinst.
    cbn [fst snd].
    destruct r as [[|]|e].
    + rewrite (list_remove_app i kept rest)
        by (intros Hin; apply (NoDup_remove_2 _ _ _ Hnd); apply in_or_app; now left).
      rewrite (IH kept _ (NoDup_remove_1 _ _ _ Hnd) Hvalid' Hexn').
      cbn [printed out_history out_printed attempt_lines succeeded combine
           filter snd negb].
      rewrite <- ?app_assoc. cbn [List.app]. reflexivity.
    + rewrite Hshift, (IH (kept ++ [i]) _ Hnd_keep Hvalid' Hexn').
      cbn [printed out_history out_printed attempt_lines succeeded combine
           filter snd negb map fst].
      rewrite <- ?app_assoc. cbn [List.app]. reflexivity.
    + assert (snd (InstallDependency host dep (out_history c)) = Raise e) as Hres
        by now rewrite Hinst.
      destruct (Hexn i dep _ e (or_introl eq_refl) Hdep Hres) as [-> | [-> | ->]];
        cbn [handled];
        rewrite Hshift, (IH (kept ++ [i]) _ Hnd_keep Hvalid' Hexn');
        cbn [printed out_history out_printed attempt_lines succeeded combine
             filter snd negb map fst handled];
        rewrite <- ?app_assoc; cbn [List.app]; reflexivity.
Qed.

(** X24: the three infrastructure failures never end the remediation
    loop. When the entries of the failure list are distinct and denote
    descriptors, and no install raises anything but [MissingChocolatey],
    [MissingPip] or [MissingPowerShell], the loop runs the install of
    every failing descriptor, in order, each in the history the one
    before left, prints for each its announcement, the error of a failed
    or impossible install and an empty line, and ends without an
    exception; the list it leaves holds exactly the entries whose install
    did not return a true value, in their order. *)
Theorem remediate_loop_completes
    (host : Host) (s : Session) (deps : list Descriptor)
    (failedDeps : list nat) (c : Console) :
  NoDup failedDeps ->
  (forall i, In i failedDeps -> exists dep, nth_error deps i = Some dep) ->
  (forall i dep h e,
      In i failedDeps -> nth_error deps i = Some dep ->
      snd (InstallDependency host dep h) = Raise e ->
      e = MissingChocolatey \/ e = MissingPip \/ e = MissingPowerShell) ->
  let run := install_run host s (deref deps failedDeps) (out_history c) in
  remediate_loop host s deps failedDeps failedDeps c
  = ({| out_history := a_history run;
        out_printed := out_printed c ++ a_lines run |},
     Ok (not_installed failedDeps (a_installed run)))
  /\ List.length (a_installed run) = List.length failedDeps
  /\ subsequence (not_installed failedDeps (a_installed run)) failedDeps.
Proof.
  intros Hnd Hvalid Hexn run.
  assert (List.length (a_installed run) = List.length failedDeps) as Hlen
    by (subst run; now rewrite install_run_length, deref_valid_length).
  split; [|split; [exact Hlen|now apply not_installed_subsequence]].
  apply (remediate_loop_run host s deps failedDeps [] c Hnd Hvalid Hexn).
Qed.

Lemma remediate_loop_completes_witness :
  remediate_loop bare_host admin_session
    [new_PyWin32Dependency; new_InnoSetupDependency] [0; 1]%nat [0; 1]%nat
    empty_console
  = ({| out_history := [bootstrap_command];
        out_printed :=
          attempt_lines admin_session new_PyWin32Dependency (Raise MissingPip)
          ++ attempt_lines admin_session new_InnoSetupDependency
               (Raise MissingPowerShell) |},
     Ok [0; 1]%nat).
Proof.
  destruct (remediate_loop_completes bare_host admin_session
              [new_PyWin32Dependency; new_InnoSetupDependency]
              [0; 1]%nat empty_console) as (Hloop & _).
  - repeat constructor; cbn; intuition lia.
  - intros i [<- | [<- | []]]; eexists; reflexivity.
  - intros i dep h e [<- | [<- | []]] Hdep Hres;
      injection Hdep as <-; vm_compute in Hres;
      injection Hres as <-; auto.
  - rewrite Hloop. reflexivity.
Defined.

Lemma install_run_all_succeed
    (host : Host) (s : Session) (ds : list Descriptor) (h : History) :
  (forall dep h', In dep ds -> snd (InstallDependency host dep h') = Ok true) ->
  a_lines (install_run host s ds h)
  = flat_map (fun dep => [("Installing " ++ name dep ++ "...")%string; EmptyString]) ds
  /\ forall refs, not_installed refs (a_installed (install_run host s ds h)) = [].
Proof.
  revert h. induction ds as [|dep rest IH]; intros h Hok.
  - split; [reflexivity|]. intros refs. unfold not_installed.
    now destruct refs.
  - cbn [install_run a_lines a_installed flat_map].
    rewrite (Hok dep h (or_introl eq_refl)).
    destruct (IH (fst (InstallDependency host dep h))) as [Hlines Hnone];
      [intros d h' Hd; apply Hok; now right|].
    split.
    + rewrite Hlines. reflexivity.
    + intros [|i refs]; [reflexivity|].
      unfold not_installed in *. cbn [succeeded combine filter snd negb].
      apply Hnone.
Qed.

Lemma raising_positions_bound
    (w : World) (bs : BuildSetup) (deps : list Descriptor) (i j : nat) :
  In j (raising_positions w bs i deps) ->
  (i <= j)%nat
  /\ exists d, nth_error deps (j - i) = Some d /\ raises w bs d = true.
Proof.
  unfold raising_positions. revert i.
  induction deps as [|d deps IH]; intros i Hin; [contradiction|].
  cbn [List.length seq combine filter snd] in Hin.
  assert (In j (map fst (filter (fun p => raises w bs (snd p))
                                (combine (seq (S i) (List.length deps)) deps))) ->
          (i <= j)%nat
          /\ exists d', nth_error (d :: deps) (j - i) = Some d'
                        /\ raises w bs d' = true) as Hrest.
  { intros Hin'. destruct (IH (S i) Hin') as (Hle & d' & Hnth & Hr).
    split; [lia|]. exists d'. split; [|exact Hr].
    replace (j - i)%nat with (S (j - S i)) by lia. exact Hnth. }
  destruct (raises w bs d) eqn:Hd; [|now apply Hrest].
  cbn [map fst] in Hin. destruct Hin as [<- | Hin]; [|now apply Hrest].
  split; [lia|]. exists d. rewrite Nat.sub_diag. now split.
Qed.

Lemma raising_positions_NoDup
    (w : World) (bs : BuildSetup) (deps : list Descriptor) (i : nat) :
  NoDup (raising_positions w bs i deps).
Proof.
  revert i. induction deps as [|d deps IH]; intros i; [constructor|].
  unfold raising_positions. cbn [List.length seq combine filter snd].
  fold (raising_positions w bs (S i) deps).
  destruct (raises w bs d); [|apply IH].
  cbn [map fst]. constructor; [|apply IH].
  intros Hin. apply raising_positions_bound in Hin as [Hle _]. lia.
Qed.

(** X25: an authorized run with administrative rights, in a virtual
    environment that is running and whose restart returns, returns [True]
    as soon as every install of a failing descriptor reports success. The
    installs are run for the failing descriptors in declaration order; for
    each only its announcement and an empty line are printed, then the
    rule, and after the restart nothing more: nothing is reported as
    missing, and no checker is run again to confirm the installation. *)
Theorem CheckDependencies_all_installed
    (w : World) (host : Host) (s : Session) (bs : BuildSetup)
    (deps : list Descriptor) (c : Console) :
  p_outcome (CheckDependencies_phase1 w bs deps) = Ok tt ->
  authorized w s (p_failedDeps (CheckDependencies_phase1 w bs deps)) = true ->
  s_IsAdmin s = true ->
  (forall c0, snd (ve_Running s c0) = Ok true) ->
  (forall c0, snd (ve_Restart s c0) = Ok tt) ->
  (forall dep h, In dep (failing w bs deps) ->
                 snd (InstallDependency host dep h) = Ok true) ->
  let c1 := fst (ve_Running s c) in
  let run := install_run host s (failing w bs deps) (out_history c1) in
  CheckDependencies w host s bs deps c
  = {| d_deps := map (after_check w bs) deps;
       d_copied := p_copied (CheckDependencies_phase1 w bs deps);
       d_console :=
         fst (ve_Restart s
                {| out_history := a_history run;
                   out_printed :=
                     out_printed c1
                     ++ flat_map
                          (fun dep =>
                             [("Installing " ++ name dep ++ "...")%string;
                              EmptyString])
                          (failing w bs deps)
                     ++ [("---" ++ newline)%string] |});
       d_result := Ok true |}.
Proof.
  intros Hdone Hauth Hadmin Hrun Hrestart Hok c1 run.
  unfold CheckDependencies. rewrite Hdone.
  unfold CheckDependencies_phase23.
  fold (authorized w s (p_failedDeps (CheckDependencies_phase1 w bs deps))).
  rewrite Hauth, Hadmin. cbn [negb].
  unfold CheckDependencies_phase1 in *.
  destruct (CheckDependencies_loop_completed w bs deps 0 Hdone) as (Hf & Hd & _).
  rewrite Hd.
  assert (p_failedDeps (CheckDependencies_loop w bs 0 deps)
          = raising_positions w bs 0 deps) as Hpos by exact Hf.
  rewrite Hpos.
  assert (deref (map (after_check w bs) deps) (raising_positions w bs 0 deps)
          = failing w bs deps) as Hderef
    by apply (deref_positions (after_check w bs) (raises w bs) [] deps).
  unfold rbind at 1. unfold ensure_virtualenv. unfold rbind at 1.
  pose proof (Hrun c) as Hrunc.
  destruct (ve_Running s c) as [c1' r1] eqn:Hve. cbn [snd] in Hrunc. subst r1.
  cbn [negb]. unfold rret at 1. unfold rbind at 1.
  assert (c1 = c1') as Hc1 by (subst c1; rewrite ?Hve; reflexivity).
  change (raising_positions w bs 0 deps)
    with ([] ++ raising_positions w bs 0 deps) at 2.
  rewrite (remediate_loop_run host s (map (after_check w bs) deps)
             (raising_positions w bs 0 deps) [] c1').
  - rewrite Hderef.
    destruct (install_run_all_succeed host s (failing w bs deps)
                (out_history c1') Hok) as [Hlines Hnone].
    rewrite Hlines, Hnone. cbn [List.app].
    unfold rbind at 1. unfold print at 1. unfold rbind at 1.
    cbn [out_history out_printed].
    pose proof (Hrestart
                  {| out_history :=
                       a_history (install_run host s (failing w bs deps)
                                    (out_history c1'));
                     out_printed :=
                       (out_printed c1'
                        ++ flat_map
                             (fun dep =>
                                [("Installing " ++ name dep ++ "...")%string;
                                 EmptyString])
                             (failing w bs deps))
                       ++ [("---" ++ newline)%string] |}) as Hr.
    destruct (ve_Restart s _) as [c3 r3] eqn:Hve3. cbn [snd] in Hr. subst r3.
    subst run. rewrite Hc1. rewrite <- app_assoc in Hve3.
    rewrite Hve3. reflexivity.
  - apply raising_positions_NoDup.
  - intros i Hi. apply raising_positions_bound in Hi as (_ & d & Hnth & _).
    rewrite Nat.sub_0_r in Hnth. exists (after_check w bs d).
    now rewrite nth_error_map, Hnth.
  - intros i dep h e Hi Hdep Hres.
    apply raising_positions_bound in Hi as (_ & d & Hnth & Hr).
    rewrite Nat.sub_0_r in Hnth.
    rewrite nth_error_map, Hnth in Hdep. injection Hdep as <-.
    rewrite Hok in Hres; [discriminate|].
    unfold failing. apply in_map. apply filter_In. split; [|exact Hr].
    now apply (nth_error_In deps i).
Qed.

Lemma CheckDependencies_all_installed_witness :
  CheckDependencies sample_world sample_host admin_session sample_buildSetup
    [new_ModuleDependency "comtypes" "comtypes" "1.1.2" None None;
     new_PyWin32Dependency] empty_console
  = {| d_deps :=
         [set_buildSetup
            (new_ModuleDependency "comtypes" "comtypes" "1.1.2" None None)
            sample_buildSetup;
          set_buildSetup new_PyWin32Dependency sample_buildSetup];
       d_copied := [];
       d_console :=
         {| out_history :=
              [["c:/python27/scripts/pip.exe"; "install"; "comtypes"; "-U"];
               ["c:/python27/scripts/pip.exe"; "install";
                "https://eventghost.github.io/dist/dependencies/pywin32-220-cp27-none-win32.whl";
                "-U"]];
            out_printed :=
              ["Installing comtypes..."; EmptyString;
               "Installing pywin32..."; EmptyString;
               ("---" ++ newline)%string] |};
       d_result := Ok true |}.
Proof.
  rewrite (CheckDependencies_all_installed sample_world sample_host admin_session
             sample_buildSetup
             [new_ModuleDependency "comtypes" "comtypes" "1.1.2" None None;
              new_PyWin32Dependency] empty_console).
  - reflexivity.
  - reflexivity.
  - reflexivity.
  - reflexivity.
  - intros c0. reflexivity.
  - intros c0. reflexivity.
  - intros dep h [<- | [<- | []]]; reflexivity.
Defined.

(** X26: an exception of an install that is none of the three handled
    ones leaves the remediation loop at once: it is raised to the caller
    after the announcement of that install, the descriptors after it are
    not attempted and nothing more is printed. *)
Theorem remediate_loop_escapes
    (host : Host) (s : Session) (deps : list Descriptor)
    (i : nat) (rest failedDeps : list nat) (dep : Descriptor)
    (c : Console) (e : exn) :
  nth_error deps i = Some dep ->
  let c1 := printed c ("Installing " ++ name dep ++ "...")%string in
  snd (InstallDependency host dep (out_history c1)) = Raise e ->
  e <> MissingChocolatey -> e <> MissingPip -> e <> MissingPowerShell ->
  remediate_loop host s deps (i :: rest) failedDeps c
  = ({| out_history := fst (InstallDependency host dep (out_history c1));
        out_printed := out_printed c1 |},
     Raise e).
Proof.
  intros Hdep c1 Hres H1 H2 H3.
  rewrite (remediate_loop_cons host s deps i rest failedDeps dep c Hdep).
  cbv zeta. fold c1. rewrite Hres.
  destruct e; try reflexivity; contradiction.
Qed.

Lemma remediate_loop_escapes_witness :
  remediate_loop sample_host admin_session
    [new_ModuleDependency "docs" "docs" "1.0" None
       (Some "https://example.org/docs-1.0.tar.gz");
     new_PyWin32Dependency]
    [0; 1]%nat [0; 1]%nat empty_console
  = ({| out_history := []; out_printed := ["Installing docs..."] |},
     Raise MissingInstallMethod).
Proof.
  apply (remediate_loop_escapes sample_host admin_session
           [new_ModuleDependency "docs" "docs" "1.0" None
              (Some "https://example.org/docs-1.0.tar.gz");
            new_PyWin32Dependency]
           0%nat [1%nat] [0; 1]%nat
           (new_ModuleDependency "docs" "docs" "1.0" None
              (Some "https://example.org/docs-1.0.tar.gz"))
           empty_console MissingInstallMethod);
    try reflexivity; discriminate.
Defined.

(** ** Texts: further properties *)

Lemma join_cons_char (sep : string) (c : ascii) (h : string) (t : list string) :
  Py.join sep (String c h :: t) = String c (Py.join sep (h :: t)).
Proof. destruct t; reflexivity. Qed.

Lemma join_split (sep : ascii) (s : string) :
  Py.join (String sep EmptyString) (Py.split sep s) = s.
Proof.
  induction s as [|c r IH]; [reflexivity|].
  cbn [Py.split]. destruct (Ascii.eqb_spec c sep) as [->|Hne].
  - pose proof (split_not_nil sep r) as Hnil.
    destruct (Py.split sep r) as [|h t] eqn:Hs; [contradiction|].
    change (Py.join (String sep EmptyString) (EmptyString :: h :: t))
      with (String sep (Py.join (String sep EmptyString) (h :: t))).
    now rewrite IH.
  - pose proof (split_not_nil sep r) as Hnil.
    destruct (Py.split sep r) as [|h t] eqn:Hs; [contradiction|].
    now rewrite join_cons_char, IH.
Qed.

Lemma split_join (sep : ascii) (l : list string) :
  l <> [] ->
  Forall (fun x => Py.contains sep x = false) l ->
  Py.split sep (Py.join (String sep EmptyString) l) = l.
Proof.
  induction l as [|x t IH]; intros Hne Hall; [contradiction|].
  inversion Hall as [|? ? Hx Ht]; subst.
  destruct t as [|y t'].
  - now apply split_no_sep.
  - change (Py.join (String sep EmptyString) (x :: y :: t'))
      with (x ++ String sep (Py.join (String sep EmptyString) (y :: t')))%string.
    rewrite split_app, IH by (discriminate || assumption).
    now rewrite (split_no_sep _ _ Hx).
Qed.

(** X27: splitting a text at the dots and joining the pieces with dots
    gives the text back, and joining a non-empty list of dot-free pieces
    and splitting the result gives the list back; so a version kept as a
    tuple is compared item by item, exactly as its items are. *)
Theorem split_join_round_trip :
  (forall s, Py.join "." (Py.split "." s) = s)
  /\ (forall l, l <> [] ->
        Forall (fun x => Py.contains "." x = false) l ->
        Py.split "." (Py.join "." l) = l)
  /\ (forall items wanted,
        items <> [] ->
        Forall (fun x => Py.contains "." x = false) items ->
        forall text, version_text (VSeq items) = Ok text ->
        compared text wanted = combine (Py.split "." wanted) items).
Proof.
  split; [|split].
  - intros s. apply (join_split "." s).
  - intros l. apply (split_join "." l).
  - intros items wanted Hne Hall text Htext. injection Htext as <-.
    unfold compared. now rewrite (split_join "." items Hne Hall).
Qed.

Lemma split_join_round_trip_witness :
  compared (Py.join "." ["3"; "0"; "2"; "1"]) "3.0.2.0"
  = [("3", "3"); ("0", "0"); ("2", "2"); ("0", "1")].
Proof.
  apply (proj2 (proj2 split_join_round_trip) ["3"; "0"; "2"; "1"] "3.0.2.0").
  - discriminate.
  - repeat constructor.
  - reflexivity.
Defined.

Lemma readline_first (v rest : string) :
  no_blank v = true ->
  Py.readline (v ++ String "010" rest) = (v ++ newline)%string.
Proof.
  induction v as [|c r IH]; intros Hv; [reflexivity|].
  cbn [no_blank] in Hv. apply andb_true_iff in Hv as [Hc Hr].
  cbn [String.append Py.readline].
  destruct (Ascii.eqb_spec c "010") as [->|Hne]; [discriminate|].
  now rewrite (IH Hr).
Qed.

Lemma readline_whole (v : string) :
  no_blank v = true -> Py.readline v = v.
Proof.
  induction v as [|c r IH]; intros Hv; [reflexivity|].
  cbn [no_blank] in Hv. apply andb_true_iff in Hv as [Hc Hr].
  cbn [Py.readline].
  destruct (Ascii.eqb_spec c "010") as [->|Hne]; [discriminate|].
  now rewrite (IH Hr).
Qed.

Lemma lstrip_no_blank (v tail : string) :
  no_blank v = true -> v <> EmptyString ->
  Py.lstrip (v ++ tail) = (v ++ tail)%string.
Proof.
  destruct v as [|c r]; intros Hv Hne; [contradiction|].
  cbn [no_blank] in Hv. apply andb_true_iff in Hv as [Hc _].
  cbn [String.append Py.lstrip].
  now destruct (Py.is_space c).
Qed.

Lemma rstrip_no_blank (v : string) :
  no_blank v = true ->
  Py.rstrip v = v /\ Py.rstrip (v ++ newline) = v.
Proof.
  induction v as [|c r IH]; intros Hv; [split; reflexivity|].
  cbn [no_blank] in Hv. apply andb_true_iff in Hv as [Hc Hr].
  destruct (IH Hr) as [IH1 IH2].
  cbn [String.append Py.rstrip]. rewrite IH1, IH2.
  destruct (Py.is_space c); [discriminate|].
  destruct r; split; reflexivity.
Qed.

Lemma strip_first_line (v rest : string) :
  no_blank v = true ->
  Py.strip (Py.readline (v ++ String "010" rest)) = v
  /\ Py.strip (Py.readline v) = v.
Proof.
  intros Hv. rewrite (readline_first _ _ Hv), (readline_whole _ Hv).
  unfold Py.strip. destruct v as [|c r] eqn:Hvv.
  - split; reflexivity.
  - rewrite <- Hvv in *.
    assert (v <> EmptyString) as Hne by (rewrite Hvv; discriminate).
    rewrite (lstrip_no_blank v newline Hv Hne).
    pose proof (lstrip_no_blank v EmptyString Hv Hne) as Hl.
    assert (forall t : string, (t ++ EmptyString)%string = t) as Happ
      by (induction t as [|? ? IHt]; [reflexivity|cbn; now rewrite IHt]).
    rewrite Happ in Hl. rewrite Hl.
    destruct (rstrip_no_blank v Hv) as [H1 H2]. now split.
Qed.

Lemma CompareVersion_empty_actual (wanted : string) :
  CompareVersion EmptyString wanted = Raise ValueError.
Proof.
  rewrite CompareVersion_pairs.
  destruct (compared_first EmptyString wanted) as [rest ->].
  apply compare_pairs_no_digit. intros [_ Ha]. discriminate.
Qed.

(** X28: of the version file of pywin32 only the first line counts,
    without its line end: when the file starts with a blank-free text [v]
    followed by a line end, or holds nothing but [v], the check is the
    comparison of [v] with the required version, whatever follows the
    first line; an empty first line therefore raises [ValueError]. *)
Theorem PyWin32Dependency_Check_first_line
    (w : World) (self : Descriptor) (v rest content : string) :
  no_blank v = true ->
  content = (v ++ String "010" rest)%string \/ content = v ->
  w_read w (pywin32_version_path w) = Some content ->
  PyWin32Dependency_Check w self = check_version v (version self)
  /\ (v = EmptyString -> version self <> None ->
      PyWin32Dependency_Check w self = Raise ValueError).
Proof.
  intros Hv Hcontent Hread.
  assert (PyWin32Dependency_Check w self = check_version v (version self)) as H.
  { unfold PyWin32Dependency_Check. rewrite Hread.
    destruct (strip_first_line v rest Hv) as [H1 H2].
    destruct Hcontent as [-> | ->]; cbv zeta; now rewrite ?H1, ?H2. }
  split; [exact H|].
  intros -> Hset. rewrite H. unfold check_version.
  destruct (version self) as [wanted|]; [|contradiction].
  cbn [attribute bind].
  now rewrite CompareVersion_empty_actual.
Qed.

Lemma PyWin32Dependency_Check_first_line_witness :
  PyWin32Dependency_Check
    (world_with_file "C:/Python27/lib/site-packages/pywin32.version.txt"
       ("221" ++ String "010" "built from source"))
    new_PyWin32Dependency
  = check_version "221" (Some "220").
Proof.
  apply (PyWin32Dependency_Check_first_line
           (world_with_file "C:/Python27/lib/site-packages/pywin32.version.txt"
              ("221" ++ String "010" "built from source"))
           new_PyWin32Dependency "221" "built from source"
           ("221" ++ String "010" "built from source")).
  - reflexivity.
  - left. reflexivity.
  - reflexivity.
Defined.

(** ** The module check: further properties *)

Lemma module_version_first_present (attr : option string) (m : PyModule) :
  module_version attr m
  = match first_present m (candidates attr) with
    | Some v => Ok v
    | None => Raise (PlainException "Can't get version information")
    end.
Proof.
  unfold module_version, candidates.
  destruct attr as [[|c a]|]; cbn [Py.truthy List.app first_present].
  - destruct (m "__version__"); [reflexivity|].
    destruct (m "VERSION"); [reflexivity|].
    destruct (m "version"); reflexivity.
  - destruct (m (String c a)); [reflexivity|].
    destruct (m "__version__"); [reflexivity|].
    destruct (m "VERSION"); [reflexivity|].
    destruct (m "version"); reflexivity.
  - destruct (m "__version__"); [reflexivity|].
    destruct (m "VERSION"); [reflexivity|].
    destruct (m "version"); reflexivity.
Qed.

Lemma CompareVersion_four (actual wanted : string) :
  CompareVersion actual wanted = Ok (-1)%Z
  \/ CompareVersion actual wanted = Ok 0%Z
  \/ CompareVersion actual wanted = Ok 1%Z
  \/ CompareVersion actual wanted = Raise ValueError.
Proof.
  rewrite CompareVersion_pairs.
  destruct (compare_pairs_cases (compared actual wanted))
    as [[_ H] | (pre & w & a & post & _ & [[_ H] | [(_ & _ & H) | (_ & _ & H)]])];
    rewrite H; auto.
Qed.

(** X29: for a module that can be imported, the version marker is the
    value of the first attribute the module has among the descriptor's
    [attr] (if it is a non-empty name), [__version__], [VERSION] and
    [version]. The check raises [WrongVersion] exactly when that marker
    gives a version text that compares as -1 against the required
    version, and is satisfied exactly when it compares as 0 or 1. *)
Theorem ModuleDependency_Check_verdict
    (w : World) (self : Descriptor) (m : string) (loaded : PyModule) :
  module self = Some m ->
  w_import w m = Ok loaded ->
  let marker_compares (c : Z) :=
    exists found actual wanted,
      first_present loaded (candidates (attr self)) = Some found
      /\ version_text found = Ok actual
      /\ version self = Some wanted
      /\ CompareVersion actual wanted = Ok c in
  (ModuleDependency_Check w self = Raise WrongVersion
   <-> marker_compares (-1)%Z)
  /\ (ModuleDependency_Check w self = Ok tt
      <-> marker_compares 0%Z \/ marker_compares 1%Z).
Proof.
  intros Hmod Himp marker_compares. subst marker_compares.
  unfold ModuleDependency_Check. rewrite Hmod, Himp.
  rewrite module_version_first_present.
  destruct (first_present loaded (candidates (attr self))) as [found|];
    cbn [bind].
  2:{ split; split; intros H; try discriminate H.
      - destruct H as (? & ? & ? & H & _). discriminate H.
      - destruct H as [(? & ? & ? & H & _) | (? & ? & ? & H & _)]; discriminate H. }
  destruct (version_text found) as [actual|e] eqn:Htext; cbn [bind].
  2:{ assert (e = TypeError) as ->
        by (destruct found; cbn in Htext; congruence).
      split; split; intros H; try discriminate H.
      - destruct H as (? & ? & ? & H1 & H2 & _). congruence.
      - destruct H as [(? & ? & ? & H1 & H2 & _) | (? & ? & ? & H1 & H2 & _)];
          congruence. }
  unfold check_version.
  destruct (version self) as [wanted|] eqn:Hver; cbn [attribute bind].
  2:{ split; split; intros H; try discriminate H.
      - destruct H as (? & ? & ? & _ & _ & H & _). discriminate H.
      - destruct H as [(? & ? & ? & _ & _ & H & _) | (? & ? & ? & _ & _ & H & _)];
          discriminate H. }
  destruct (CompareVersion_four actual wanted) as [Hc | [Hc | [Hc | Hc]]];
    rewrite Hc; cbn [bind Z.ltb Z.compare];
    (split; split;
     [ intros H; try discriminate H; eauto 10
     | intros H;
       try (destruct H as (f & a & v & H1 & H2 & H3 & H4);
            injection H1 as <-; rewrite Htext in H2; injection H2 as <-;
            injection H3 as <-; congruence);
       try reflexivity
     | intros H; try discriminate H; eauto 10
     | intros H;
       try (destruct H as [(f & a & v & H1 & H2 & H3 & H4)
                          | (f & a & v & H1 & H2 & H3 & H4)];
            injection H1 as <-; rewrite Htext in H2; injection H2 as <-;
            injection H3 as <-; congruence);
       try reflexivity ]).
Qed.

Lemma ModuleDependency_Check_verdict_witness :
  ModuleDependency_Check sample_world
    (new_ModuleDependency "comtypes" "comtypes" "1.1.2" None None)
  = Raise WrongVersion.
Proof.
  apply (proj1 (ModuleDependency_Check_verdict sample_world
                  (new_ModuleDependency "comtypes" "comtypes" "1.1.2" None None)
                  "comtypes" (module_with "__version__" (VStr "1.1.0"))
                  eq_refl eq_refl)).
  exists (VStr "1.1.0"), "1.1.0", "1.1.2". repeat split.
Defined.

(** ** The pip path: further properties *)

Lemma rstrip_chars_split (s chars : string) :
  exists suffix,
    s = (rstrip_chars s chars ++ suffix)%string
    /\ all_in chars suffix = true
    /\ ends_in chars (rstrip_chars s chars) = false.
Proof.
  induction s as [|c r (suffix & Hs & Hall & Hend)].
  - exists EmptyString. repeat split.
  - cbn [rstrip_chars].
    destruct (rstrip_chars r chars) as [|c' r'] eqn:Hr.
    + cbn [String.append] in Hs.
      destruct (Py.contains c chars) eqn:Hc.
      * exists (String c suffix). split; [|split].
        -- cbn [String.append]. now f_equal.
        -- cbn [all_in]. now rewrite Hc, Hall.
        -- reflexivity.
      * exists suffix. split; [|split].
        -- cbn [String.append]. now f_equal.
        -- exact Hall.
        -- cbn [ends_in]. exact Hc.
    + exists suffix. split; [|split].
      * cbn [String.append] in *. now f_equal.
      * exact Hall.
      * exact Hend.
Qed.

(** X30: [rstrip("scripts")] removes trailing characters that occur in
    the word, not the word itself: the directory pip is looked for in is
    the lower-cased directory of the interpreter cut back to its longest
    beginning that does not end in one of the letters c, i, p, r, s, t. *)
Theorem GetPipPath_directory (host : Host) :
  exists dir suffix,
    pip_exe host = h_join host [dir; "scripts"; "pip.exe"]
    /\ Py.lower (h_dirname host (h_executable host)) = (dir ++ suffix)%string
    /\ all_in "scripts" suffix = true
    /\ ends_in "scripts" dir = false
    /\ forall h, GetPipPath host h
                 = (h, Ok (if h_exists host h (h_join host [dir; "scripts"; "pip.exe"])
                           then h_join host [dir; "scripts"; "pip.exe"]
                           else EmptyString)).
Proof.
  destruct (rstrip_chars_split (Py.lower (h_dirname host (h_executable host)))
              "scripts") as (suffix & Hs & Hall & Hend).
  exists (rstrip_chars (Py.lower (h_dirname host (h_executable host))) "scripts"),
    suffix.
  repeat split; assumption || reflexivity.
Qed.

Example GetPipPath_directory_apps :
  pip_exe apps_host = "c:/a/scripts/pip.exe".
Proof. reflexivity. Qed.
